(** * tarkov-data: the three API clients, embedded and checked against their specification

    The repository holds three Python scripts:
    - [eft_api_client.py]   (module [EftApi] below),
    - [eft_bsg_client.py]   (module [EftBsg]),
    - [tarkov_api_client.py] (module [TarkovDev]).

    Python values are modelled by the type [json] (a parsed JSON document is
    exactly what the scripts pass around), Python [str] by [string], [bytes]
    by [list byte], unbounded Python [int] by [Z].  A [str] is held as the
    bytes of its UTF-8 encoding; slicing, [len] and [strip] work on its
    characters (code points), not on its bytes.  Exceptions are explicit:
    a computation returns [Ret v] or [Raise e], and threads a state that holds
    the mutable objects and the outside world (file system, entropy source,
    the log of HTTP requests issued, the lines printed).

    Third-party code (zlib, json, requests, the remote servers, the operating
    system's entropy) is not part of the repository: it is a parameter, the
    record [Env].  MD5 (hashlib) is implemented, since several properties
    depend on the digests themselves.

    What the model leaves out: the progress lines the scripts print, except
    the report lines of the per-endpoint loops and the expressions inside a
    printed line that can raise; failures of the file system (a write or a
    mkdir always succeeds); the decoding and the newline translation of
    [read_text()], so that a file is read as the text it stores, which is
    exact for the files the scripts write and for every file of UTF-8 text
    without carriage return; and numbers that are not integers. *)

From Stdlib Require Import ZArith List Bool Lia.
From Stdlib.Strings Require Import String Ascii Byte.
From Stdlib.Numbers Require Import DecimalString DecimalZ.
From stdpp Require Import base gmap strings.
Import ListNotations.

Local Open Scope string_scope.
Local Open Scope Z_scope.

(* ================================================================== *)
(** * Part I: definitions *)
(* ================================================================== *)

(** ** hashlib.md5 (RFC 1321) *)

Module MD5.

Definition w32 (z : Z) : Z := z mod 2 ^ 32.

Definition lnot32 (x : Z) : Z := Z.lxor x 4294967295.

Definition rotl32 (x s : Z) : Z :=
  w32 (Z.lor (Z.shiftl x s) (Z.shiftr x (32 - s))).

Definition K : list Z :=
  [ 3614090360; 3905402710;  606105819; 3250441966;
    4118548399; 1200080426; 2821735955; 4249261313;
    1770035416; 2336552879; 4294925233; 2304563134;
    1804603682; 4254626195; 2792965006; 1236535329;
    4129170786; 3225465664;  643717713; 3921069994;
    3593408605;   38016083; 3634488961; 3889429448;
     568446438; 3275163606; 4107603335; 1163531501;
    2850285829; 4243563512; 1735328473; 2368359562;
    4294588738; 2272392833; 1839030562; 4259657740;
    2763975236; 1272893353; 4139469664; 3200236656;
     681279174; 3936430074; 3572445317;   76029189;
    3654602809; 3873151461;  530742520; 3299628645;
    4096336452; 1126891415; 2878612391; 4237533241;
    1700485571; 2399980690; 4293915773; 2240044497;
    1873313359; 4264355552; 2734768916; 1309151649;
    4149444226; 3174756917;  718787259; 3951481745 ].

Definition S : list Z :=
  [ 7; 12; 17; 22; 7; 12; 17; 22; 7; 12; 17; 22; 7; 12; 17; 22;
    5;  9; 14; 20; 5;  9; 14; 20; 5;  9; 14; 20; 5;  9; 14; 20;
    4; 11; 16; 23; 4; 11; 16; 23; 4; 11; 16; 23; 4; 11; 16; 23;
    6; 10; 15; 21; 6; 10; 15; 21; 6; 10; 15; 21; 6; 10; 15; 21 ].

(** The four chaining words A, B, C, D. *)
Record regs := Regs { rA : Z; rB : Z; rC : Z; rD : Z }.

Definition init : regs := Regs 1732584193 4023233417 2562383102 271733878.

Definition byte_val (b : byte) : Z := Z.of_N (Byte.to_N b).

(** Little-endian 32-bit word number [j] of a 64-byte block. *)
Definition word_at (blk : list Z) (j : nat) : Z :=
  nth (4 * j) blk 0 + 256 * nth (4 * j + 1) blk 0
  + 65536 * nth (4 * j + 2) blk 0 + 16777216 * nth (4 * j + 3) blk 0.

Definition round (blk : list Z) (r : regs) (i : nat) : regs :=
  let '(Regs a b c d) := r in
  let iz := Z.of_nat i in
  let '(f, g) :=
    if iz <? 16 then (Z.lor (Z.land b c) (Z.land (lnot32 b) d), iz)
    else if iz <? 32 then (Z.lor (Z.land d b) (Z.land (lnot32 d) c), (5 * iz + 1) mod 16)
    else if iz <? 48 then (Z.lxor (Z.lxor b c) d, (3 * iz + 5) mod 16)
    else (Z.lxor c (Z.lor b (lnot32 d)), (7 * iz) mod 16) in
  let f' := w32 (f + a + nth i K 0 + word_at blk (Z.to_nat g)) in
  Regs d (w32 (b + rotl32 f' (nth i S 0))) b c.

Definition block (h : regs) (blk : list Z) : regs :=
  let r := fold_left (round blk) (seq 0 64) h in
  Regs (w32 (rA h + rA r)) (w32 (rB h + rB r))
       (w32 (rC h + rC r)) (w32 (rD h + rD r)).

Fixpoint blocks (n : nat) (h : regs) (bs : list Z) : regs :=
  match n with
  | O => h
  | Datatypes.S n' => blocks n' (block h (firstn 64 bs)) (skipn 64 bs)
  end.

Definition le_bytes (n : nat) (z : Z) : list Z :=
  map (fun k => (z / 2 ^ (8 * Z.of_nat k)) mod 256) (seq 0 n).

(** Message padding: a 1 bit, zeros up to 56 mod 64, the bit length on 64 bits. *)
Definition pad (msg : list Z) : list Z :=
  let len := Z.of_nat (length msg) in
  msg ++ [128] ++ repeat 0 (Z.to_nat ((55 - len) mod 64))
      ++ le_bytes 8 ((8 * len) mod 2 ^ 64).

(** [hashlib.md5(data).digest()], as a list of byte values. *)
Definition digest (data : list byte) : list Z :=
  let p := pad (map byte_val data) in
  let h := blocks (length p / 64) init p in
  le_bytes 4 (rA h) ++ le_bytes 4 (rB h) ++ le_bytes 4 (rC h) ++ le_bytes 4 (rD h).

Definition hex_digit (n : Z) : ascii :=
  nth (Z.to_nat n) (list_ascii_of_string "0123456789abcdef") "0"%char.

Definition hex_byte (b : Z) : list ascii :=
  [hex_digit (b / 16 mod 16); hex_digit (b mod 16)].

(** [hashlib.md5(data).hexdigest()] *)
Definition hexdigest (data : list byte) : string :=
  string_of_list_ascii (flat_map hex_byte (digest data)).

End MD5.

(** ** Python values, exceptions and stateful computations *)

Module Py.

(** A Python value as the scripts see it: what [json.loads] returns and what
    the scripts build with dict and list displays.  [None] is [JNull]; only
    integer numbers are represented. *)
#[warnings="-register-all"] Inductive json :=
| JNull
| JBool (b : bool)
| JNum (n : Z)
| JStr (s : string)
| JArr (l : list json)
| JObj (kv : list (string * json)).

(** [d.get(k)] on the entries of a dict: [None] here is "key absent". *)
Fixpoint assoc (k : string) (kv : list (string * json)) : option json :=
  match kv with
  | [] => None
  | (k', v) :: rest => if String.eqb k k' then Some v else assoc k rest
  end.

(** Truth value of a Python object ([if x:], [if not x:]). *)
Definition truthy (v : json) : bool :=
  match v with
  | JNull => false
  | JBool b => b
  | JNum n => negb (n =? 0)
  | JStr s => negb (String.eqb s "")
  | JArr l => match l with [] => false | _ => true end
  | JObj kv => match kv with [] => false | _ => true end
  end.

(** [v == 0]: true for the integer zero and for [False]. *)
Definition eq_zero (v : json) : bool :=
  match v with
  | JNum n => n =? 0
  | JBool b => negb b
  | _ => false
  end.

(** [str(n)] for an int. *)
Definition str_of_int (n : Z) : string := NilZero.string_of_int (Z.to_int n).

(** A byte of the form [10xxxxxx]: in UTF-8 it continues the character the
    bytes before it began. *)
Definition is_cont (c : ascii) : bool :=
  let n := N_of_ascii c in ((128 <=? n) && (n <? 192))%N.

(** [len(s)] on a string: its characters (code points), not its bytes. *)
Fixpoint str_len (s : string) : nat :=
  match s with
  | EmptyString => O
  | String c s' => if is_cont c then str_len s' else Datatypes.S (str_len s')
  end.

(** [s[:n]] on a string: its first [n] characters, each with all the bytes
    of its encoding. *)
Fixpoint str_take (n : nat) (s : string) : string :=
  match s with
  | EmptyString => EmptyString
  | String c s' =>
      if is_cont c then String c (str_take n s')
      else match n with
           | O => EmptyString
           | Datatypes.S n' => String c (str_take n' s')
           end
  end.

(** The characters of a string, one string each. *)
Fixpoint str_chars (s : string) : list string :=
  match s with
  | EmptyString => []
  | String c s' =>
      let rest := str_chars s' in
      match s' with
      | String c' _ =>
          if is_cont c' then
            match rest with
            | h :: t => String c h :: t
            | [] => [String c EmptyString]
            end
          else String c EmptyString :: rest
      | EmptyString => String c EmptyString :: rest
      end
  end.

Definition hex2 (n : N) : string :=
  String (MD5.hex_digit (Z.of_N n / 16 mod 16))
    (String (MD5.hex_digit (Z.of_N n mod 16)) EmptyString).

Fixpoint str_mem (c : ascii) (s : string) : bool :=
  match s with
  | EmptyString => false
  | String c' s' => Ascii.eqb c c' || str_mem c s'
  end.

(** [repr(s)] for a str: the quote is double only when the text holds a single
    quote and no double quote; backslash, the quote, tab, newline, carriage
    return and the other control characters are escaped. *)
Fixpoint repr_chars (q : ascii) (s : string) : string :=
  match s with
  | EmptyString => EmptyString
  | String c s' =>
      let n := N_of_ascii c in
      (if Ascii.eqb c q then String "\" (String q EmptyString)
       else if (n =? 92)%N then "\\"
       else if (n =? 9)%N then "\t"
       else if (n =? 10)%N then "\n"
       else if (n =? 13)%N then "\r"
       else if ((n <? 32) || (n =? 127))%N then "\x" ++ hex2 n
       else String c EmptyString) ++ repr_chars q s'
  end.

Definition dquote : ascii := ascii_of_nat 34.

Definition repr_str (s : string) : string :=
  let q := if str_mem "'" s && negb (str_mem dquote s) then dquote else "'"%char in
  String q (repr_chars q s) ++ String q EmptyString.

Definition join (sep : string) (l : list string) : string :=
  match l with
  | [] => EmptyString
  | x :: r => fold_left (fun acc y => acc ++ sep ++ y) r x
  end.

(** [repr(v)] *)
Fixpoint py_repr (v : json) : string :=
  match v with
  | JNull => "None"
  | JBool true => "True"
  | JBool false => "False"
  | JNum n => str_of_int n
  | JStr s => repr_str s
  | JArr l => "[" ++ join ", " (map py_repr l) ++ "]"
  | JObj kv =>
      "{" ++ join ", " (map (fun p => repr_str (fst p) ++ ": " ++ py_repr (snd p)) kv) ++ "}"
  end.

(** [str(v)], which an f-string applies to the value it formats. *)
Definition py_str (v : json) : string :=
  match v with
  | JStr s => s
  | _ => py_repr v
  end.

(** White space that [str.strip()] removes.  The characters of one byte:
    U+0009 to U+000D, U+001C to U+0020. *)
Definition is_space (c : ascii) : bool :=
  let n := N_of_ascii c in
  ((9 <=? n) && (n <=? 13) || (28 <=? n) && (n <=? 32))%N.

(** Those of two bytes: U+0085 and U+00A0. *)
Definition is_space2 (c0 c1 : ascii) : bool :=
  let a := N_of_ascii c0 in
  let b := N_of_ascii c1 in
  ((a =? 194) && ((b =? 133) || (b =? 160)))%N.

(** Those of three bytes: U+1680, U+2000 to U+200A, U+2028, U+2029, U+202F,
    U+205F and U+3000. *)
Definition is_space3 (c0 c1 c2 : ascii) : bool :=
  let a := N_of_ascii c0 in
  let b := N_of_ascii c1 in
  let c := N_of_ascii c2 in
  ((a =? 225) && (b =? 154) && (c =? 128)
   || (a =? 226) && (b =? 128)
      && ((128 <=? c) && (c <=? 138) || (c =? 168) || (c =? 169) || (c =? 175))
   || (a =? 226) && (b =? 129) && (c =? 159)
   || (a =? 227) && (b =? 128) && (c =? 128))%N.

Fixpoint lstrip (s : string) : string :=
  match s with
  | EmptyString => EmptyString
  | String c0 r0 =>
      if is_space c0 then lstrip r0
      else
        match r0 with
        | String c1 r1 =>
            if is_space2 c0 c1 then lstrip r1
            else
              match r1 with
              | String c2 r2 => if is_space3 c0 c1 c2 then lstrip r2 else s
              | EmptyString => s
              end
        | EmptyString => s
        end
  end.

(** What is left of a string when the white space at its end is removed:
    its characters up to the last one that is not white space. *)
Fixpoint rstrip (s : string) : string :=
  match s with
  | EmptyString => EmptyString
  | String c s' =>
      match lstrip s with
      | EmptyString => EmptyString
      | _ => String c (rstrip s')
      end
  end.

(** [s.strip()] *)
Definition strip (s : string) : string := rstrip (lstrip s).

(** [s.encode()]: a string is held as the bytes of its UTF-8 encoding. *)
Definition encode (s : string) : list byte := list_byte_of_string s.

(** *** Exceptions *)

Inductive exn_class :=
| ZlibError            (* zlib.error *)
| JSONDecodeError      (* json.JSONDecodeError *)
| UnicodeDecodeError
| HTTPError            (* requests.exceptions.HTTPError *)
| RequestException     (* connection failures, timeouts *)
| AttributeError
| TypeError
| KeyError
| OSError
| ValueError
| RecursionError
| NotImplementedError.

Record exn := Exn { exn_cls : exn_class; exn_msg : string }.

Definition exn_class_eqb (a b : exn_class) : bool :=
  match a, b with
  | ZlibError, ZlibError | JSONDecodeError, JSONDecodeError
  | UnicodeDecodeError, UnicodeDecodeError | HTTPError, HTTPError
  | RequestException, RequestException | AttributeError, AttributeError
  | TypeError, TypeError | KeyError, KeyError | OSError, OSError
  | ValueError, ValueError | RecursionError, RecursionError
  | NotImplementedError, NotImplementedError => true
  | _, _ => false
  end.

(** The result of evaluating a Python expression or call. *)
Inductive res (A : Type) :=
| Ret (a : A)
| Raise (e : exn).
Arguments Ret {A} a.
Arguments Raise {A} e.

(** [except (c1, c2, ...)]: does the clause catch [e]? *)
Definition caught_by (cs : list exn_class) (e : exn) : bool :=
  existsb (exn_class_eqb (exn_cls e)) cs.

(** [except Exception] and the bare [except:] catch every exception of the model. *)
Definition any_exception (e : exn) : bool := true.

(** A call that raised an exception of one of the classes [cs]. *)
Definition raises {A} (cs : list exn_class) (r : res A) : bool :=
  match r with
  | Ret _ => false
  | Raise e => caught_by cs e
  end.

(** [v.get(k)] and [v.get(k, default)]: only a dict has the method. *)
Definition py_get (v : json) (k : string) (default : json) : res json :=
  match v with
  | JObj kv => Ret (match assoc k kv with Some x => x | None => default end)
  | _ => Raise (Exn AttributeError "object has no attribute 'get'")
  end.

(** [v[k]] with a string key. *)
Definition py_index (v : json) (k : string) : res json :=
  match v with
  | JObj kv =>
      match assoc k kv with
      | Some x => Ret x
      | None => Raise (Exn KeyError (repr_str k))
      end
  | _ => Raise (Exn TypeError "indices must be integers or the object is not subscriptable")
  end.

Fixpoint str_contains (needle s : string) : bool :=
  String.prefix needle s
  || match s with
     | EmptyString => false
     | String _ s' => str_contains needle s'
     end.

Definition json_is_str (k : string) (v : json) : bool :=
  match v with JStr s => String.eqb s k | _ => false end.

(** [k in v] for a string [k]: key of a dict, element of a list, substring of
    a str; the other values are not containers. *)
Definition py_in (k : string) (v : json) : res bool :=
  match v with
  | JObj kv => Ret (match assoc k kv with Some _ => true | None => false end)
  | JArr l => Ret (existsb (json_is_str k) l)
  | JStr s => Ret (str_contains k s)
  | _ => Raise (Exn TypeError "argument is not iterable")
  end.

(** [v[:n]]: defined on str and list.  *)
Definition py_slice_to (n : nat) (v : json) : res json :=
  match v with
  | JStr s => Ret (JStr (str_take n s))
  | JArr l => Ret (JArr (firstn n l))
  | JObj _ => Raise (Exn KeyError "slice(None, n, None)")
  | _ => Raise (Exn TypeError "object is not subscriptable")
  end.

(** [len(v)] *)
Definition py_len (v : json) : res Z :=
  match v with
  | JStr s => Ret (Z.of_nat (str_len s))
  | JArr l => Ret (Z.of_nat (length l))
  | JObj kv => Ret (Z.of_nat (length kv))
  | _ => Raise (Exn TypeError "object has no len()")
  end.

(** [for x in v]: a list gives its elements, a str its characters, a dict its
    keys; nothing else can be iterated. *)
Definition py_iter (v : json) : res (list json) :=
  match v with
  | JArr l => Ret l
  | JStr s => Ret (map JStr (str_chars s))
  | JObj kv => Ret (map (fun p => JStr (fst p)) kv)
  | _ => Raise (Exn TypeError "object is not iterable")
  end.

(** *** Computations: state passing with exceptions *)

Definition M (S A : Type) : Type := S -> res A * S.

Definition ret {S A} (a : A) : M S A := fun s => (Ret a, s).

Definition raise {S A} (e : exn) : M S A := fun s => (Raise e, s).

Definition bind {S A B} (m : M S A) (k : A -> M S B) : M S B :=
  fun s =>
    match m s with
    | (Ret a, s') => k a s'
    | (Raise e, s') => (Raise e, s')
    end.

(** [try: m  except <catches> as e: h e].  The state changes made by [m]
    before it raised stay. *)
Definition try_except {S A} (m : M S A) (catches : exn -> bool)
    (h : exn -> M S A) : M S A :=
  fun s =>
    match m s with
    | (Raise e, s') => if catches e then h e s' else (Raise e, s')
    | r => r
    end.

(** The value of a pure expression that may raise. *)
Definition eval {S A} (r : res A) : M S A := fun s => (r, s).

Definition gets {S A} (f : S -> A) : M S A := fun s => (Ret (f s), s).

Definition modify {S} (f : S -> S) : M S unit := fun s => (Ret tt, f s).

End Py.

Export Py.

Declare Scope py_scope.
Delimit Scope py_scope with py.
Notation "x <- c1 ;; c2" := (bind c1 (fun x => c2))
  (at level 100, c1 at next level, right associativity) : py_scope.
Notation "c1 ;;; c2" := (bind c1 (fun _ => c2))
  (at level 100, right associativity) : py_scope.
Local Open Scope py_scope.

(** ** The outside world and the libraries the scripts call *)

Module World.

(** What a script hands to [requests]: [session.post(url, json=..., headers=...,
    timeout=...)] or [session.get(...)].  [rq_headers] holds the headers of the
    call merged over the ones the script set on its session. *)
Record request := Request {
  rq_method : string;
  rq_url : string;
  rq_headers : gmap string json;
  rq_json : option json;
  rq_timeout : option Z
}.

(** The attributes of a [requests.Response] the scripts read. *)
Record response := Response {
  status_code : Z;
  content : list byte;
  text : string
}.

(** A request is answered, or fails below HTTP (no connection, timeout). *)
Inductive http_result :=
| Responded (r : response)
| Failed (e : exn).

(** The lines the per-endpoint loops print, by what they report. *)
Inductive event :=
| Loading (name : string)           (* "[*] Lade <name>..." *)
| Saved (path : string)             (* "[+] Gespeichert: <path>" *)
| Count (n : Z)                     (* "    -> <n> Eintraege" *)
| ErrorReply (name : string) (detail : json)   (* "[-] Fehler ...: <errmsg>" *)
| ErrorRaised (name : string) (e : exn).       (* "[-] Fehler/Exception ...: <e>" *)

Record world := MkWorld {
  files : gmap string string;     (* regular files: path to text *)
  dirs : gset string;             (* directories *)
  draws : nat;                    (* calls of secrets.token_bytes so far *)
  sent : list request;            (* HTTP requests issued so far, oldest first *)
  out : list event                (* report lines printed so far, oldest first *)
}.

(** Code outside the repository.  A library call returns or raises. *)
Record Env := MkEnv {
  zlib_decompress : list byte -> res (list byte);
  zlib_compress : list byte -> list byte;
  bytes_decode : list byte -> res string;        (* b.decode('utf-8') *)
  json_loads : string -> res json;
  json_dumps : json -> string;                   (* json.dumps(v) *)
  json_dump_pretty : json -> string;             (* json.dump(v, f, indent=2, ensure_ascii=False) *)
  response_json : list byte -> string -> res json;
      (* response.json(), which reads the body and its text, not the status *)
  http : nat -> request -> http_result;          (* the answer to the n-th request of the run *)
  token_bytes : nat -> list byte                 (* the n-th secrets.token_bytes(16) *)
}.

(** A program state that contains the world. *)
Class HasWorld (S : Type) := {
  get_world : S -> world;
  set_world : world -> S -> S
}.

#[global] Instance world_has_world : HasWorld world :=
  {| get_world := fun w => w; set_world := fun w _ => w |}.

Definition log_request (rq : request) (w : world) : world :=
  MkWorld (files w) (dirs w) (draws w) (sent w ++ [rq]) (out w).

Section Ops.
Context {S : Type} `{HasWorld S} (E : Env).

Definition update_world (f : world -> world) : M S unit :=
  modify (fun s => set_world (f (get_world s)) s).

(** Hand a request to [requests]: it is logged, then answered by the remote
    side or failed. *)
Definition send (rq : request) : M S response :=
  fun s =>
    let w := get_world s in
    let s' := set_world (log_request rq w) s in
    match http E (length (sent w)) rq with
    | Responded r => (Ret r, s')
    | Failed e => (Raise e, s')
    end.

(** [print(...)] of a report line. *)
Definition emit (e : event) : M S unit :=
  update_world (fun w => MkWorld (files w) (dirs w) (draws w) (sent w) (out w ++ [e])).

(** [path.mkdir(exist_ok=True)] *)
Definition mkdir (path : string) : M S unit :=
  update_world (fun w => MkWorld (files w) ({[ path ]} ∪ dirs w) (draws w) (sent w) (out w)).

(** [path.exists()] for the path of a regular file *)
Definition file_exists (path : string) : M S bool :=
  gets (fun s => bool_decide (is_Some (files (get_world s) !! path))).

(** [path.read_text()]: the text the file stores.  Decoding and newline
    translation are left out: the text is handed back as it is. *)
Definition read_text (path : string) : M S string :=
  fun s =>
    match files (get_world s) !! path with
    | Some t => (Ret t, s)
    | None => (Raise (Exn OSError "No such file or directory"), s)
    end.

(** [path.write_text(t)], and [open(path, 'w')] followed by a write of [t] *)
Definition write_text (path t : string) : M S unit :=
  update_world (fun w => MkWorld (<[ path := t ]> (files w)) (dirs w) (draws w) (sent w) (out w)).

(** [secrets.token_bytes(16)] *)
Definition draw_token : M S (list byte) :=
  fun s =>
    let w := get_world s in
    (Ret (token_bytes E (draws w)),
     set_world (MkWorld (files w) (dirs w) (Datatypes.S (draws w)) (sent w) (out w)) s).

End Ops.

(** [Path(a) / b] *)
Definition path_join (a b : string) : string := a ++ "/" ++ b.

(** The exception of [raise_for_status]; its message names the status and
    its kind (the reason phrase and the URL that follow are left out). *)
Definition http_error (r : response) : exn :=
  Exn HTTPError
    (str_of_int (status_code r)
     ++ (if status_code r <? 500 then " Client Error" else " Server Error")).

(** [response.raise_for_status()] of requests: client and server error codes raise. *)
Definition raise_for_status {S} (r : response) : M S unit :=
  if (400 <=? status_code r) && (status_code r <? 600)
  then raise (http_error r)
  else ret tt.

End World.

Export World.

(** [for x in l: body x] *)
Fixpoint for_each {S A} (l : list A) (body : A -> M S unit) : M S unit :=
  match l with
  | [] => ret tt
  | x :: rest => body x ;;; for_each rest body
  end.

(** [[c for _ in range(n)]] *)
Fixpoint repeat_m {S A} (n : nat) (c : M S A) : M S (list A) :=
  match n with
  | O => ret []
  | Datatypes.S n' => x <- c ;; xs <- repeat_m n' c ;; ret (x :: xs)
  end.

(** [[f x for x in l]] *)
Fixpoint map_m {S A B} (f : A -> M S B) (l : list A) : M S (list B) :=
  match l with
  | [] => ret []
  | x :: rest => y <- f x ;; ys <- map_m f rest ;; ret (y :: ys)
  end.

(** Run a computation on a part of the state: [get] reads the part, [put]
    writes it back (also when the computation raised). *)
Definition zoom {S T A} (get : S -> T) (put : T -> S -> S) (c : M T A) : M S A :=
  fun s => let '(r, t) := c (get s) in (r, put t s).

(** ** eft_bsg_client.py *)

Module EftBsg.

(** *** class EFTLauncher *)

Module EFTLauncher.

Definition LAUNCHER_URL : string := "https://launcher.escapefromtarkov.com".
Definition PROD_URL : string := "https://prod.escapefromtarkov.com".

(** The fields of an [EFTLauncher] object.  [token] and [game_session] are
    annotated [Optional[str]]; they hold whatever the reply carried. *)
Record t := MkLauncher {
  email : string;
  password : string;
  launcher_version : string;
  client_version : string;
  unity_version : string;
  token : json;
  game_session : json;
  storage_path : string;
  hw_code : string
}.

Definition set_token (v : json) (l : t) : t :=
  MkLauncher (email l) (password l) (launcher_version l) (client_version l)
    (unity_version l) v (game_session l) (storage_path l) (hw_code l).

Definition set_game_session (v : json) (l : t) : t :=
  MkLauncher (email l) (password l) (launcher_version l) (client_version l)
    (unity_version l) (token l) v (storage_path l) (hw_code l).

(** A launcher object in its world. *)
Record lstate := MkL { self : t; lworld : world }.

#[global] Instance lstate_has_world : HasWorld lstate :=
  {| get_world := lworld; set_world := fun w s => MkL (self s) w |}.

Definition update_self (f : t -> t) : M lstate unit :=
  modify (fun s => MkL (f (self s)) (lworld s)).

Section WithEnv.
Context (E : Env).

(** [_safe_email]: [hashlib.md5(self.email.encode()).hexdigest()[:12]] *)
Definition _safe_email (email : string) : string :=
  str_take 12 (MD5.hexdigest (encode email)).

(** [random_md5] of [_generate_hw_code] *)
Definition random_md5 {S} `{HasWorld S} : M S string :=
  b <- draw_token E ;; ret (MD5.hexdigest b).

Definition _generate_hw_code {S} `{HasWorld S} : M S string :=
  l1 <- repeat_m 3 random_md5 ;;
  let part1 := join ":" l1 in
  l2 <- repeat_m 4 random_md5 ;;
  let part2 := join "-" l2 in
  h <- random_md5 ;;
  let part3 := str_take 24 h in
  ret ("#1-" ++ part1 ++ "-" ++ part2 ++ "-" ++ part3).

Definition _get_or_create_hw_code {S} `{HasWorld S} (storage_path : string) : M S string :=
  let hw_file := path_join storage_path "hwcode.txt" in
  ex <- file_exists hw_file ;;
  if ex : bool then
    t <- read_text hw_file ;; ret (strip t)
  else
    hw_code <- _generate_hw_code ;;
    write_text hw_file hw_code ;;;
    ret hw_code.

(** [EFTLauncher.__init__]; [mkdir(parents=True, exist_ok=True)] makes the
    storage root and the account's directory. *)
Definition init (email password launcher_version client_version unity_version : string)
  : M world t :=
  let storage_path := path_join ".eft_storage" (_safe_email email) in
  mkdir ".eft_storage" ;;;
  mkdir storage_path ;;;
  hw_code <- _get_or_create_hw_code storage_path ;;
  ret (MkLauncher email password launcher_version client_version unity_version
         JNull JNull storage_path hw_code).

Definition _md5_password (l : t) : string :=
  MD5.hexdigest (encode (password l)).

Definition _launcher_headers (l : t) : gmap string json :=
  let headers : gmap string json :=
    {[ "Content-Type" := JStr "application/json";
       "User-Agent" := JStr ("BSG Launcher " ++ launcher_version l) ]} in
  if truthy (token l) then <[ "Authorization" := token l ]> headers else headers.

Definition _client_headers (l : t) : gmap string json :=
  {[ "Content-Type" := JStr "application/json";
     "User-Agent" := JStr ("UnityPlayer/" ++ unity_version l
                            ++ " (UnityWebRequest/1.0, libcurl/7.52.0-DEV)");
     "App-Version" := JStr ("EFT Client " ++ client_version l);
     "X-Unity-Version" := JStr (unity_version l);
     "Cookie" := JStr ("PHPSESSID=" ++ py_str (game_session l)) ]}.

(** [EFTLauncher._request(url, data, use_client_headers)]; [data] is [JNull]
    for [None].  The body is inflated and parsed; on [zlib.error] it is parsed
    as [requests] reads it, and if that fails in any way an error dict is
    returned. *)
Definition _request (url : string) (data : json) (use_client_headers : bool)
  : M lstate json :=
  l <- gets self ;;
  let headers := if use_client_headers then _client_headers l else _launcher_headers l in
  response <-
    (if truthy data
     then send E (Request "POST" url headers (Some data) (Some 30))
     else send E (Request "GET" url headers None (Some 30))) ;;
  try_except
    (content <- eval (zlib_decompress E (content response)) ;;
     t <- eval (bytes_decode E content) ;;
     eval (json_loads E t))
    (caught_by [ZlibError])
    (fun _ =>
       try_except (eval (response_json E (content response) (text response)))
         any_exception
         (fun _ =>
            ret (JObj [("error", JStr "Parse error");
                       ("raw", JStr (str_take 500 (text response)));
                       ("status", JNum (status_code response))]))).

(** The token line that [login] and [start_game] print on success formats
    [tok[:30]] when the token is truthy. *)
Definition print_token_prefix {S} (tok : json) : M S unit :=
  if truthy tok then (_ <- eval (py_slice_to 30 tok) ;; ret tt) else ret tt.

Definition login : M lstate bool :=
  l <- gets self ;;
  let url := LAUNCHER_URL ++ "/launcher/login?launcherVersion="
               ++ launcher_version l ++ "&branch=live" in
  let data := JObj [("email", JStr (email l));
                    ("pass", JStr (_md5_password l));
                    ("hwCode", JStr (hw_code l))] in
  response <- _request url data false ;;
  err <- eval (py_get response "err" JNull) ;;
  has_data <- (if eq_zero err then eval (py_in "data" response) else ret false) ;;
  if has_data : bool then
    d <- eval (py_index response "data") ;;
    tok <- eval (py_get d "access_token" JNull) ;;
    update_self (set_token tok) ;;;
    print_token_prefix tok ;;;
    ret true
  else
    _ <- eval (py_get response "err" JNull) ;;
    _ <- eval (py_get response "errmsg" (JStr "Unbekannt")) ;;
    ret false.

Definition activate_hardware (code : string) : M lstate bool :=
  l <- gets self ;;
  let url := LAUNCHER_URL ++ "/launcher/hardwareCode/activate?launcherVersion="
               ++ launcher_version l in
  let data := JObj [("email", JStr (email l));
                    ("hwCode", JStr (hw_code l));
                    ("activateCode", JStr code)] in
  response <- _request url data false ;;
  err <- eval (py_get response "err" JNull) ;;
  if eq_zero err then ret true else ret false.

Definition start_game : M lstate bool :=
  l <- gets self ;;
  if negb (truthy (token l)) then ret false
  else
    let url := PROD_URL ++ "/launcher/game/start?launcherVersion="
                 ++ launcher_version l ++ "&branch=live" in
    let data := JObj [("version", JObj [("major", JStr (client_version l));
                                        ("game", JStr "live");
                                        ("backend", JStr "6")]);
                      ("hwCode", JStr (hw_code l))] in
    response <- _request url data false ;;
    err <- eval (py_get response "err" JNull) ;;
    has_data <- (if eq_zero err then eval (py_in "data" response) else ret false) ;;
    if has_data : bool then
      d <- eval (py_index response "data") ;;
      sess <- eval (py_get d "session" JNull) ;;
      update_self (set_game_session sess) ;;;
      print_token_prefix sess ;;;
      ret true
    else ret false.

End WithEnv.

End EFTLauncher.

(** *** class EFTClient *)

Module EFTClient.

Definition PROD_URL : string := "https://prod.escapefromtarkov.com".

(** The fields of an [EFTClient] object.  [launcher] is the launcher object
    the client was built on. *)
Record t := MkClient {
  launcher : EFTLauncher.t;
  request_id : Z
}.

Record cstate := MkC { self : t; cworld : world }.

#[global] Instance cstate_has_world : HasWorld cstate :=
  {| get_world := cworld; set_world := fun w s => MkC (self s) w |}.

(** [EFTClient.__init__] *)
Definition init (launcher : EFTLauncher.t) : t := MkClient launcher 0.

Section WithEnv.
Context (E : Env).

(** [_headers]: [self.request_id += 1], then the launcher's client headers
    with the counter attached. *)
Definition _headers : M cstate (gmap string json) :=
  modify (fun s => MkC (MkClient (launcher (self s)) (request_id (self s) + 1)) (cworld s)) ;;;
  c <- gets self ;;
  let headers := EFTLauncher._client_headers (launcher c) in
  ret (<[ "GClient-RequestId" := JStr (str_of_int (request_id c)) ]> headers).

(** [_request(endpoint, data)]; [data] is [JNull] for [None]. *)
Definition _request (endpoint : string) (data : json) : M cstate json :=
  let url := PROD_URL ++ endpoint in
  headers <- _headers ;;
  try_except
    (response <-
       (if truthy data
        then send E (Request "POST" url headers (Some data) (Some 60))
        else send E (Request "GET" url headers None (Some 60))) ;;
     try_except
       (content <- eval (zlib_decompress E (content response)) ;;
        t <- eval (bytes_decode E content) ;;
        eval (json_loads E t))
       (caught_by [ZlibError])
       (fun _ => eval (response_json E (content response) (text response))))
    any_exception
    (fun e => ret (JObj [("error", JStr (exn_msg e))])).

Definition get_globals := _request "/client/globals" JNull.
Definition get_items := _request "/client/items" JNull.
Definition get_locale (lang : string) := _request ("/client/locale/" ++ lang) JNull.
Definition get_achievements := _request "/client/achievement/list" JNull.
Definition get_achievement_statistics := _request "/client/achievement/statistic" JNull.
Definition get_survey := _request "/client/survey" JNull.
Definition get_locations := _request "/client/locations" JNull.
Definition get_profiles := _request "/client/game/profile/list" JNull.
Definition get_hideout_areas := _request "/client/hideout/areas" JNull.
Definition get_hideout_settings := _request "/client/hideout/settings" JNull.
Definition get_hideout_recipes := _request "/client/hideout/production/recipes" JNull.
Definition get_trader_settings := _request "/client/trading/api/traderSettings" JNull.
Definition get_customization := _request "/client/customization" JNull.
Definition get_weather := _request "/client/weather" JNull.
Definition get_handbook := _request "/client/handbook/templates" JNull.

(** [save_response(data, filename)] *)
Definition save_response (data : json) (filename : string) : M cstate unit :=
  let output_dir := "bsg_output" in
  mkdir output_dir ;;;
  let filepath := path_join output_dir filename in
  write_text filepath (json_dump_pretty E data) ;;;
  emit (Saved filepath).

End WithEnv.

End EFTClient.

(** *** main *)

Section Main.
Context (E : Env).

Definition endpoints : list (string * M EFTClient.cstate json) :=
  [ ("globals", EFTClient.get_globals E);
    ("items", EFTClient.get_items E);
    ("locale_en", EFTClient.get_locale E "en");
    ("achievements", EFTClient.get_achievements E);
    ("achievement_stats", EFTClient.get_achievement_statistics E);
    ("survey", EFTClient.get_survey E);
    ("locations", EFTClient.get_locations E);
    ("hideout_areas", EFTClient.get_hideout_areas E);
    ("hideout_settings", EFTClient.get_hideout_settings E);
    ("hideout_recipes", EFTClient.get_hideout_recipes E);
    ("customization", EFTClient.get_customization E) ].

(** The body of the loop [for name, func in endpoints]. *)
Definition main_body (entry : string * M EFTClient.cstate json) : M EFTClient.cstate unit :=
  let '(name, func) := entry in
  emit (Loading name) ;;;
  try_except
    (data <- func ;;
     err <- eval (py_get data "err" JNull) ;;
     if eq_zero err then
       EFTClient.save_response E data (name ++ ".json")
     else
       detail <- eval (py_get data "errmsg" data) ;;
       emit (ErrorReply name detail))
    any_exception
    (fun e => emit (ErrorRaised name e)).

Definition main_loop (endpoints : list (string * M EFTClient.cstate json))
  : M EFTClient.cstate unit :=
  for_each endpoints main_body.

(** [main()], with the two environment variables as arguments. *)
Definition main (EMAIL PASSWORD : string) : M world unit :=
  if String.eqb EMAIL "deine_email@example.com" then ret tt
  else
    launcher <- EFTLauncher.init E EMAIL PASSWORD
                  "14.7.2.4271" "1.0.1.0.42625" "2021.3.16f1" ;;
    fun w =>
      match (ok <- EFTLauncher.login E ;;
             if ok : bool then EFTLauncher.start_game E else ret false)
            (EFTLauncher.MkL launcher w) with
      | (Ret true, EFTLauncher.MkL l w') =>
          let '(r, cs) := main_loop endpoints (EFTClient.MkC (EFTClient.init l) w') in
          (r, EFTClient.cworld cs)
      | (Ret false, EFTLauncher.MkL _ w') => (Ret tt, w')
      | (Raise e, EFTLauncher.MkL _ w') => (Raise e, w')
      end.

End Main.

End EftBsg.

(** ** eft_api_client.py *)

Module EftApi.

Module EFTClient.

Definition BACKEND_URL : string := "https://prod.escapefromtarkov.com".
Definition LAUNCHER_URL : string := "https://launcher.escapefromtarkov.com".

(** The mutable field of an [EFTClient] object ([Optional[str]]). *)
Record t := MkClient { session_id : json }.

(** The headers [__init__] sets on the session. *)
Definition session_headers : gmap string json :=
  {[ "User-Agent" := JStr "UnityPlayer/2021.3.16f1 (UnityWebRequest/1.0, libcurl/7.84.0-DEV)";
     "Accept" := JStr "*/*";
     "Accept-Encoding" := JStr "deflate, gzip";
     "Content-Type" := JStr "application/json" ]}.

Record astate := MkA { self : t; aworld : world }.

#[global] Instance astate_has_world : HasWorld astate :=
  {| get_world := aworld; set_world := fun w s => MkA (self s) w |}.

(** [EFTClient.__init__] *)
Definition init : t := MkClient JNull.

Section WithEnv.
Context (E : Env).

Definition _compute_password_hash (password : string) : string :=
  MD5.hexdigest (encode password).

Definition _decompress_response {S} (data : list byte) : M S string :=
  try_except
    (c <- eval (zlib_decompress E data) ;; eval (bytes_decode E c))
    (caught_by [ZlibError])
    (fun _ => eval (bytes_decode E data)).

(** [_request(method, url, data)]; [data] is [JNull] for [None]. *)
Definition _request (method url : string) (data : json) : M astate json :=
  c <- gets self ;;
  let headers : gmap string json :=
    if truthy (session_id c)
    then {[ "Cookie" := JStr ("PHPSESSID=" ++ py_str (session_id c)) ]}
    else ∅ in
  response <-
    (if String.eqb method "POST" && truthy data
     then send E (Request "POST" url (headers ∪ session_headers) (Some data) None)
     else send E (Request "GET" url (headers ∪ session_headers) None None)) ;;
  try_except
    (content <- _decompress_response (content response) ;;
     eval (json_loads E content))
    (caught_by [JSONDecodeError; UnicodeDecodeError])
    (fun _ =>
       ret (JObj [("error", JStr "Failed to parse response");
                  ("raw", JStr (str_take 500 (text response)))])).

Definition login (email password : string) : M astate bool :=
  let password_hash := _compute_password_hash password in
  let login_data := JObj [("email", JStr email);
                          ("pass", JStr password_hash);
                          ("hwCode", JStr "generated_hardware_code");
                          ("captcha", JNull)] in
  let url := LAUNCHER_URL ++ "/launcher/login" in
  try_except
    (response <- _request "POST" url login_data ;;
     err <- eval (py_get response "err" JNull) ;;
     has_session <-
       (if eq_zero err then
          has_data <- eval (py_in "data" response) ;;
          if has_data : bool then
            d <- eval (py_index response "data") ;; eval (py_in "session" d)
          else ret false
        else ret false) ;;
     if has_session : bool then
       d <- eval (py_index response "data") ;;
       sid <- eval (py_index d "session") ;;
       modify (fun s => MkA (MkClient sid) (aworld s)) ;;;
       _ <- eval (py_slice_to 20 sid) ;;
       ret true
     else ret false)
    any_exception
    (fun _ => ret false).

Definition get_globals := _request "GET" (BACKEND_URL ++ "/client/globals") JNull.
Definition get_items := _request "GET" (BACKEND_URL ++ "/client/items") JNull.
Definition get_locations := _request "GET" (BACKEND_URL ++ "/client/locations") JNull.
Definition get_locale (language : string) :=
  _request "GET" (BACKEND_URL ++ "/client/locale/" ++ language) JNull.
Definition get_achievements := _request "GET" (BACKEND_URL ++ "/client/achievement/list") JNull.
Definition get_achievement_statistics :=
  _request "GET" (BACKEND_URL ++ "/client/achievement/statistic") JNull.
Definition get_hideout_areas := _request "GET" (BACKEND_URL ++ "/client/hideout/areas") JNull.
Definition get_hideout_settings := _request "GET" (BACKEND_URL ++ "/client/hideout/settings") JNull.
Definition get_hideout_recipes :=
  _request "GET" (BACKEND_URL ++ "/client/hideout/production/recipes") JNull.
Definition get_trader_settings :=
  _request "GET" (BACKEND_URL ++ "/client/trading/api/traderSettings") JNull.
Definition get_customization := _request "GET" (BACKEND_URL ++ "/client/customization") JNull.
Definition get_survey := _request "GET" (BACKEND_URL ++ "/client/survey") JNull.

(** [save_to_file(data, filename)] *)
Definition save_to_file (data : json) (filename : string) : M astate unit :=
  let output_dir := "output" in
  mkdir output_dir ;;;
  let filepath := path_join output_dir filename in
  write_text filepath (json_dump_pretty E data) ;;;
  emit (Saved filepath).

End WithEnv.

End EFTClient.

Section Main.
Context (E : Env).

Definition endpoints : list (string * M EFTClient.astate json) :=
  [ ("globals", EFTClient.get_globals E);
    ("items", EFTClient.get_items E);
    ("locations", EFTClient.get_locations E);
    ("locale_en", EFTClient.get_locale E "en");
    ("achievements", EFTClient.get_achievements E);
    ("achievement_stats", EFTClient.get_achievement_statistics E);
    ("hideout_areas", EFTClient.get_hideout_areas E);
    ("hideout_settings", EFTClient.get_hideout_settings E);
    ("hideout_recipes", EFTClient.get_hideout_recipes E);
    ("customization", EFTClient.get_customization E);
    ("survey", EFTClient.get_survey E) ].

(** The body of the loop [for name, func in endpoints]. *)
Definition main_body (entry : string * M EFTClient.astate json) : M EFTClient.astate unit :=
  let '(name, func) := entry in
  try_except
    (emit (Loading name) ;;;
     data <- func ;;
     has_err <- eval (py_in "err" data) ;;
     bad <- (if has_err : bool then
               v <- eval (py_index data "err") ;; ret (negb (eq_zero v))
             else ret false) ;;
     if bad : bool then
       detail <- eval (py_get data "errmsg" (JStr "Unbekannt")) ;;
       emit (ErrorReply name detail)
     else
       EFTClient.save_to_file E data (name ++ ".json"))
    any_exception
    (fun e => emit (ErrorRaised name e)).

Definition main_loop (endpoints : list (string * M EFTClient.astate json))
  : M EFTClient.astate unit :=
  for_each endpoints main_body.

Definition main : M world unit :=
  let EMAIL := "deine_email@example.com" in
  let PASSWORD := "dein_passwort" in
  zoom (EFTClient.MkA EFTClient.init) (fun s _ => EFTClient.aworld s)
    (ok <- EFTClient.login E EMAIL PASSWORD ;;
     if ok : bool then main_loop endpoints else ret tt).

End Main.

End EftApi.

(** ** tarkov_api_client.py *)

Module TarkovDev.

Module TarkovDevClient.

Definition API_URL : string := "https://api.tarkov.dev/graphql".

(** The headers [__init__] sets on the session. *)
Definition session_headers : gmap string json :=
  {[ "Content-Type" := JStr "application/json";
     "Accept" := JStr "application/json" ]}.

(** The GraphQL documents of the query methods, as the source spells them. *)

Definition get_all_items_query : string :=
"
        query GetItems($lang: LanguageCode) {
            items(lang: $lang) {
                id
                name
                shortName
                description
                basePrice
                width
                height
                weight
                types
                categories {
                    id
                    name
                }
                wikiLink
                iconLink
                gridImageLink
                image512pxLink
            }
        }
        ".

Definition get_item_by_id_query : string :=
"
        query GetItem($id: ID!, $lang: LanguageCode) {
            item(id: $id, lang: $lang) {
                id
                name
                shortName
                description
                basePrice
                width
                height
                weight
                types
                wikiLink
                iconLink
            }
        }
        ".

Definition search_items_query : string :=
"
        query SearchItems($name: String!, $lang: LanguageCode) {
            items(name: $name, lang: $lang) {
                id
                name
                shortName
                basePrice
                iconLink
            }
        }
        ".

Definition get_all_maps_query : string :=
"
        query GetMaps($lang: LanguageCode) {
            maps(lang: $lang) {
                id
                name
                normalizedName
                description
                wiki
                enemies
                raidDuration
                players
                bosses {
                    name
                    normalizedName
                    spawnChance
                    spawnLocations {
                        name
                        chance
                    }
                }
                spawns {
                    zoneName
                    position {
                        x
                        y
                        z
                    }
                    sides
                    categories
                }
                extracts {
                    id
                    name
                    faction
                    switches {
                        id
                        name
                    }
                }
            }
        }
        ".

Definition get_all_traders_query : string :=
"
        query GetTraders($lang: LanguageCode) {
            traders(lang: $lang) {
                id
                name
                normalizedName
                description
                imageLink
                currency {
                    id
                    name
                }
                resetTime
                levels {
                    id
                    level
                    requiredPlayerLevel
                    requiredReputation
                    requiredCommerce
                }
            }
        }
        ".

Definition get_all_tasks_query : string :=
"
        query GetTasks($lang: LanguageCode) {
            tasks(lang: $lang) {
                id
                name
                trader {
                    id
                    name
                }
                map {
                    id
                    name
                }
                experience
                minPlayerLevel
                wikiLink
                objectives {
                    id
                    type
                    description
                    optional
                }
            }
        }
        ".

Definition get_hideout_stations_query : string :=
"
        query GetHideout($lang: LanguageCode) {
            hideoutStations(lang: $lang) {
                id
                name
                normalizedName
                levels {
                    id
                    level
                    constructionTime
                    itemRequirements {
                        item {
                            id
                            name
                        }
                        count
                    }
                    crafts {
                        id
                        duration
                        rewardItems {
                            item {
                                id
                                name
                            }
                            count
                        }
                        requiredItems {
                            item {
                                id
                                name
                            }
                            count
                        }
                    }
                }
            }
        }
        ".

Definition get_all_bosses_query : string :=
"
        query GetBosses($lang: LanguageCode) {
            bosses(lang: $lang) {
                name
                normalizedName
                health {
                    id
                    max
                }
                equipment {
                    item {
                        id
                        name
                    }
                }
            }
        }
        ".

Definition get_all_ammo_query : string :=
"
        query GetAmmo($lang: LanguageCode) {
            ammo(lang: $lang) {
                item {
                    id
                    name
                    shortName
                }
                caliber
                damage
                armorDamage
                penetrationPower
                penetrationChance
                ricochetChance
                fragmentationChance
                projectileCount
                tracer
                tracerColor
            }
        }
        ".

Definition get_barters_query : string :=
"
        query GetBarters($lang: LanguageCode) {
            barters(lang: $lang) {
                id
                trader {
                    id
                    name
                }
                level
                rewardItems {
                    item {
                        id
                        name
                    }
                    count
                }
                requiredItems {
                    item {
                        id
                        name
                    }
                    count
                }
            }
        }
        ".

Definition get_flea_prices_query_1 : string :=
"
            query GetPrices($ids: [ID!]) {
                items(ids: $ids) {
                    id
                    name
                    avg24hPrice
                    low24hPrice
                    high24hPrice
                    lastLowPrice
                    changeLast48h
                    changeLast48hPercent
                }
            }
            ".

Definition get_flea_prices_query_2 : string :=
"
            {
                items {
                    id
                    name
                    avg24hPrice
                    low24hPrice
                    high24hPrice
                    lastLowPrice
                }
            }
            ".

Section WithEnv.
Context (E : Env).

(** [_query(query, variables)]; [variables] is [JNull] for [None]. *)
Definition _query (query : string) (variables : json) : M world json :=
  let payload :=
    JObj ([("query", JStr query)]
          ++ (if truthy variables then [("variables", variables)] else [])) in
  response <- send E (Request "POST" API_URL session_headers (Some payload) (Some 30)) ;;
  raise_for_status response ;;;
  eval (response_json E (content response) (text response)).

(** The common tail of the query methods:
    [result.get("data", {}).get(field, default)] *)
Definition data_field (result : json) (field : string) (default : json) : M world json :=
  d <- eval (py_get result "data" (JObj [])) ;;
  eval (py_get d field default).

Definition get_all_items (lang : string) : M world json :=
  result <- _query get_all_items_query (JObj [("lang", JStr lang)]) ;;
  data_field result "items" (JArr []).

Definition get_item_by_id (item_id lang : string) : M world json :=
  result <- _query get_item_by_id_query (JObj [("id", JStr item_id); ("lang", JStr lang)]) ;;
  data_field result "item" JNull.

Definition search_items (name lang : string) : M world json :=
  result <- _query search_items_query (JObj [("name", JStr name); ("lang", JStr lang)]) ;;
  data_field result "items" (JArr []).

Definition get_all_maps (lang : string) : M world json :=
  result <- _query get_all_maps_query (JObj [("lang", JStr lang)]) ;;
  data_field result "maps" (JArr []).

Definition get_all_traders (lang : string) : M world json :=
  result <- _query get_all_traders_query (JObj [("lang", JStr lang)]) ;;
  data_field result "traders" (JArr []).

Definition get_all_tasks (lang : string) : M world json :=
  result <- _query get_all_tasks_query (JObj [("lang", JStr lang)]) ;;
  data_field result "tasks" (JArr []).

Definition get_hideout_stations (lang : string) : M world json :=
  result <- _query get_hideout_stations_query (JObj [("lang", JStr lang)]) ;;
  data_field result "hideoutStations" (JArr []).

Definition get_all_bosses (lang : string) : M world json :=
  result <- _query get_all_bosses_query (JObj [("lang", JStr lang)]) ;;
  data_field result "bosses" (JArr []).

Definition get_all_ammo (lang : string) : M world json :=
  result <- _query get_all_ammo_query (JObj [("lang", JStr lang)]) ;;
  data_field result "ammo" (JArr []).

Definition get_barters (lang : string) : M world json :=
  result <- _query get_barters_query (JObj [("lang", JStr lang)]) ;;
  data_field result "barters" (JArr []).

(** [get_flea_prices(item_ids)]; [item_ids] is [JNull] for [None]. *)
Definition get_flea_prices (item_ids : json) : M world json :=
  result <- (if truthy item_ids
             then _query get_flea_prices_query_1 (JObj [("ids", item_ids)])
             else _query get_flea_prices_query_2 JNull) ;;
  data_field result "items" (JArr []).

(** [save_to_file(data, filename)], which returns the path written. *)
Definition save_to_file (data : json) (filename : string) : M world string :=
  let output_dir := "output" in
  mkdir output_dir ;;;
  let filepath := path_join output_dir filename in
  write_text filepath (json_dump_pretty E data) ;;;
  emit (Saved filepath) ;;;
  ret filepath.

End WithEnv.

End TarkovDevClient.

Section Main.
Context (E : Env).

Definition LANG : string := "en".

Definition datasets : list (string * M world json) :=
  [ ("items", TarkovDevClient.get_all_items E LANG);
    ("maps", TarkovDevClient.get_all_maps E LANG);
    ("traders", TarkovDevClient.get_all_traders E LANG);
    ("tasks", TarkovDevClient.get_all_tasks E LANG);
    ("hideout", TarkovDevClient.get_hideout_stations E LANG);
    ("bosses", TarkovDevClient.get_all_bosses E LANG);
    ("ammo", TarkovDevClient.get_all_ammo E LANG);
    ("barters", TarkovDevClient.get_barters E LANG) ].

(** The body of the loop [for name, func in datasets]. *)
Definition main_body (entry : string * M world json) : M world unit :=
  let '(name, func) := entry in
  try_except
    (emit (Loading name) ;;;
     data <- func ;;
     _ <- TarkovDevClient.save_to_file E data (name ++ "_" ++ LANG ++ ".json") ;;
     n <- eval (py_len data) ;;
     emit (Count n))
    any_exception
    (fun e => emit (ErrorRaised name e)).

Definition main_loop (datasets : list (string * M world json)) : M world unit :=
  for_each datasets main_body.

(** The line printed for a search result reads [item['name']],
    [item['shortName']] and [item['basePrice']]. *)
Definition print_item (item : json) : M world unit :=
  _ <- eval (py_index item "name") ;;
  _ <- eval (py_index item "shortName") ;;
  _ <- eval (py_index item "basePrice") ;;
  ret tt.

(** The line printed for a price reads [p['name']] and [p['avg24hPrice']]. *)
Definition print_price (p : json) : M world unit :=
  _ <- eval (py_index p "name") ;;
  _ <- eval (py_index p "avg24hPrice") ;;
  ret tt.

(** The two examples [main] runs after the loop: a search, and the prices of
    its first three results.  Neither is inside a [try]. *)
Definition examples : M world unit :=
  results <- TarkovDevClient.search_items E "AK-47" LANG ;;
  first5 <- eval (py_slice_to 5 results) ;;
  items <- eval (py_iter first5) ;;
  for_each items print_item ;;;
  if truthy results then
    first3 <- eval (py_slice_to 3 results) ;;
    rs <- eval (py_iter first3) ;;
    ids <- map_m (fun r => eval (py_index r "id")) rs ;;
    prices <- TarkovDevClient.get_flea_prices E (JArr ids) ;;
    ps <- eval (py_iter prices) ;;
    for_each ps print_price
  else ret tt.

Definition main : M world unit :=
  main_loop datasets ;;; examples.

End Main.

End TarkovDev.

(** ** A reference environment

    An executable stand-in for the libraries, used to run the scripts on
    concrete inputs.  It covers a part of each format and says so by raising
    [NotImplementedError] outside it: zlib streams of stored blocks, strict
    UTF-8, JSON documents whose numbers are integers. *)

Module RefEnv.

Local Open Scope list_scope.
Local Open Scope N_scope.

Definition unsupported {A} (what : string) : res A :=
  Raise (Exn NotImplementedError what).

Definition bytes_of (l : list N) : list byte :=
  map (fun n => match Byte.of_N n with Some b => b | None => x00 end) l.

Definition codes_of (l : list byte) : list N := map Byte.to_N l.

(** *** zlib (RFC 1950, RFC 1951 stored blocks) *)

Definition adler32 (l : list N) : N :=
  let '(a, b) :=
    fold_left (fun '(a, b) x => let a' := (a + x) mod 65521 in (a', (b + a') mod 65521))
      l (1, 0) in
  b * 65536 + a.

Definition be32 (n : N) : list N :=
  [n / 16777216 mod 256; n / 65536 mod 256; n / 256 mod 256; n mod 256].

Fixpoint stored_blocks (fuel : nat) (l : list N) : list N :=
  let n := N.of_nat (length l) in
  match fuel with
  | Datatypes.S f =>
      if 65535 <? n
      then [0; 255; 255; 0; 0] ++ firstn (N.to_nat 65535) l ++ stored_blocks f (skipn (N.to_nat 65535) l)
      else [1; n mod 256; n / 256; 255 - n mod 256; 255 - n / 256] ++ l
  | O => [1; 0; 0; 255; 255]
  end.

Definition compress (l : list N) : list N :=
  [120; 1] ++ stored_blocks (Datatypes.S (length l)) l ++ be32 (adler32 l).

Definition zlib_error {A} (what : string) : res A :=
  Raise (Exn ZlibError ("Error -3 while decompressing data: " ++ what)%string).

Fixpoint inflate_stored (fuel : nat) (l acc : list N) : res (list N * list N) :=
  match fuel, l with
  | Datatypes.S f, hd :: lo :: hi :: nlo :: nhi :: rest =>
      if negb (N.land hd 6 =? 0) then
        if N.land hd 6 =? 6 then zlib_error "invalid block type"
        else unsupported "inflate: compressed block"
      else if negb ((lo + nlo =? 255) && (hi + nhi =? 255)) then
        zlib_error "invalid stored block lengths"
      else
        let n := N.to_nat (lo + 256 * hi) in
        if (length rest <? n)%nat then zlib_error "incomplete or truncated stream"
        else if N.land hd 1 =? 1 then Ret (acc ++ firstn n rest, skipn n rest)
        else inflate_stored f (skipn n rest) (acc ++ firstn n rest)
  | _, [] | _, [_] | _, [_; _] | _, [_; _; _] | _, [_; _; _; _] =>
      match l with
      | hd :: _ =>
          if N.land hd 6 =? 0 then zlib_error "incomplete or truncated stream"
          else if N.land hd 6 =? 6 then zlib_error "invalid block type"
          else unsupported "inflate: compressed block"
      | [] => zlib_error "incomplete or truncated stream"
      end
  | O, _ => zlib_error "incomplete or truncated stream"
  end.

Definition decompress (l : list N) : res (list N) :=
  match l with
  | cmf :: flg :: rest =>
      if negb ((cmf mod 16 =? 8) && (cmf / 16 <=? 7) && ((cmf * 256 + flg) mod 31 =? 0))
      then zlib_error "incorrect header check"
      else if negb (N.land flg 32 =? 0) then zlib_error "dictionary needed"
      else
        match inflate_stored (length rest) rest [] with
        | Ret (out, a :: b :: c :: d :: _) =>
            if ((a * 256 + b) * 256 + c) * 256 + d =? adler32 out then Ret out
            else zlib_error "incorrect data check"
        | Ret _ => zlib_error "incomplete or truncated stream"
        | Raise e => Raise e
        end
  | _ => zlib_error "incomplete or truncated stream"
  end.

(** *** bytes.decode('utf-8'): strict UTF-8 *)

Definition cont (b : N) : bool := (128 <=? b) && (b <=? 191).

Fixpoint utf8_valid (fuel : nat) (l : list N) : bool :=
  match fuel with
  | O => match l with [] => true | _ => false end
  | Datatypes.S f =>
      match l with
      | [] => true
      | b0 :: r =>
          if b0 <? 128 then utf8_valid f r
          else if (194 <=? b0) && (b0 <=? 223) then
            match r with
            | b1 :: r1 => cont b1 && utf8_valid f r1
            | _ => false
            end
          else if (224 <=? b0) && (b0 <=? 239) then
            match r with
            | b1 :: b2 :: r2 =>
                cont b1 && cont b2
                && (if b0 =? 224 then 160 <=? b1 else true)
                && (if b0 =? 237 then b1 <=? 159 else true)
                && utf8_valid f r2
            | _ => false
            end
          else if (240 <=? b0) && (b0 <=? 244) then
            match r with
            | b1 :: b2 :: b3 :: r3 =>
                cont b1 && cont b2 && cont b3
                && (if b0 =? 240 then 144 <=? b1 else true)
                && (if b0 =? 244 then b1 <=? 143 else true)
                && utf8_valid f r3
            | _ => false
            end
          else false
      end
  end.

Definition decode_utf8 (l : list byte) : res string :=
  if utf8_valid (length l) (codes_of l) then Ret (string_of_list_byte l)
  else Raise (Exn UnicodeDecodeError "'utf-8' codec can't decode bytes").

(** *** json: printing *)

Definition str_of_codes (l : list N) : string :=
  string_of_list_ascii (map ascii_of_N l).

Definition codes_of_str (s : string) : list N :=
  map N_of_ascii (list_ascii_of_string s).

Definition hex_code (n : N) : N := N_of_ascii (MD5.hex_digit (Z.of_N n)).

(** A character inside a JSON string literal: the quote, the backslash and
    the control characters are escaped. *)
Definition escape_char (c : N) : list N :=
  if c =? 34 then [92; 34]
  else if c =? 92 then [92; 92]
  else if c =? 10 then [92; 110]
  else if c =? 13 then [92; 114]
  else if c =? 9 then [92; 116]
  else if c =? 8 then [92; 98]
  else if c =? 12 then [92; 102]
  else if c <? 32 then [92; 117; 48; 48; hex_code (c / 16); hex_code (c mod 16)]
  else [c].

Definition dump_string (s : string) : string :=
  str_of_codes ([34] ++ flat_map escape_char (codes_of_str s) ++ [34]).

(** [json.dumps(v)] *)
Fixpoint dumps (v : json) : string :=
  match v with
  | JNull => "null"
  | JBool true => "true"
  | JBool false => "false"
  | JNum n => str_of_int n
  | JStr s => dump_string s
  | JArr l => "[" ++ join ", " (map dumps l) ++ "]"
  | JObj kv =>
      "{" ++ join ", " (map (fun p => dump_string (fst p) ++ ": " ++ dumps (snd p)) kv) ++ "}"
  end%string.

Definition newline : string := String (ascii_of_nat 10) EmptyString.

Fixpoint spaces (n : nat) : string :=
  match n with
  | O => EmptyString
  | Datatypes.S n' => String " " (spaces n')
  end.

(** [json.dumps(v, indent=2, ensure_ascii=False)] at nesting column [ind] *)
Fixpoint pretty (ind : nat) (v : json) : string :=
  let sep := ("," ++ newline ++ spaces (ind + 2))%string in
  match v with
  | JArr [] => "[]"
  | JArr l =>
      "[" ++ newline ++ spaces (ind + 2) ++ join sep (map (pretty (ind + 2)) l)
      ++ newline ++ spaces ind ++ "]"
  | JObj [] => "{}"
  | JObj kv =>
      "{" ++ newline ++ spaces (ind + 2)
      ++ join sep (map (fun p => dump_string (fst p) ++ ": " ++ pretty (ind + 2) (snd p)) kv)
      ++ newline ++ spaces ind ++ "}"
  | _ => dumps v
  end%string.

(** *** json: parsing *)

Definition json_error {A} (what : string) : res A :=
  Raise (Exn JSONDecodeError what).

Fixpoint skip_ws (l : list N) : list N :=
  match l with
  | c :: r => if (c =? 32) || (c =? 9) || (c =? 10) || (c =? 13) then skip_ws r else l
  | [] => []
  end.

Definition is_digit (c : N) : bool := (48 <=? c) && (c <=? 57).

Fixpoint digits (l : list N) (acc : N) : N * list N :=
  match l with
  | c :: r => if is_digit c then digits r (10 * acc + (c - 48)) else (acc, l)
  | [] => (acc, [])
  end.

(** An integer literal; a fraction or an exponent is outside the model.
    [int()] refuses a literal of more than 4300 digits with a [ValueError],
    which the parser does not wrap. *)
Definition parse_int (neg : bool) (l : list N) : res (json * list N) :=
  match l with
  | c :: r =>
      if negb (is_digit c) then json_error "Expecting value"
      else
        let '(n, rest) := if c =? 48 then (0, r) else digits l 0 in
        match rest with
        | 46 :: _ | 101 :: _ | 69 :: _ => unsupported "json: float"
        | _ =>
            let count := N.of_nat (length l - length rest) in
            if 4300 <? count
            then Raise (Exn ValueError
                          ("Exceeds the limit (4300 digits) for integer string conversion: "
                           ++ "value has " ++ str_of_int (Z.of_N count)
                           ++ " digits; use sys.set_int_max_str_digits() "
                           ++ "to increase the limit")%string)
            else Ret (JNum (if neg then Z.opp (Z.of_N n) else Z.of_N n), rest)
        end
  | [] => json_error "Expecting value"
  end.

Definition hex_val (c : N) : option N :=
  if is_digit c then Some (c - 48)
  else if (97 <=? c) && (c <=? 102) then Some (c - 87)
  else if (65 <=? c) && (c <=? 70) then Some (c - 55)
  else None.

(** The rest of a string literal, after its opening quote. *)
Fixpoint parse_string (l : list N) (acc : list N) : res (string * list N) :=
  match l with
  | [] => json_error "Unterminated string"
  | 34 :: r => Ret (str_of_codes (rev acc), r)
  | 92 :: 117 :: h1 :: h2 :: h3 :: h4 :: r =>
      match hex_val h1, hex_val h2, hex_val h3, hex_val h4 with
      | Some a, Some b, Some c, Some d =>
          let cp := ((a * 16 + b) * 16 + c) * 16 + d in
          if cp <? 128 then parse_string r (cp :: acc)
          else unsupported "json: \u escape above U+007F"
      | _, _, _, _ => json_error "Invalid \uXXXX escape"
      end
  | 92 :: e :: r =>
      match (if e =? 34 then Some 34 else if e =? 92 then Some 92
             else if e =? 47 then Some 47 else if e =? 98 then Some 8
             else if e =? 102 then Some 12 else if e =? 110 then Some 10
             else if e =? 114 then Some 13 else if e =? 116 then Some 9
             else None) with
      | Some c => parse_string r (c :: acc)
      | None => json_error "Invalid \escape"
      end
  | [92] => json_error "Unterminated string"
  | c :: r =>
      if c <? 32 then json_error "Invalid control character"
      else parse_string r (c :: acc)
  end.

(** [d[k] = v] on the entries of a dict under construction. *)
Fixpoint obj_set (k : string) (v : json) (kv : list (string * json)) : list (string * json) :=
  match kv with
  | [] => [(k, v)]
  | (k', v') :: r => if String.eqb k k' then (k, v) :: r else (k', v') :: obj_set k v r
  end.

Fixpoint parse_value (fuel : nat) (l : list N) : res (json * list N) :=
  match fuel with
  | O => unsupported "json: nesting too deep"
  | Datatypes.S f =>
      match skip_ws l with
      | 110 :: 117 :: 108 :: 108 :: r => Ret (JNull, r)
      | 116 :: 114 :: 117 :: 101 :: r => Ret (JBool true, r)
      | 102 :: 97 :: 108 :: 115 :: 101 :: r => Ret (JBool false, r)
      | 34 :: r =>
          match parse_string r [] with
          | Ret (s, r') => Ret (JStr s, r')
          | Raise e => Raise e
          end
      | 91 :: r =>
          match skip_ws r with
          | 93 :: r' => Ret (JArr [], r')
          | _ =>
              (fix elems (n : nat) (l : list N) (acc : list json) : res (json * list N) :=
                 match n with
                 | O => unsupported "json: array too long"
                 | Datatypes.S n' =>
                     match parse_value f l with
                     | Ret (v, r1) =>
                         match skip_ws r1 with
                         | 44 :: r2 => elems n' r2 (v :: acc)
                         | 93 :: r2 => Ret (JArr (rev (v :: acc)), r2)
                         | _ => json_error "Expecting ',' delimiter"
                         end
                     | Raise e => Raise e
                     end
                 end) f r []
          end
      | 123 :: r =>
          match skip_ws r with
          | 125 :: r' => Ret (JObj [], r')
          | _ =>
              (fix members (n : nat) (l : list N) (acc : list (string * json))
                 : res (json * list N) :=
                 match n with
                 | O => unsupported "json: object too long"
                 | Datatypes.S n' =>
                     match skip_ws l with
                     | 34 :: r0 =>
                         match parse_string r0 [] with
                         | Ret (k, r1) =>
                             match skip_ws r1 with
                             | 58 :: r2 =>
                                 match parse_value f r2 with
                                 | Ret (v, r3) =>
                                     match skip_ws r3 with
                                     | 44 :: r4 => members n' r4 (obj_set k v acc)
                                     | 125 :: r4 => Ret (JObj (obj_set k v acc), r4)
                                     | _ => json_error "Expecting ',' delimiter"
                                     end
                                 | Raise e => Raise e
                                 end
                             | _ => json_error "Expecting ':' delimiter"
                             end
                         | Raise e => Raise e
                         end
                     | _ => json_error "Expecting property name enclosed in double quotes"
                     end
                 end) f r []
          end
      | 45 :: r => parse_int true r
      | 78 :: 97 :: 78 :: _ => unsupported "json: NaN"
      | 73 :: 110 :: 102 :: _ => unsupported "json: Infinity"
      | c :: r => if is_digit c then parse_int false (c :: r) else json_error "Expecting value"
      | [] => json_error "Expecting value"
      end
  end.

(** [json.loads(s)] *)
Definition loads (s : string) : res json :=
  let l := codes_of_str s in
  match parse_value (Datatypes.S (length l)) l with
  | Ret (v, rest) =>
      match skip_ws rest with
      | [] => Ret v
      | _ => json_error "Extra data"
      end
  | Raise e => Raise e
  end.

(** *** The environment *)

Definition res_map {A B} (f : A -> B) (r : res A) : res B :=
  match r with
  | Ret a => Ret (f a)
  | Raise e => Raise e
  end.

(** [response.json()]: the body as UTF-8 text, parsed. *)
Definition body_json (body : list byte) (text : string) : res json :=
  match decode_utf8 body with
  | Ret t => loads t
  | Raise e => json_error (exn_msg e)
  end.

Definition ref_env (server : nat -> request -> http_result)
    (entropy : nat -> list byte) : Env :=
  MkEnv (fun b => res_map bytes_of (decompress (codes_of b)))
        (fun b => bytes_of (compress (codes_of b)))
        decode_utf8 loads dumps (pretty 0) body_json server entropy.

(** A response with status 200 whose text is the body read as UTF-8. *)
Definition reply (body : list byte) : http_result :=
  Responded (Response 200 body (string_of_list_byte body)).

End RefEnv.

(** ** Vocabulary of the properties *)

Module Spec.

Definition is_lower_hex (c : ascii) : bool :=
  let n := N_of_ascii c in
  ((48 <=? n) && (n <=? 57) || (97 <=? n) && (n <=? 102))%N.

Fixpoint str_forall (p : ascii -> bool) (s : string) : bool :=
  match s with
  | EmptyString => true
  | String c s' => p c && str_forall p s'
  end.

(** A digest in hexadecimal: [n] characters, each a digit or a letter a-f. *)
Definition is_hex_of_length (n : nat) (s : string) : bool :=
  Nat.eqb (String.length s) n && str_forall is_lower_hex s.

(** Read the literal [lit] at the head of [s]. *)
Fixpoint eat_lit (lit s : string) : option string :=
  match lit, s with
  | EmptyString, _ => Some s
  | String c lit', String d s' => if Ascii.eqb c d then eat_lit lit' s' else None
  | String _ _, EmptyString => None
  end.

(** Read exactly [n] hexadecimal characters at the head of [s]. *)
Fixpoint eat_hex (n : nat) (s : string) : option string :=
  match n, s with
  | O, _ => Some s
  | Datatypes.S n', String c s' => if is_lower_hex c then eat_hex n' s' else None
  | Datatypes.S _, EmptyString => None
  end.

Definition then_ (f : string -> option string) (o : option string) : option string :=
  match o with
  | Some s => f s
  | None => None
  end.

(** The device identifier pattern
    [#1-<h32>:<h32>:<h32>-<h32>-<h32>-<h32>-<h32>-<h24>]. *)
Definition matches_hw_pattern (s : string) : bool :=
  let steps : list (string -> option string) :=
    [ eat_lit "#1-"; eat_hex 32; eat_lit ":"; eat_hex 32; eat_lit ":"; eat_hex 32;
      eat_lit "-"; eat_hex 32; eat_lit "-"; eat_hex 32; eat_lit "-"; eat_hex 32;
      eat_lit "-"; eat_hex 32; eat_lit "-"; eat_hex 24 ] in
  match fold_left (fun o f => then_ f o) steps (Some s) with
  | Some EmptyString => true
  | _ => false
  end.

(** The value of key [k] in the JSON body of a request. *)
Definition body_field (k : string) (rq : request) : option json :=
  match rq_json rq with
  | Some (JObj kv) => assoc k kv
  | _ => None
  end.

(** The requests issued between two states of the world. *)
Definition sent_since (w w' : world) : list request :=
  skipn (length (sent w)) (sent w').

(** The header with which the game client numbers a request. *)
Definition request_id_header (rq : request) : option json :=
  rq_headers rq !! "GClient-RequestId".

(** *** What each request helper hands to [requests], and how it reads the reply *)

Definition rbind {A B} (r : res A) (k : A -> res B) : res B :=
  match r with
  | Ret a => k a
  | Raise e => Raise e
  end.

(** The zlib stage followed by the text and JSON stages. *)
Definition inflate_and_parse (E : Env) (body : list byte) : res json :=
  rbind (zlib_decompress E body) (fun c => rbind (bytes_decode E c) (json_loads E)).

(** [EFTLauncher._request] of eft_bsg_client.py *)
Definition launcher_request (l : EftBsg.EFTLauncher.t) (url : string) (data : json)
    (use_client_headers : bool) : request :=
  Request (if truthy data then "POST" else "GET") url
    (if use_client_headers then EftBsg.EFTLauncher._client_headers l
     else EftBsg.EFTLauncher._launcher_headers l)
    (if truthy data then Some data else None) (Some 30).

Definition launcher_parse_error (r : response) : json :=
  JObj [("error", JStr "Parse error");
        ("raw", JStr (str_take 500 (text r)));
        ("status", JNum (status_code r))].

Definition launcher_decode (E : Env) (r : response) : res json :=
  match inflate_and_parse E (content r) with
  | Ret v => Ret v
  | Raise e =>
      if caught_by [ZlibError] e then
        match response_json E (content r) (text r) with
        | Ret v => Ret v
        | Raise _ => Ret (launcher_parse_error r)
        end
      else Raise e
  end.

(** [EFTClient._request] of eft_bsg_client.py *)
Definition game_request (c : EftBsg.EFTClient.t) (endpoint : string) (data : json) : request :=
  Request (if truthy data then "POST" else "GET")
    (EftBsg.EFTClient.PROD_URL ++ endpoint)
    (<[ "GClient-RequestId" := JStr (str_of_int (EftBsg.EFTClient.request_id c + 1)) ]>
       (EftBsg.EFTLauncher._client_headers (EftBsg.EFTClient.launcher c)))
    (if truthy data then Some data else None) (Some 60).

Definition error_dict (e : exn) : json := JObj [("error", JStr (exn_msg e))].

Definition game_decode (E : Env) (r : response) : json :=
  match inflate_and_parse E (content r) with
  | Ret v => v
  | Raise e =>
      if caught_by [ZlibError] e then
        match response_json E (content r) (text r) with
        | Ret v => v
        | Raise e' => error_dict e'
        end
      else error_dict e
  end.

(** [EFTClient._request] of eft_api_client.py *)
Definition api_request (c : EftApi.EFTClient.t) (method url : string) (data : json) : request :=
  let headers : gmap string json :=
    if truthy (EftApi.EFTClient.session_id c)
    then {[ "Cookie" := JStr ("PHPSESSID=" ++ py_str (EftApi.EFTClient.session_id c)) ]}
    else ∅ in
  if String.eqb method "POST" && truthy data
  then Request "POST" url (headers ∪ EftApi.EFTClient.session_headers) (Some data) None
  else Request "GET" url (headers ∪ EftApi.EFTClient.session_headers) None None.

Definition api_parse_error (r : response) : json :=
  JObj [("error", JStr "Failed to parse response");
        ("raw", JStr (str_take 500 (text r)))].

(** [_decompress_response]: the inflated body as text, or on [zlib.error] the
    body itself as text. *)
Definition api_text (E : Env) (body : list byte) : res string :=
  match rbind (zlib_decompress E body) (bytes_decode E) with
  | Ret t => Ret t
  | Raise e => if caught_by [ZlibError] e then bytes_decode E body else Raise e
  end.

Definition api_decode (E : Env) (r : response) : res json :=
  match rbind (api_text E (content r)) (json_loads E) with
  | Ret v => Ret v
  | Raise e =>
      if caught_by [JSONDecodeError; UnicodeDecodeError] e
      then Ret (api_parse_error r) else Raise e
  end.

(** [TarkovDevClient._query] *)
Definition query_request (query : string) (variables : json) : request :=
  Request "POST" TarkovDev.TarkovDevClient.API_URL
    TarkovDev.TarkovDevClient.session_headers
    (Some (JObj ([("query", JStr query)]
                 ++ (if truthy variables then [("variables", variables)] else []))))
    (Some 30).

Definition is_error_status (st : Z) : bool := (400 <=? st) && (st <? 600).

(** *** Bodies that are not what the decoder hopes for *)

(** [zlib.decompress] rejects the bytes. *)
Definition invalid_zlib (E : Env) (body : list byte) : bool :=
  raises [ZlibError] (zlib_decompress E body).

(** The body read as it stands: decoded, then parsed.  It is not JSON text
    when this raises. *)
Definition parse_plain (E : Env) (body : list byte) : res json :=
  rbind (bytes_decode E body) (json_loads E).

(** [response.json()] fails. *)
Definition invalid_json_response (E : Env) (r : response) : bool :=
  match response_json E (content r) (text r) with
  | Ret _ => false
  | Raise _ => true
  end.

(** The fields the query methods of the public-API client read. *)
Definition queried_fields : list string :=
  ["items"; "item"; "maps"; "traders"; "tasks"; "hideoutStations"; "bosses";
   "ammo"; "barters"].

(** A reply body that lacks [data], or whose [data] object lacks the field. *)
Definition lacks_field (body : list (string * json)) (field : string) : Prop :=
  assoc "data" body = None
  \/ exists d, assoc "data" body = Some (JObj d) /\ assoc field d = None.

(** A reply body that lacks [data], or whose [data] object lacks every
    queried field. *)
Definition lacks_data (body : list (string * json)) : Prop :=
  assoc "data" body = None
  \/ exists d, assoc "data" body = Some (JObj d)
               /\ forall f, In f queried_fields -> assoc f d = None.

(** The request [EFTLauncher.login] issues. *)
Definition login_request (l : EftBsg.EFTLauncher.t) : request :=
  launcher_request l
    (EftBsg.EFTLauncher.LAUNCHER_URL ++ "/launcher/login?launcherVersion="
       ++ EftBsg.EFTLauncher.launcher_version l ++ "&branch=live")
    (JObj [("email", JStr (EftBsg.EFTLauncher.email l));
           ("pass", JStr (EftBsg.EFTLauncher._md5_password l));
           ("hwCode", JStr (EftBsg.EFTLauncher.hw_code l))])
    false.

(** The request [EFTLauncher.activate_hardware] issues. *)
Definition activate_request (l : EftBsg.EFTLauncher.t) (code : string) : request :=
  launcher_request l
    (EftBsg.EFTLauncher.LAUNCHER_URL ++ "/launcher/hardwareCode/activate?launcherVersion="
       ++ EftBsg.EFTLauncher.launcher_version l)
    (JObj [("email", JStr (EftBsg.EFTLauncher.email l));
           ("hwCode", JStr (EftBsg.EFTLauncher.hw_code l));
           ("activateCode", JStr code)])
    false.

(** The request [EFTLauncher.start_game] issues. *)
Definition start_game_request (l : EftBsg.EFTLauncher.t) : request :=
  launcher_request l
    (EftBsg.EFTLauncher.PROD_URL ++ "/launcher/game/start?launcherVersion="
       ++ EftBsg.EFTLauncher.launcher_version l ++ "&branch=live")
    (JObj [("version", JObj [("major", JStr (EftBsg.EFTLauncher.client_version l));
                             ("game", JStr "live");
                             ("backend", JStr "6")]);
           ("hwCode", JStr (EftBsg.EFTLauncher.hw_code l))])
    false.

(** The request [EFTClient.login] of eft_api_client.py issues. *)
Definition api_login_request (c : EftApi.EFTClient.t) (email password : string) : request :=
  api_request c "POST" (EftApi.EFTClient.LAUNCHER_URL ++ "/launcher/login")
    (JObj [("email", JStr email);
           ("pass", JStr (EftApi.EFTClient._compute_password_hash password));
           ("hwCode", JStr "generated_hardware_code");
           ("captcha", JNull)]).

(** A run of the game client: the calls [_request(endpoint, data)] one
    after the other. *)
Definition run_requests (E : Env) (calls : list (string * json))
  : M EftBsg.EFTClient.cstate unit :=
  for_each calls (fun '(endpoint, data) =>
    _ <- EftBsg.EFTClient._request E endpoint data ;; ret tt).

(** The value [str(k)] as it stands in the request-id header. *)
Definition id_header (k : Z) : option json := Some (JStr (str_of_int k)).

(** The file in which [EFTLauncher] keeps the device identifier of an account. *)
Definition hw_file_of (email : string) : string :=
  path_join (path_join ".eft_storage" (EftBsg.EFTLauncher._safe_email email)) "hwcode.txt".

(** A character of one byte that [str.strip()] does not remove. *)
Definition not_space (c : ascii) : bool :=
  negb (is_space c) && (N_of_ascii c <? 128)%N.

(** The world once [EFTLauncher.__init__] has made its directories. *)
Definition made_dirs (email : string) (w : world) : world :=
  MkWorld (files w)
    ({[ path_join ".eft_storage" (EftBsg.EFTLauncher._safe_email email) ]}
       ∪ ({[ ".eft_storage" ]} ∪ dirs w))
    (draws w) (sent w) (out w).

(** *** What a per-endpoint loop does with one entry *)

(** The fate of an entry: its data are stored, the reply is reported as an
    error, or an exception is reported. *)
Inductive verdict :=
| Stored (data : json)
| Refused (detail : json)
| Crashed (e : exn).

(** eft_api_client.py: [if "err" in data and data["err"] != 0] *)
Definition api_error_test (data : json) : res bool :=
  rbind (py_in "err" data) (fun has_err =>
    if has_err : bool
    then rbind (py_index data "err") (fun v => Ret (negb (eq_zero v)))
    else Ret false).

Definition api_verdict (fetched : res json) : verdict :=
  match fetched with
  | Raise e => Crashed e
  | Ret data =>
      match api_error_test data with
      | Raise e => Crashed e
      | Ret false => Stored data
      | Ret true =>
          match py_get data "errmsg" (JStr "Unbekannt") with
          | Ret detail => Refused detail
          | Raise e => Crashed e
          end
      end
  end.

(** eft_bsg_client.py: [if data.get("err") == 0] *)
Definition bsg_verdict (fetched : res json) : verdict :=
  match fetched with
  | Raise e => Crashed e
  | Ret data =>
      match py_get data "err" JNull with
      | Raise e => Crashed e
      | Ret err =>
          if eq_zero err then Stored data
          else match py_get data "errmsg" data with
               | Ret detail => Refused detail
               | Raise e => Crashed e
               end
      end
  end.

Definition add_out (ev : event) (w : world) : world :=
  MkWorld (files w) (dirs w) (draws w) (sent w) (out w ++ [ev]).

(** The file written and the line printed by a save into directory [dir]. *)
Definition stored_in (E : Env) (dir file : string) (data : json) (w : world) : world :=
  MkWorld (<[ path_join dir file := json_dump_pretty E data ]> (files w))
    ({[ dir ]} ∪ dirs w) (draws w) (sent w) (out w ++ [Saved (path_join dir file)]).

(** The effect of a verdict on the world: a stored entry writes its file and
    prints the save line; a failed entry prints its error line and writes
    nothing. *)
Definition apply_verdict (E : Env) (dir name file : string) (v : verdict) (w : world)
  : world :=
  match v with
  | Stored data => stored_in E dir file data w
  | Refused detail => add_out (ErrorReply name detail) w
  | Crashed e => add_out (ErrorRaised name e) w
  end.

(** The catalog entries that fetch the given endpoints, as [main] builds them. *)
Definition entries_for (E : Env) (paths : list (string * string))
  : list (string * M EftBsg.EFTClient.cstate json) :=
  map (fun p => (fst p, EftBsg.EFTClient._request E (snd p) JNull)) paths.

(** [d.get(field, default)] on the pairs of a dict. *)
Definition field_or (d : list (string * json)) (field : string) (default : json) : json :=
  match assoc field d with Some v => v | None => default end.

(** The value is a dict. *)
Definition is_object (v : json) : bool :=
  match v with JObj _ => true | _ => false end.

(** What [.get] raises on a value that is not a dict. *)
Definition no_get : exn := Exn AttributeError "object has no attribute 'get'".

(** *** [main] of tarkov_api_client.py *)

(** The datasets of [main]: the name of each and the query document its
    method sends. *)
Definition dataset_queries : list (string * string) :=
  [ ("items", TarkovDev.TarkovDevClient.get_all_items_query);
    ("maps", TarkovDev.TarkovDevClient.get_all_maps_query);
    ("traders", TarkovDev.TarkovDevClient.get_all_traders_query);
    ("tasks", TarkovDev.TarkovDevClient.get_all_tasks_query);
    ("hideout", TarkovDev.TarkovDevClient.get_hideout_stations_query);
    ("bosses", TarkovDev.TarkovDevClient.get_all_bosses_query);
    ("ammo", TarkovDev.TarkovDevClient.get_all_ammo_query);
    ("barters", TarkovDev.TarkovDevClient.get_barters_query) ].

Definition lang_en : json := JObj [("lang", JStr "en")].

Definition dataset_request (p : string * string) : request :=
  query_request (snd p) lang_en.

Definition dataset_file (name : string) : string := name ++ "_en.json".

(** The request of the search example. *)
Definition search_request : request :=
  query_request TarkovDev.TarkovDevClient.search_items_query
    (JObj [("name", JStr "AK-47"); ("lang", JStr "en")]).

(** The request of the price example, for the given results. *)
Definition prices_request (ids : list json) : request :=
  query_request TarkovDev.TarkovDevClient.get_flea_prices_query_1 (JObj [("ids", JArr ids)]).

(** What one round of the loop leaves behind, when the dataset's method sent
    the request [rq] and came back with [r]. *)
Definition entry_world (E : Env) (name : string) (rq : request) (r : res json) (w : world)
  : world :=
  let w1 := log_request rq (add_out (Loading name) w) in
  match r with
  | Raise e => add_out (ErrorRaised name e) w1
  | Ret data =>
      let w2 := stored_in E "output" (dataset_file name) data w1 in
      match py_len data with
      | Ret n => add_out (Count n) w2
      | Raise e => add_out (ErrorRaised name e) w2
      end
  end.

(** The loop over all datasets, every method coming back with [r]. *)
Definition loop_world (E : Env) (r : res json) (w : world) : world :=
  fold_left (fun w p => entry_world E (fst p) (dataset_request p) r w) dataset_queries w.

(** The value is a dict that holds every one of the keys. *)
Definition has_keys (keys : list string) (v : json) : bool :=
  match v with
  | JObj kv => forallb (fun k => match assoc k kv with Some _ => true | None => false end) keys
  | _ => false
  end.

(** [v["id"]] of a value that has it. *)
Definition id_of (v : json) : json :=
  match v with
  | JObj kv => match assoc "id" kv with Some x => x | None => JNull end
  | _ => JNull
  end.

(** A dataset method that sends [rq] and comes back with [r], whatever the
    world it is called in. *)
Definition comes_back (m : M world json) (rq : request) (r : res json) : Prop :=
  forall w, m w = (r, log_request rq w).

(** A file content that [read_text()] hands back as it is stored: UTF-8 text
    (the locale's encoding being UTF-8) without a carriage return, which the
    newline translation of text mode would turn into a line feed. *)
Definition read_as_stored (t : string) : bool :=
  RefEnv.utf8_valid (String.length t) (RefEnv.codes_of (encode t))
  && negb (str_mem (ascii_of_nat 13) t).

End Spec.

Export Spec.

(** ** Concrete situations on which the properties are exercised *)

Module Scenarios.

Definition w0 : world := MkWorld ∅ ∅ 0 [] [].

(** A stand-in for the entropy source: the n-th draw is sixteen bytes [n]. *)
Definition counter_entropy (n : nat) : list byte :=
  RefEnv.bytes_of (repeat (N.of_nat n) 16).

(** An environment whose remote side answers every request with status [st]
    and body [body], the text being the body read as characters. *)
Definition env_reply (st : Z) (body : list byte) : Env :=
  RefEnv.ref_env (fun _ _ => Responded (Response st body (string_of_list_byte body)))
    counter_entropy.

Definition reply_of (st : Z) (body : list byte) : response :=
  Response st body (string_of_list_byte body).

Definition html_body : list byte :=
  encode "<html><body>503 Service Unavailable</body></html>".

Definition launcher0 : EftBsg.EFTLauncher.t :=
  EftBsg.EFTLauncher.MkLauncher "user@example.com" "secret"
    "14.7.2.4271" "1.0.1.0.42625" "2021.3.16f1" JNull JNull
    ".eft_storage/0123456789ab" "#1-device".

Definition l0 : EftBsg.EFTLauncher.lstate := EftBsg.EFTLauncher.MkL launcher0 w0.

Definition a0 : EftApi.EFTClient.astate := EftApi.EFTClient.MkA EftApi.EFTClient.init w0.

Definition c0 : EftBsg.EFTClient.cstate :=
  EftBsg.EFTClient.MkC (EftBsg.EFTClient.init launcher0) w0.

(** A reply of the vendor backend, and the bytes it travels as. *)
Definition ok_value : json := JObj [("err", JNum 0); ("data", JObj [("x", JNum 1)])].

Definition ok_body : list byte :=
  RefEnv.bytes_of (RefEnv.compress (RefEnv.codes_of (encode (RefEnv.dumps ok_value)))).

(** A GraphQL error reply: a JSON object without [data]. *)
Definition errors_value : json := JObj [("errors", JArr [JStr "Internal server error"])].

Definition errors_body : list byte := encode (RefEnv.dumps errors_value).

(** The backend refuses the password (error 211). *)
Definition refusal_body : list byte :=
  encode (RefEnv.dumps (JObj [("err", JNum 211); ("errmsg", JStr "wrong password")])).

(** The backend accepts: the reply carries an access token and a session. *)
Definition accept_value : json :=
  JObj [("err", JNum 0);
        ("data", JObj [("access_token", JStr "token-abc"); ("session", JStr "session-xyz")])].

Definition accept_body : list byte :=
  RefEnv.bytes_of
    (RefEnv.compress (RefEnv.codes_of (encode (RefEnv.dumps accept_value)))).

(** A remote side that answers the path [/a] with the compressed vendor
    reply and every other path with bytes that are neither zlib nor JSON. *)
Definition env_alpha_beta : Env :=
  RefEnv.ref_env
    (fun _ rq =>
       if String.eqb (rq_url rq) (EftBsg.EFTClient.PROD_URL ++ "/a")
       then Responded (reply_of 200 ok_body)
       else Responded (reply_of 200 html_body))
    counter_entropy.

(** A world in which the identifier file of [user@example.com] is there and
    holds only white space. *)
Definition w_blank_file : world :=
  MkWorld (<[ hw_file_of "user@example.com" := String (ascii_of_nat 32)
                (String (ascii_of_nat 10) EmptyString) ]> ∅) ∅ 0 [] [].

(** A remote side that cannot be reached. *)
Definition env_down : Env :=
  RefEnv.ref_env (fun _ _ => Failed (Exn RequestException "Connection refused"))
    counter_entropy.

(** A zlib stream whose content is not JSON. *)
Definition garbage_body : list byte :=
  RefEnv.bytes_of (RefEnv.compress (RefEnv.codes_of (encode "not json"))).

(** Four results of a search, and the reply that carries them. *)
Definition found_items : list json :=
  map (fun id => JObj [("id", JStr id); ("name", JStr "AK-47"); ("shortName", JStr "AK");
                       ("basePrice", JNum 1)])
    ["a"; "b"; "c"; "d"].

Definition found_body : list byte :=
  encode (RefEnv.dumps (JObj [("data", JObj [("items", JArr found_items)])])).

(** A list opened on a number of 5000 digits, never closed. *)
Definition digits_body : list byte :=
  encode (String "[" (string_of_list_ascii (repeat "1"%char (N.to_nat 5000)))).

(** 600 times the letter e with an acute accent (U+00E9, two bytes each). *)
Definition accents_body : list byte :=
  encode (string_of_list_ascii
            (concat (repeat [ascii_of_nat 195; ascii_of_nat 169] (N.to_nat 600)))).

(** An identifier between a no-break space (U+00A0) and an em space (U+2003)
    followed by a line feed, and a world whose identifier file of
    [user@example.com] holds it. *)
Definition padded_identifier : string :=
  string_of_list_ascii [ascii_of_nat 194; ascii_of_nat 160]
  ++ "#1-abc"
  ++ string_of_list_ascii [ascii_of_nat 226; ascii_of_nat 128; ascii_of_nat 131;
                           ascii_of_nat 10].

Definition w_padded_file : world :=
  MkWorld (<[ hw_file_of "user@example.com" := padded_identifier ]> ∅) ∅ 0 [] [].

End Scenarios.

(* ================================================================== *)
(** * Part II: properties *)
(* ================================================================== *)

(** ** Tests of the definitions on known values *)

Example md5_empty : MD5.hexdigest [] = "d41d8cd98f00b204e9800998ecf8427e".
Proof. vm_compute. reflexivity. Qed.

Example md5_abc :
  MD5.hexdigest (encode "abc") = "900150983cd24fb0d6963f7d28e17f72".
Proof. vm_compute. reflexivity. Qed.

Example md5_message_digest :
  MD5.hexdigest (encode "message digest") = "f96b697d7cb7938d525a2f31aaf161d0".
Proof. vm_compute. reflexivity. Qed.

Example py_repr_ex :
  py_str (JObj [("err", JNum (-3)); ("m", JArr [JStr "ab"; JNull; JBool true])])
  = "{'err': -3, 'm': ['ab', None, True]}".
Proof. vm_compute. reflexivity. Qed.

(** The reference deflater writes the bytes [zlib.compress(b, 0)] writes. *)
Example ref_compress_ex :
  RefEnv.compress (RefEnv.codes_of (encode (RefEnv.dumps (JObj [("err", JNum 0)]))))
  = [120; 1; 1; 10; 0; 245; 255; 123; 34; 101; 114; 114; 34; 58; 32; 48; 125;
     17; 203; 3; 16]%N.
Proof. vm_compute. reflexivity. Qed.

Example ref_json_roundtrip_ex :
  let v := JObj [("err", JNum 0);
                 ("data", JObj [("x", JNum 1); ("l", JArr [JNull; JBool true; JStr "a b"])])] in
  RefEnv.loads (RefEnv.dumps v) = Ret v /\ RefEnv.loads (RefEnv.pretty 0 v) = Ret v.
Proof. vm_compute. split; reflexivity. Qed.

(** ** hashlib.md5: the shape of a hexadecimal digest *)

(** From here on a digest is computed only where a proof asks for its value
    ([vm_compute]); the reasoning steps leave it folded. *)
(** Text is handled by characters: [e] with an acute accent is two bytes,
    the no-break space two and the em space three. *)
Example text_by_characters_ex :
  let e' := string_of_list_ascii [ascii_of_nat 195; ascii_of_nat 169] in
  let nbsp := string_of_list_ascii [ascii_of_nat 194; ascii_of_nat 160] in
  let emsp := string_of_list_ascii [ascii_of_nat 226; ascii_of_nat 128; ascii_of_nat 131] in
  str_len (e' ++ "a" ++ e') = 3%nat
  /\ str_take 2 (e' ++ "a" ++ e') = (e' ++ "a")%string
  /\ str_take 0 (e' ++ "a") = EmptyString
  /\ str_chars ("a" ++ e' ++ "b") = ["a"; e'; "b"]
  /\ strip (nbsp ++ " a" ++ nbsp ++ "b" ++ emsp ++ nbsp) = ("a" ++ nbsp ++ "b")%string
  /\ strip (e' ++ " ") = e'
  /\ strip (emsp ++ nbsp) = EmptyString.
Proof. vm_compute. repeat split; reflexivity. Qed.

#[local] Opaque MD5.hexdigest.

Section MD5Facts.

Lemma length_le_bytes n z : length (MD5.le_bytes n z) = n.
Proof. unfold MD5.le_bytes. now rewrite length_map, length_seq. Qed.

Lemma length_digest data : length (MD5.digest data) = 16%nat.
Proof.
  unfold MD5.digest. cbv zeta.
  now rewrite !length_app, !length_le_bytes.
Qed.

Lemma hex_digit_lower n : 0 <= n < 16 -> is_lower_hex (MD5.hex_digit n) = true.
Proof.
  intros Hn.
  assert (Hc : In n [0;1;2;3;4;5;6;7;8;9;10;11;12;13;14;15]).
  { simpl. lia. }
  simpl in Hc.
  repeat (destruct Hc as [<- | Hc]; [reflexivity |]).
  destruct Hc.
Qed.

Lemma string_length_of_list l : String.length (string_of_list_ascii l) = length l.
Proof. induction l; simpl; congruence. Qed.

Lemma str_forall_of_list p l :
  str_forall p (string_of_list_ascii l) = forallb p l.
Proof. induction l; simpl; congruence. Qed.

Lemma hex_bytes_shape (l : list Z) :
  length (flat_map MD5.hex_byte l) = (2 * length l)%nat
  /\ forallb is_lower_hex (flat_map MD5.hex_byte l) = true.
Proof.
  induction l as [| b l [IHn IHh]]; [easy |].
  split.
  - cbn [flat_map MD5.hex_byte length app]. rewrite IHn. simpl. lia.
  - cbn [flat_map MD5.hex_byte forallb app].
    rewrite !hex_digit_lower, IHh; [reflexivity | |]; apply Z.mod_pos_bound; lia.
Qed.

(** A hexadecimal MD5 digest is 32 characters, each in 0-9 or a-f. *)
Lemma hexdigest_shape data : is_hex_of_length 32 (MD5.hexdigest data) = true.
Proof.
  unfold is_hex_of_length. with_strategy transparent [MD5.hexdigest] unfold MD5.hexdigest.
  rewrite string_length_of_list, str_forall_of_list.
  destruct (hex_bytes_shape (MD5.digest data)) as [Hn Hh].
  rewrite Hn, Hh, length_digest. reflexivity.
Qed.

End MD5Facts.

(** ** String facts used below *)

#[local] Arguments String.append !_ _ / : simpl nomatch.

Section StringFacts.

Lemma app_str_assoc (a b c : string) : ((a ++ b) ++ c = a ++ (b ++ c))%string.
Proof. induction a; simpl; congruence. Qed.

Lemma eat_lit_app lit r : eat_lit lit (lit ++ r)%string = Some r.
Proof.
  induction lit as [| c lit IH]; simpl; [reflexivity |].
  now rewrite Ascii.eqb_refl.
Qed.

Lemma is_hex_of_length_cons n c s :
  is_hex_of_length (Datatypes.S n) (String c s) = true ->
  is_lower_hex c = true /\ is_hex_of_length n s = true.
Proof.
  unfold is_hex_of_length. cbn [String.length str_forall Nat.eqb].
  intros H. apply andb_true_iff in H as [Hl H].
  apply andb_true_iff in H as [Hc Hs]. now rewrite Hl, Hc, Hs.
Qed.

Lemma eat_hex_app n h r :
  is_hex_of_length n h = true -> eat_hex n (h ++ r)%string = Some r.
Proof.
  revert h. induction n as [| n IH]; intros h Hh.
  - destruct h; [reflexivity | discriminate].
  - destruct h as [| c h]; [discriminate |].
    apply is_hex_of_length_cons in Hh as [Hc Hh].
    cbn [append eat_hex]. rewrite Hc. now apply IH.
Qed.

Lemma eat_hex_exact n h :
  is_hex_of_length n h = true -> eat_hex n h = Some EmptyString.
Proof.
  revert h. induction n as [| n IH]; intros h Hh.
  - destruct h; [reflexivity | discriminate].
  - destruct h as [| c h]; [discriminate |].
    apply is_hex_of_length_cons in Hh as [Hc Hh].
    cbn [eat_hex]. rewrite Hc. now apply IH.
Qed.

(** A hexadecimal digit is a character of one byte. *)
Lemma lower_hex_not_cont c : is_lower_hex c = true -> is_cont c = false.
Proof.
  destruct c as [[] [] [] [] [] [] [] []]; intros H; try reflexivity; discriminate H.
Qed.

(** A prefix of a hexadecimal string is hexadecimal. *)
Lemma str_take_hex n m h :
  (n <= m)%nat -> is_hex_of_length m h = true -> is_hex_of_length n (str_take n h) = true.
Proof.
  revert n m. induction h as [| c h IH]; intros n m Hle Hh.
  - destruct m; [| discriminate]. now replace n with O by lia.
  - destruct m as [| m]; [discriminate |].
    apply is_hex_of_length_cons in Hh as [Hc Hh].
    cbn [str_take]. rewrite (lower_hex_not_cont c Hc).
    destruct n as [| n]; [reflexivity |].
    assert (IH' := IH n m ltac:(lia) Hh).
    unfold is_hex_of_length in *. cbn [String.length str_forall Nat.eqb].
    apply andb_true_iff in IH' as [Hl Hs]. now rewrite Hl, Hc, Hs.
Qed.

(** [s[:n]] has at most [n] characters. *)
Lemma str_take_len_le n s : (str_len (str_take n s) <= n)%nat.
Proof.
  revert n. induction s as [| c s IH]; intros n; cbn [str_take str_len]; [lia |].
  destruct (is_cont c) eqn:Hc; cbn [str_len]; [rewrite Hc; apply IH |].
  destruct n as [| n]; cbn [str_len]; [lia |]. rewrite Hc. specialize (IH n). lia.
Qed.

Lemma str_take_prefix n s : String.prefix (str_take n s) s = true.
Proof.
  revert n. induction s as [| c s IH]; intros n; cbn [str_take]; [reflexivity |].
  destruct (is_cont c); [| destruct n as [| n]; [reflexivity |]];
    cbn [String.prefix]; (destruct (ascii_dec c c); [apply IH | congruence]).
Qed.

Lemma str_length_app (a b : string) :
  String.length (a ++ b)%string = (String.length a + String.length b)%nat.
Proof. induction a; simpl; congruence. Qed.

Lemma str_app_inv_tail (a b s : string) : (a ++ s = b ++ s)%string -> a = b.
Proof.
  intros H.
  assert (Hl : String.length a = String.length b).
  { apply (f_equal String.length) in H. rewrite !str_length_app in H. lia. }
  revert b H Hl. induction a as [| x a IH]; intros [| y b]; simpl; intros H Hl;
    try discriminate; [reflexivity |].
  injection H as -> H. f_equal. apply IH; [exact H | lia].
Qed.

Lemma str_app_inv_head (a b c : string) : (a ++ b = a ++ c)%string -> b = c.
Proof. induction a as [| x a IH]; simpl; intros [= H]; auto. Qed.

End StringFacts.

(** ** The device identifier (eft_bsg_client.py, [_generate_hw_code]) *)

Section HwCode.
Context (E : Env).

Lemma hw_pattern_ok h1 h2 h3 h4 h5 h6 h7 h8 :
  is_hex_of_length 32 h1 = true -> is_hex_of_length 32 h2 = true ->
  is_hex_of_length 32 h3 = true -> is_hex_of_length 32 h4 = true ->
  is_hex_of_length 32 h5 = true -> is_hex_of_length 32 h6 = true ->
  is_hex_of_length 32 h7 = true -> is_hex_of_length 32 h8 = true ->
  matches_hw_pattern
    ("#1-" ++ join ":" [h1; h2; h3] ++ "-" ++ join "-" [h4; h5; h6; h7]
     ++ "-" ++ str_take 24 h8)%string = true.
Proof.
  intros H1 H2 H3 H4 H5 H6 H7 H8.
  assert (H8' := str_take_hex 24 32 h8 ltac:(lia) H8).
  unfold matches_hw_pattern, join. cbn [fold_left then_].
  rewrite !app_str_assoc.
  repeat (first [ rewrite eat_lit_app | rewrite eat_hex_app by assumption ];
          cbn [then_]).
  rewrite eat_hex_exact by assumption. reflexivity.
Qed.

(** The generator returns (it never raises), draws eight times from the
    entropy source, and names the eight digests it assembled. *)
Lemma random_md5_run (w : world) :
  EftBsg.EFTLauncher.random_md5 E w
  = (Ret (MD5.hexdigest (token_bytes E (draws w))),
     MkWorld (files w) (dirs w) (Datatypes.S (draws w)) (sent w) (out w)).
Proof. reflexivity. Qed.

Lemma generate_hw_code_run (w : world) :
  let h k := MD5.hexdigest (token_bytes E (k + draws w)) in
  EftBsg.EFTLauncher._generate_hw_code E w
  = (Ret ("#1-" ++ join ":" [h 0; h 1; h 2] ++ "-" ++ join "-" [h 3; h 4; h 5; h 6]
          ++ "-" ++ str_take 24 (h 7))%string,
     MkWorld (files w) (dirs w) (8 + draws w) (sent w) (out w))%nat.
Proof.
  unfold EftBsg.EFTLauncher._generate_hw_code, repeat_m, bind, ret.
  do 8 (rewrite random_md5_run; cbn beta iota; cbn [draws files dirs sent out]).
  reflexivity.
Qed.

(** C8. Every freshly generated device identifier has the form [#1-], three
    32-character hexadecimal groups joined by colons, a dash, four such groups
    joined by dashes, a dash, and one 24-character hexadecimal group: the
    generator returns a string that the pattern accepts, whatever the entropy
    source delivers. *)
Theorem generated_hw_code_matches_pattern (w : world) :
  exists code w',
    EftBsg.EFTLauncher._generate_hw_code E w = (Ret code, w')
    /\ matches_hw_pattern code = true.
Proof.
  eexists _, _. split; [apply generate_hw_code_run |].
  cbv zeta. apply hw_pattern_ok; apply hexdigest_shape.
Qed.

End HwCode.

(** ** The request helpers, step by step *)

Ltac py_unfold :=
  unfold send, emit, update_world, zoom, bind, ret, raise, eval, gets, modify,
    try_except in *;
  cbn [get_world set_world world_has_world EftBsg.EFTLauncher.lstate_has_world
       EftBsg.EFTClient.cstate_has_world EftApi.EFTClient.astate_has_world
       fst snd] in *.

Section RequestHelpers.
Context (E : Env).

Lemma launcher_request_run url data uch (s : EftBsg.EFTLauncher.lstate) :
  EftBsg.EFTLauncher._request E url data uch s =
  let rq := launcher_request (EftBsg.EFTLauncher.self s) url data uch in
  let s1 := EftBsg.EFTLauncher.MkL (EftBsg.EFTLauncher.self s)
              (log_request rq (EftBsg.EFTLauncher.lworld s)) in
  match http E (length (sent (EftBsg.EFTLauncher.lworld s))) rq with
  | Failed e => (Raise e, s1)
  | Responded r => (launcher_decode E r, s1)
  end.
Proof.
  unfold EftBsg.EFTLauncher._request, launcher_request, launcher_decode,
    launcher_parse_error, inflate_and_parse, rbind.
  py_unfold. cbv zeta.
  destruct (truthy data); cbn [EftBsg.EFTLauncher.self EftBsg.EFTLauncher.lworld];
    (destruct (http E _ _) as [r | e]; [| reflexivity]);
    destruct (zlib_decompress E (content r)) as [c | e]; cbn [fst snd].
  all: try (destruct (bytes_decode E c) as [t | e];
            [destruct (json_loads E t) as [v | e] |]).
  all: try reflexivity.
  all: destruct (caught_by [ZlibError] e); try reflexivity.
  all: destruct (response_json E (content r) (text r)); reflexivity.
Qed.

Lemma game_request_run endpoint data (s : EftBsg.EFTClient.cstate) :
  EftBsg.EFTClient._request E endpoint data s =
  let c := EftBsg.EFTClient.self s in
  let rq := game_request c endpoint data in
  let s1 := EftBsg.EFTClient.MkC
              (EftBsg.EFTClient.MkClient (EftBsg.EFTClient.launcher c)
                 (EftBsg.EFTClient.request_id c + 1))
              (log_request rq (EftBsg.EFTClient.cworld s)) in
  match http E (length (sent (EftBsg.EFTClient.cworld s))) rq with
  | Failed e => (Ret (error_dict e), s1)
  | Responded r => (Ret (game_decode E r), s1)
  end.
Proof.
  unfold EftBsg.EFTClient._request, EftBsg.EFTClient._headers, game_request,
    game_decode, error_dict, inflate_and_parse, rbind.
  py_unfold. cbv zeta.
  cbn [EftBsg.EFTClient.self EftBsg.EFTClient.cworld EftBsg.EFTClient.launcher
       EftBsg.EFTClient.request_id any_exception].
  destruct (truthy data); cbn [fst snd EftBsg.EFTClient.self EftBsg.EFTClient.cworld];
    (destruct (http E _ _) as [r | e]; [| reflexivity]);
    destruct (zlib_decompress E (content r)) as [c | e]; cbn [fst snd].
  all: try (destruct (bytes_decode E c) as [t | e];
            [destruct (json_loads E t) as [v | e] |]).
  all: try reflexivity.
  all: destruct (caught_by [ZlibError] e); try reflexivity.
  all: destruct (response_json E (content r) (text r)); reflexivity.
Qed.

Lemma api_request_run method url data (s : EftApi.EFTClient.astate) :
  EftApi.EFTClient._request E method url data s =
  let rq := api_request (EftApi.EFTClient.self s) method url data in
  let s1 := EftApi.EFTClient.MkA (EftApi.EFTClient.self s)
              (log_request rq (EftApi.EFTClient.aworld s)) in
  match http E (length (sent (EftApi.EFTClient.aworld s))) rq with
  | Failed e => (Raise e, s1)
  | Responded r => (api_decode E r, s1)
  end.
Proof.
  unfold EftApi.EFTClient._request, EftApi.EFTClient._decompress_response,
    api_request, api_decode, api_text, api_parse_error, rbind.
  py_unfold. cbv zeta.
  destruct (String.eqb method "POST" && truthy data);
    cbn [EftApi.EFTClient.self EftApi.EFTClient.aworld];
    (destruct (http E _ _) as [r | e]; [| reflexivity]);
    destruct (zlib_decompress E (content r)) as [c | e]; cbn [fst snd].
  all: try (destruct (bytes_decode E c) as [t | e]; cbn [fst snd]).
  all: try (destruct (caught_by [ZlibError] e) eqn:Hz; cbn [fst snd]).
  all: try (destruct (bytes_decode E (content r)) as [t | e']; cbn [fst snd]).
  all: try (destruct (json_loads E t) as [v | e'']; cbn [fst snd]).
  all: try reflexivity.
  all: try (destruct (caught_by [JSONDecodeError; UnicodeDecodeError] _); reflexivity).
Qed.

Lemma query_run query variables (w : world) :
  TarkovDev.TarkovDevClient._query E query variables w =
  let rq := query_request query variables in
  let w1 := log_request rq w in
  match http E (length (sent w)) rq with
  | Failed e => (Raise e, w1)
  | Responded r =>
      if is_error_status (status_code r)
      then (Raise (http_error r), w1)
      else (response_json E (content r) (text r), w1)
  end.
Proof.
  unfold TarkovDev.TarkovDevClient._query, query_request, raise_for_status,
    is_error_status.
  py_unfold. cbv zeta.
  destruct (http E _ _) as [r | e]; [| reflexivity].
  destruct ((400 <=? status_code r) && (status_code r <? 600)); reflexivity.
Qed.

End RequestHelpers.

(** ** The response decode path *)

Section Decoding.
Context (E : Env).

Lemma invalid_zlib_raise body :
  invalid_zlib E body = true ->
  exists e, zlib_decompress E body = Raise e /\ caught_by [ZlibError] e = true.
Proof.
  unfold invalid_zlib, raises. destruct (zlib_decompress E body) as [c | e]; [discriminate |].
  intros He. now exists e.
Qed.

Lemma api_decode_undecodable r e :
  invalid_zlib E (content r) = true ->
  parse_plain E (content r) = Raise e ->
  api_decode E r
  = if caught_by [JSONDecodeError; UnicodeDecodeError] e
    then Ret (api_parse_error r) else Raise e.
Proof.
  intros Hz Hp. apply invalid_zlib_raise in Hz as (e0 & Hz & Hc).
  unfold api_decode, api_text, rbind. rewrite Hz. cbn beta iota. rewrite Hc.
  unfold parse_plain, rbind in Hp.
  destruct (bytes_decode E (content r)) as [t | e'].
  - now rewrite Hp.
  - now injection Hp as ->.
Qed.

Lemma launcher_decode_undecodable r :
  invalid_zlib E (content r) = true ->
  invalid_json_response E r = true ->
  launcher_decode E r = Ret (launcher_parse_error r).
Proof.
  intros Hz Hj. apply invalid_zlib_raise in Hz as (e & Hz & Hc).
  unfold launcher_decode, inflate_and_parse, rbind. rewrite Hz. cbn beta iota. rewrite Hc.
  unfold invalid_json_response in Hj.
  destruct (response_json E (content r) (text r)); [discriminate | reflexivity].
Qed.

(** C1 (as amended). For a body that is neither a zlib stream nor JSON
    text, the error dict of the request helpers carries in [raw] the first
    500 characters of the response text: a prefix of it of at most 500
    characters, which can be more than 500 bytes.  [EFTLauncher._request]
    returns its dict whenever [response.json()] fails, whatever it raised.
    [EFTClient._request] of eft_api_client.py returns its dict when the
    decoding or the parsing failed with [UnicodeDecodeError] or
    [JSONDecodeError]; any other exception of the parser escapes. *)
Theorem undecodable_body_yields_error_dict (r : response) (e : exn) :
  invalid_zlib E (content r) = true ->
  parse_plain E (content r) = Raise e ->
  let raw := str_take 500 (text r) in
  (String.prefix raw (text r) = true /\ (str_len raw <= 500)%nat)
  /\ (forall method url data (s : EftApi.EFTClient.astate),
        http E (length (sent (EftApi.EFTClient.aworld s)))
          (api_request (EftApi.EFTClient.self s) method url data) = Responded r ->
        fst (EftApi.EFTClient._request E method url data s)
        = if caught_by [JSONDecodeError; UnicodeDecodeError] e
          then Ret (JObj [("error", JStr "Failed to parse response"); ("raw", JStr raw)])
          else Raise e)
  /\ (forall url data uch (s : EftBsg.EFTLauncher.lstate),
        http E (length (sent (EftBsg.EFTLauncher.lworld s)))
          (launcher_request (EftBsg.EFTLauncher.self s) url data uch) = Responded r ->
        invalid_json_response E r = true ->
        fst (EftBsg.EFTLauncher._request E url data uch s)
        = Ret (JObj [("error", JStr "Parse error"); ("raw", JStr raw);
                     ("status", JNum (status_code r))])).
Proof.
  intros Hz Hp raw. split; [| split].
  - split; [apply str_take_prefix | apply str_take_len_le].
  - intros method url data s Hs.
    rewrite api_request_run. cbv zeta. rewrite Hs. cbn [fst].
    now apply api_decode_undecodable.
  - intros url data uch s Hs Hr.
    rewrite launcher_request_run. cbv zeta. rewrite Hs. cbn [fst].
    now apply launcher_decode_undecodable.
Qed.

(** C5. A value serialized to JSON text, encoded and compressed comes back
    equal from the decode path of each request helper, provided the libraries
    invert their own output on that value. *)
Theorem compressed_json_roundtrip (v : json) (r : response) :
  let txt := json_dumps E v in
  zlib_decompress E (zlib_compress E (encode txt)) = Ret (encode txt) ->
  bytes_decode E (encode txt) = Ret txt ->
  json_loads E txt = Ret v ->
  content r = zlib_compress E (encode txt) ->
  (forall method url data (s : EftApi.EFTClient.astate),
     http E (length (sent (EftApi.EFTClient.aworld s)))
       (api_request (EftApi.EFTClient.self s) method url data) = Responded r ->
     fst (EftApi.EFTClient._request E method url data s) = Ret v)
  /\ (forall url data uch (s : EftBsg.EFTLauncher.lstate),
        http E (length (sent (EftBsg.EFTLauncher.lworld s)))
          (launcher_request (EftBsg.EFTLauncher.self s) url data uch) = Responded r ->
        fst (EftBsg.EFTLauncher._request E url data uch s) = Ret v)
  /\ (forall endpoint data (s : EftBsg.EFTClient.cstate),
        http E (length (sent (EftBsg.EFTClient.cworld s)))
          (game_request (EftBsg.EFTClient.self s) endpoint data) = Responded r ->
        fst (EftBsg.EFTClient._request E endpoint data s) = Ret v).
Proof.
  intros txt Hz Hd Hj Hc. split; [| split].
  - intros method url data s Hs.
    rewrite api_request_run. cbv zeta. rewrite Hs. cbn [fst].
    unfold api_decode, api_text, rbind. now rewrite Hc, Hz, Hd, Hj.
  - intros url data uch s Hs.
    rewrite launcher_request_run. cbv zeta. rewrite Hs. cbn [fst].
    unfold launcher_decode, inflate_and_parse, rbind. now rewrite Hc, Hz, Hd, Hj.
  - intros endpoint data s Hs.
    rewrite game_request_run. cbv zeta. rewrite Hs. cbn [fst].
    unfold game_decode, inflate_and_parse, rbind. now rewrite Hc, Hz, Hd, Hj.
Qed.

(** C4 (as amended). The vendor request helpers do not look at the status
    code: what they return for a reply is fixed by its body and text (the
    launcher copies the status into its parse-error dict, nothing more).  The
    public-API helper does look: it raises [HTTPError] on a 4xx or 5xx status
    and returns the parsed body otherwise. *)
Theorem status_code_handling (r : response) :
  (forall query variables (w : world),
     http E (length (sent w)) (query_request query variables) = Responded r ->
     fst (TarkovDev.TarkovDevClient._query E query variables w)
     = if is_error_status (status_code r)
       then Raise (http_error r)
       else response_json E (content r) (text r))
  /\ (forall method url data (s : EftApi.EFTClient.astate),
        http E (length (sent (EftApi.EFTClient.aworld s)))
          (api_request (EftApi.EFTClient.self s) method url data) = Responded r ->
        forall st, fst (EftApi.EFTClient._request E method url data s)
                   = api_decode E (Response st (content r) (text r)))
  /\ (forall endpoint data (s : EftBsg.EFTClient.cstate),
        http E (length (sent (EftBsg.EFTClient.cworld s)))
          (game_request (EftBsg.EFTClient.self s) endpoint data) = Responded r ->
        forall st, fst (EftBsg.EFTClient._request E endpoint data s)
                   = Ret (game_decode E (Response st (content r) (text r))))
  /\ (forall url data uch (s : EftBsg.EFTLauncher.lstate),
        http E (length (sent (EftBsg.EFTLauncher.lworld s)))
          (launcher_request (EftBsg.EFTLauncher.self s) url data uch) = Responded r ->
        forall st,
          let r' := Response st (content r) (text r) in
          fst (EftBsg.EFTLauncher._request E url data uch s) = launcher_decode E r'
          \/ (fst (EftBsg.EFTLauncher._request E url data uch s)
                = Ret (launcher_parse_error r)
              /\ launcher_decode E r' = Ret (launcher_parse_error r'))).
Proof.
  split; [| split; [| split]].
  - intros query variables w Hs. rewrite query_run. cbv zeta. rewrite Hs.
    now destruct (is_error_status (status_code r)).
  - intros method url data s Hs st. rewrite api_request_run. cbv zeta.
    rewrite Hs. reflexivity.
  - intros endpoint data s Hs st. rewrite game_request_run. cbv zeta.
    rewrite Hs. reflexivity.
  - intros url data uch s Hs st r'. rewrite launcher_request_run. cbv zeta.
    rewrite Hs. cbn [fst]. unfold launcher_decode. subst r'. cbn [content text].
    destruct (inflate_and_parse E (content r)) as [v | e]; [now left |].
    destruct (caught_by [ZlibError] e); [| now left].
    destruct (response_json E (content r) (text r)); [now left | now right].
Qed.


End Decoding.

Section DecodingInstances.
Import Scenarios.

Lemma undecodable_body_witness :
  fst (EftApi.EFTClient._request (env_reply 503 html_body) "GET"
         "https://prod.escapefromtarkov.com/client/items" JNull a0)
  = Ret (JObj [("error", JStr "Failed to parse response");
               ("raw", JStr "<html><body>503 Service Unavailable</body></html>")])
  /\ fst (EftBsg.EFTLauncher._request (env_reply 503 html_body)
            "https://launcher.escapefromtarkov.com/launcher/login" JNull false l0)
     = Ret (JObj [("error", JStr "Parse error");
                  ("raw", JStr "<html><body>503 Service Unavailable</body></html>");
                  ("status", JNum 503)]).
Proof.
  destruct (undecodable_body_yields_error_dict (env_reply 503 html_body)
              (reply_of 503 html_body) (Exn JSONDecodeError "Expecting value"))
    as (_ & HA & HB); try (vm_compute; reflexivity).
  split; [apply HA | apply HB]; vm_compute; reflexivity.
Defined.

(** The two ways in which the claim as first worded fails.  A body that
    opens a list with a number of 5000 digits is neither zlib nor JSON, and
    the [ValueError] of the parser escapes [EFTClient._request] of
    eft_api_client.py.  A text of 600 two-byte characters gives a [raw] of
    500 characters, which are 1000 bytes. *)
Lemma parser_error_escapes_and_raw_exceeds_500_bytes :
  let too_long :=
    Exn ValueError
      ("Exceeds the limit (4300 digits) for integer string conversion: "
       ++ "value has 5000 digits; use sys.set_int_max_str_digits() to increase the limit") in
  invalid_zlib (env_reply 200 digits_body) digits_body = true
  /\ parse_plain (env_reply 200 digits_body) digits_body = Raise too_long
  /\ fst (EftApi.EFTClient._request (env_reply 200 digits_body) "GET"
            "https://prod.escapefromtarkov.com/client/items" JNull a0)
     = Raise too_long
  /\ invalid_zlib (env_reply 200 accents_body) accents_body = true
  /\ fst (EftApi.EFTClient._request (env_reply 200 accents_body) "GET"
            "https://prod.escapefromtarkov.com/client/items" JNull a0)
     = Ret (api_parse_error (reply_of 200 accents_body))
  /\ str_len (str_take 500 (text (reply_of 200 accents_body))) = 500%nat
  /\ String.length (str_take 500 (text (reply_of 200 accents_body))) = 1000%nat.
Proof. vm_compute. repeat split; reflexivity. Qed.

Lemma compressed_json_roundtrip_witness :
  fst (EftApi.EFTClient._request (env_reply 200 ok_body) "GET"
         "https://prod.escapefromtarkov.com/client/items" JNull a0) = Ret ok_value
  /\ fst (EftBsg.EFTLauncher._request (env_reply 200 ok_body)
            "https://launcher.escapefromtarkov.com/launcher/login" JNull false l0)
     = Ret ok_value
  /\ fst (EftBsg.EFTClient._request (env_reply 200 ok_body) "/client/items" JNull c0)
     = Ret ok_value.
Proof.
  destruct (compressed_json_roundtrip (env_reply 200 ok_body) ok_value
              (reply_of 200 ok_body))
    as (HA & HB & HC); try (vm_compute; reflexivity).
  split; [apply HA | split; [apply HB | apply HC]]; reflexivity.
Defined.

(** C4, counterexample: the public-API helper receives a reply with status
    500 whose body is a JSON document, and raises instead of returning it. *)
Lemma query_fails_on_status_500 :
  fst (TarkovDev.TarkovDevClient._query (env_reply 500 errors_body)
         "{ items { id } }" JNull w0)
  = Raise (Exn HTTPError "500 Server Error")
  /\ response_json (env_reply 500 errors_body) errors_body (string_of_list_byte errors_body)
     = Ret errors_value
  /\ fst (TarkovDev.TarkovDevClient._query (env_reply 200 errors_body)
            "{ items { id } }" JNull w0)
     = Ret errors_value.
Proof. vm_compute. repeat split; reflexivity. Qed.

Lemma status_code_handling_witness :
  fst (TarkovDev.TarkovDevClient._query (env_reply 500 errors_body)
         "{ items { id } }" JNull w0)
  = Raise (Exn HTTPError "500 Server Error")
  /\ fst (EftBsg.EFTLauncher._request (env_reply 500 errors_body)
            "https://launcher.escapefromtarkov.com/launcher/login" JNull false l0)
     = Ret errors_value.
Proof.
  destruct (status_code_handling (env_reply 500 errors_body) (reply_of 500 errors_body))
    as (HQ & _ & _ & HL).
  split.
  - rewrite (HQ "{ items { id } }" JNull w0 eq_refl). reflexivity.
  - pose proof (HL "https://launcher.escapefromtarkov.com/launcher/login" JNull false l0
                  eq_refl 200) as H.
    cbv zeta in H. destruct H as [H | [_ H]].
    + rewrite H. vm_compute. reflexivity.
    + vm_compute in H. discriminate H.
Defined.


End DecodingInstances.

(** ** tarkov_api_client.py: a reply without the queried data *)

Section MissingData.
Context (E : Env).
Import TarkovDev.TarkovDevClient.

Lemma data_field_missing body field default (w : world) :
  In field queried_fields ->
  lacks_data body ->
  data_field (JObj body) field default w = (Ret default, w).
Proof.
  intros Hf [Hnone | (d & Hd & Hall)]; unfold data_field, bind, eval, py_get.
  - rewrite Hnone. reflexivity.
  - rewrite Hd. now rewrite (Hall field Hf).
Qed.

Lemma query_returns_body (w : world) (r : response) body query variables :
  (forall rq, http E (length (sent w)) rq = Responded r) ->
  is_error_status (status_code r) = false ->
  response_json E (content r) (text r) = Ret (JObj body) ->
  _query E query variables w
  = (Ret (JObj body), log_request (query_request query variables) w).
Proof.
  intros Hs Hst Hj. rewrite query_run. cbv zeta. now rewrite Hs, Hst, Hj.
Qed.

Lemma query_method_lacking (w : world) (r : response) body query variables field default :
  (forall rq, http E (length (sent w)) rq = Responded r) ->
  is_error_status (status_code r) = false ->
  response_json E (content r) (text r) = Ret (JObj body) ->
  lacks_field body field ->
  fst ((result <- _query E query variables ;; data_field result field default) w)
  = Ret default.
Proof.
  intros Hs Hst Hj Hl. unfold bind at 1.
  rewrite (query_returns_body w r body) by assumption.
  unfold data_field, bind, eval, py_get.
  destruct Hl as [Hnone | (d & Hd & Hf)].
  - now rewrite Hnone.
  - now rewrite Hd, Hf.
Qed.

(** C10 (as amended). When a query is answered with a status outside 400 to
    599 and a JSON object that has no [data], or whose [data] object has not
    the field the method reads, each list-returning query method returns
    the empty list and [get_item_by_id] returns [None]; none of them raises.
    Each method depends on its own field only: [items] for [get_all_items],
    [search_items] and [get_flea_prices], [item] for [get_item_by_id], and so
    on. *)
Theorem missing_data_gives_empty (w : world) (r : response) (body : list (string * json)) :
  (forall rq, http E (length (sent w)) rq = Responded r) ->
  is_error_status (status_code r) = false ->
  response_json E (content r) (text r) = Ret (JObj body) ->
  forall (lang name item_id : string) (item_ids : json),
    (lacks_field body "items" ->
       fst (get_all_items E lang w) = Ret (JArr [])
       /\ fst (search_items E name lang w) = Ret (JArr [])
       /\ fst (get_flea_prices E item_ids w) = Ret (JArr []))
    /\ (lacks_field body "maps" -> fst (get_all_maps E lang w) = Ret (JArr []))
    /\ (lacks_field body "traders" -> fst (get_all_traders E lang w) = Ret (JArr []))
    /\ (lacks_field body "tasks" -> fst (get_all_tasks E lang w) = Ret (JArr []))
    /\ (lacks_field body "hideoutStations" ->
          fst (get_hideout_stations E lang w) = Ret (JArr []))
    /\ (lacks_field body "bosses" -> fst (get_all_bosses E lang w) = Ret (JArr []))
    /\ (lacks_field body "ammo" -> fst (get_all_ammo E lang w) = Ret (JArr []))
    /\ (lacks_field body "barters" -> fst (get_barters E lang w) = Ret (JArr []))
    /\ (lacks_field body "item" -> fst (get_item_by_id E item_id lang w) = Ret JNull).
Proof.
  intros Hs Hst Hj lang name item_id item_ids.
  repeat match goal with |- _ /\ _ => split end; intros Hl;
    repeat match goal with |- _ /\ _ => split end;
    try (eapply query_method_lacking; eauto).
  unfold get_flea_prices. destruct (truthy item_ids);
    eapply query_method_lacking; eauto.
Qed.

End MissingData.

Section MissingDataInstances.
Import Scenarios TarkovDev.TarkovDevClient.

Lemma missing_data_gives_empty_witness :
  fst (get_all_items (env_reply 200 errors_body) "en" w0) = Ret (JArr [])
  /\ fst (get_barters (env_reply 200 errors_body) "en" w0) = Ret (JArr [])
  /\ fst (get_item_by_id (env_reply 200 errors_body) "5447a9cd4bdc2dbd208b4567" "en" w0)
     = Ret JNull.
Proof.
  pose proof (missing_data_gives_empty (env_reply 200 errors_body) w0
                (reply_of 200 errors_body) [("errors", JArr [JStr "Internal server error"])]
                (fun _ => eq_refl) eq_refl
                ltac:(vm_compute; reflexivity)
                "en" "AK-47" "5447a9cd4bdc2dbd208b4567" JNull)
    as (Hitems & _ & _ & _ & _ & _ & _ & Hbarters & Hitem).
  split; [apply Hitems; left; reflexivity |].
  split; [apply Hbarters; left; reflexivity | apply Hitem; left; reflexivity].
Defined.

(** The same body under an error status: the method raises, it does not
    return the empty list. *)
Lemma missing_data_under_error_status_raises :
  RefEnv.body_json errors_body (text (reply_of 500 errors_body)) = Ret errors_value
  /\ assoc "data" [("errors", JArr [JStr "Internal server error"])] = None
  /\ fst (get_all_items (env_reply 500 errors_body) "en" w0)
     = Raise (Exn HTTPError "500 Server Error")
  /\ fst (get_item_by_id (env_reply 500 errors_body) "5447a9cd4bdc2dbd208b4567" "en" w0)
     = Raise (Exn HTTPError "500 Server Error").
Proof. vm_compute. repeat split; reflexivity. Qed.

(** The second way of lacking: a [data] object without the field. *)
Example missing_field_ex :
  let body := encode (RefEnv.dumps (JObj [("data", JObj [("other", JNum 1)])])) in
  fst (get_all_maps (env_reply 200 body) "en" w0) = Ret (JArr [])
  /\ fst (get_item_by_id (env_reply 200 body) "x" "en" w0) = Ret JNull.
Proof. vm_compute. split; reflexivity. Qed.

End MissingDataInstances.

(** ** eft_bsg_client.py: the launcher's lifecycle calls *)

Section Lifecycle.
Context (E : Env).
Import EftBsg.EFTLauncher.

(** Open a lifecycle call up to the reply its request received. *)
Ltac open_call :=
  unfold bind at 1; unfold gets at 1; cbn beta iota;
  unfold bind at 1; rewrite launcher_request_run; cbv zeta;
  let r := fresh "r" in let e := fresh "e" in let response := fresh "response" in
  destruct (http E _ _) as [r | e];
  [ destruct (launcher_decode E r) as [response | e] | ].

Ltac analyse_reply :=
  unfold update_self, print_token_prefix; py_unfold;
  repeat case_match; intros; simplify_eq;
  cbn [self lworld token game_session set_token set_game_session] in *;
  try reflexivity; try discriminate;
  try match goal with
      | H : py_slice_to _ ?v = Raise _ |- _ => destruct v; discriminate
      end.

Lemma login_world (s : lstate) :
  lworld (snd (login E s)) = log_request (login_request (self s)) (lworld s).
Proof. unfold login, login_request. open_call; try reflexivity. analyse_reply. Qed.



Lemma activate_hardware_keeps_self code (s : lstate) :
  self (snd (activate_hardware E code s)) = self s.
Proof. unfold activate_hardware. open_call; try reflexivity. analyse_reply. Qed.

Lemma activate_hardware_world code (s : lstate) :
  lworld (snd (activate_hardware E code s))
  = log_request (activate_request (self s) code) (lworld s).
Proof.
  unfold activate_hardware, activate_request. open_call; try reflexivity. analyse_reply.
Qed.

(** Without a stored token [start_game] gives up at once: nothing is sent
    and nothing changes. *)
Lemma start_game_unauthenticated (s : lstate) :
  truthy (token (self s)) = false -> start_game E s = (Ret false, s).
Proof.
  intros Ht. unfold start_game. unfold bind at 1. unfold gets at 1. cbn beta iota.
  rewrite Ht. reflexivity.
Qed.

Ltac open_start_game :=
  unfold start_game; unfold bind at 1; unfold gets at 1; cbn beta iota;
  destruct (truthy (token (self _))); cbn [negb];
  [ unfold bind at 1; rewrite launcher_request_run; cbv zeta;
    let r := fresh "r" in let e := fresh "e" in let response := fresh "response" in
    destruct (http E _ _) as [r | e];
    [ destruct (launcher_decode E r) as [response | e] | ]
  | ].

Lemma start_game_world (s : lstate) :
  truthy (token (self s)) = true ->
  lworld (snd (start_game E s)) = log_request (start_game_request (self s)) (lworld s).
Proof.
  intros Ht. unfold start_game_request. revert Ht. open_start_game;
    try reflexivity; try discriminate.
  analyse_reply.
Qed.




Lemma login_returns_true (s s' : lstate) :
  login E s = (Ret true, s') -> self s' = set_token (token (self s')) (self s).
Proof.
  unfold login. open_call; try discriminate.
  analyse_reply.
Qed.

Lemma start_game_returns_true (s s' : lstate) :
  start_game E s = (Ret true, s') ->
  truthy (token (self s)) = true
  /\ self s' = set_game_session (game_session (self s')) (self s).
Proof.
  open_start_game; try discriminate.
  analyse_reply; now split.
Qed.

(** X2. The lifecycle moves forward only through successful calls: a
    [login] that returns [True] changes nothing but the access token; a
    [start_game] that returns [True] was called with an access token and
    changes nothing but the game-session token. *)
Theorem successful_calls_store_tokens (s : lstate) :
  (forall s', login E s = (Ret true, s') ->
     self s' = set_token (token (self s')) (self s))
  /\ (forall s', start_game E s = (Ret true, s') ->
        truthy (token (self s)) = true
        /\ self s' = set_game_session (game_session (self s')) (self s)).
Proof.
  split; [intros s'; apply login_returns_true | intros s'; apply start_game_returns_true].
Qed.


End Lifecycle.

Section LifecycleInstances.
Import Scenarios EftBsg.EFTLauncher.



Lemma successful_calls_witness :
  let E := env_reply 200 accept_body in
  let s1 := snd (login E l0) in
  let s2 := snd (start_game E s1) in
  fst (login E l0) = Ret true
  /\ fst (start_game E s1) = Ret true
  /\ self s1 = set_token (JStr "token-abc") launcher0
  /\ self s2 = set_game_session (JStr "session-xyz") (set_token (JStr "token-abc") launcher0).
Proof.
  cbv zeta.
  assert (H1 : fst (login (env_reply 200 accept_body) l0) = Ret true)
    by (vm_compute; reflexivity).
  assert (H2 : fst (start_game (env_reply 200 accept_body)
                      (snd (login (env_reply 200 accept_body) l0))) = Ret true)
    by (vm_compute; reflexivity).
  destruct (successful_calls_store_tokens (env_reply 200 accept_body) l0) as (HL & _).
  destruct (successful_calls_store_tokens (env_reply 200 accept_body)
              (snd (login (env_reply 200 accept_body) l0))) as (_ & HS).
  specialize (HL (snd (login (env_reply 200 accept_body) l0))).
  specialize (HS (snd (start_game (env_reply 200 accept_body)
                         (snd (login (env_reply 200 accept_body) l0))))).
  rewrite <- H1 in HL. rewrite <- H2 in HS.
  specialize (HL (surjective_pairing _)). specialize (HS (surjective_pairing _)).
  destruct HS as (_ & HS).
  split; [exact H1 |]. split; [exact H2 |].
  split.
  - rewrite HL. vm_compute. reflexivity.
  - rewrite HS. vm_compute. reflexivity.
Defined.

End LifecycleInstances.

(** ** The password digest in the login request *)

Section PasswordDigest.
Context (E : Env).

Lemma sent_since_log rq (w : world) : sent_since w (log_request rq w) = [rq].
Proof.
  unfold sent_since, log_request. cbn [sent].
  rewrite skipn_app, skipn_all, Nat.sub_diag. reflexivity.
Qed.

Lemma api_login_world email password (s : EftApi.EFTClient.astate) :
  EftApi.EFTClient.aworld (snd (EftApi.EFTClient.login E email password s))
  = log_request (api_login_request (EftApi.EFTClient.self s) email password)
      (EftApi.EFTClient.aworld s).
Proof.
  unfold EftApi.EFTClient.login, api_login_request. cbv zeta.
  unfold try_except. unfold bind at 1. rewrite api_request_run. cbv zeta.
  destruct (http E _ _) as [r | e]; [| reflexivity].
  destruct (api_decode E r) as [response | e]; [| reflexivity].
  py_unfold. repeat case_match; simplify_eq; reflexivity.
Qed.

(** C9. The [pass] field of the login request, in both vendor clients, is the
    MD5 digest of the encoded password written as 32 lowercase hexadecimal
    characters; it is a function of the password alone. *)
Theorem login_sends_password_digest :
  (forall s : EftBsg.EFTLauncher.lstate,
     let d := MD5.hexdigest (encode (EftBsg.EFTLauncher.password (EftBsg.EFTLauncher.self s))) in
     exists rq,
       sent_since (EftBsg.EFTLauncher.lworld s)
         (EftBsg.EFTLauncher.lworld (snd (EftBsg.EFTLauncher.login E s))) = [rq]
       /\ body_field "pass" rq = Some (JStr d)
       /\ is_hex_of_length 32 d = true)
  /\ (forall email password (s : EftApi.EFTClient.astate),
        let d := MD5.hexdigest (encode password) in
        exists rq,
          sent_since (EftApi.EFTClient.aworld s)
            (EftApi.EFTClient.aworld (snd (EftApi.EFTClient.login E email password s))) = [rq]
          /\ body_field "pass" rq = Some (JStr d)
          /\ is_hex_of_length 32 d = true).
Proof.
  split.
  - intros s d. exists (login_request (EftBsg.EFTLauncher.self s)).
    rewrite login_world, sent_since_log.
    split; [reflexivity |]. split; [reflexivity | apply hexdigest_shape].
  - intros email password s d.
    exists (api_login_request (EftApi.EFTClient.self s) email password).
    rewrite api_login_world, sent_since_log.
    split; [reflexivity |]. split; [reflexivity | apply hexdigest_shape].
Qed.

End PasswordDigest.

Example password_digest_ex :
  EftApi.EFTClient._compute_password_hash "dein_passwort"
  = "315c5784066c561abb11d0f1f54bea6a"
  /\ EftBsg.EFTLauncher._md5_password Scenarios.launcher0
     = "5ebe2294ecd0e0f08eab7690d2a6ee69".
Proof. vm_compute. split; reflexivity. Qed.

(** ** eft_bsg_client.py: the request counter of the game client *)

Section RequestCounter.
Context (E : Env).
Import EftBsg.EFTClient.

Lemma to_int_proper n : Z.to_int n <> Decimal.Pos Decimal.Nil /\ Z.to_int n <> Decimal.Neg Decimal.Nil.
Proof.
  destruct n; cbn; split; try discriminate; intros [= H];
    now apply DecimalPos.Unsigned.to_uint_nonnil in H.
Qed.

(** [str] is injective on integers: two requests carry the same header only
    if their counters are equal. *)
Lemma str_of_int_inj a b : str_of_int a = str_of_int b -> a = b.
Proof.
  unfold str_of_int. intros H.
  apply (f_equal NilZero.int_of_string) in H.
  destruct (to_int_proper a), (to_int_proper b).
  rewrite !NilZero.isi in H by assumption.
  injection H as H. now apply DecimalZ.to_int_inj.
Qed.

Lemma game_request_id c endpoint data :
  request_id_header (game_request c endpoint data) = id_header (request_id c + 1).
Proof. unfold request_id_header, game_request. cbn [rq_headers]. apply lookup_insert_eq. Qed.

(** One call: it returns, it sends one request numbered with the incremented
    counter, and it leaves the counter incremented by one. *)
Lemma game_request_step endpoint data (s : cstate) :
  exists v,
    _request E endpoint data s
    = (Ret v,
       MkC (MkClient (launcher (self s)) (request_id (self s) + 1))
         (log_request (game_request (self s) endpoint data) (cworld s))).
Proof.
  rewrite game_request_run. cbv zeta.
  destruct (http E _ _); eexists; reflexivity.
Qed.

Lemma run_requests_ids calls : forall s : cstate,
  exists s' rqs,
    run_requests E calls s = (Ret tt, s')
    /\ sent (cworld s') = (sent (cworld s) ++ rqs)%list
    /\ map request_id_header rqs
       = map (fun k => id_header (request_id (self s) + Z.of_nat k)) (seq 1 (length calls))
    /\ request_id (self s') = request_id (self s) + Z.of_nat (length calls)
    /\ launcher (self s') = launcher (self s).
Proof.
  induction calls as [| [endpoint data] calls IH]; intros s.
  - exists s, []. cbn. rewrite app_nil_r, Z.add_0_r. repeat split; reflexivity.
  - destruct (game_request_step endpoint data s) as (v & Hstep).
    set (s1 := MkC _ _) in Hstep.
    destruct (IH s1) as (s' & rqs & Hrun & Hsent & Hids & Hcnt & Hl).
    exists s', (game_request (self s) endpoint data :: rqs).
    split; [| split; [| split; [| split]]].
    + unfold run_requests in *. cbn [for_each]. unfold bind at 1. unfold bind at 1.
      rewrite Hstep. cbn beta iota. unfold ret at 1. exact Hrun.
    + rewrite Hsent. subst s1. cbn [cworld log_request sent].
      now rewrite <- app_assoc.
    + cbn [map length seq]. rewrite game_request_id, Hids.
      replace (request_id (self s) + Z.of_nat 1) with (request_id (self s) + 1) by lia.
      apply f_equal. rewrite <- (seq_shift _ 1), map_map.
      apply map_ext. intros k. subst s1. cbn [self request_id].
      replace (request_id (self s) + 1 + Z.of_nat k)
        with (request_id (self s) + Z.of_nat (Datatypes.S k)) by lia.
      reflexivity.
    + rewrite Hcnt. subst s1. cbn [self request_id length]. lia.
    + rewrite Hl. reflexivity.
Qed.

(** C6. The counter starts at zero when the client is built; each request
    increments it once and carries the incremented value; so over any run of
    requests the values attached are 1, 2, ..., n in this order, none of them
    twice, and the counter ends at n. *)
Theorem request_ids_count_up (l : EftBsg.EFTLauncher.t) (w : world)
    (calls : list (string * json)) :
  let s0 := MkC (init l) w in
  request_id (self s0) = 0
  /\ exists s',
       run_requests E calls s0 = (Ret tt, s')
       /\ map request_id_header (sent_since w (cworld s'))
          = map (fun k => id_header (Z.of_nat k)) (seq 1 (length calls))
       /\ List.NoDup (map request_id_header (sent_since w (cworld s')))
       /\ request_id (self s') = Z.of_nat (length calls).
Proof.
  intros s0. split; [reflexivity |].
  destruct (run_requests_ids calls s0) as (s' & rqs & Hrun & Hsent & Hids & Hcnt & _).
  exists s'. cbn [s0 self cworld init request_id] in *.
  assert (Hsince : sent_since w (cworld s') = rqs).
  { unfold sent_since. rewrite Hsent, skipn_app, skipn_all, Nat.sub_diag. reflexivity. }
  rewrite Hsince, Hids.
  split; [exact Hrun |]. split; [reflexivity |]. split; [| lia].
  apply Finite.Injective_map_NoDup; [| apply List.seq_NoDup].
  intros a b [= H]. apply str_of_int_inj in H. lia.
Qed.

End RequestCounter.

(** ** eft_bsg_client.py: the persisted device identifier *)

Section DeviceIdentifier.
Context (E : Env).
Import EftBsg.EFTLauncher.

Lemma str_forall_app p (a b : string) :
  str_forall p (a ++ b)%string = str_forall p a && str_forall p b.
Proof. induction a as [| c a IH]; simpl; [reflexivity |]. now rewrite IH, andb_assoc. Qed.

Lemma lower_hex_not_space c : is_lower_hex c = true -> not_space c = true.
Proof.
  destruct c as [[] [] [] [] [] [] [] []]; intros H; try reflexivity; discriminate H.
Qed.

Lemma str_forall_impl (p q : ascii -> bool) s :
  (forall c, p c = true -> q c = true) -> str_forall p s = true -> str_forall q s = true.
Proof.
  intros Hpq. induction s as [| c s IH]; simpl; [reflexivity |].
  intros H. apply andb_true_iff in H as [Hc Hs]. now rewrite (Hpq c Hc), IH.
Qed.

Lemma hex_no_space n h : is_hex_of_length n h = true -> str_forall not_space h = true.
Proof.
  unfold is_hex_of_length. intros H. apply andb_true_iff in H as [_ H].
  revert H. apply str_forall_impl, lower_hex_not_space.
Qed.

(** A one-byte character that is not white space does not begin a white
    space character of two or three bytes either. *)
Lemma not_space_lead c :
  not_space c = true ->
  is_space c = false
  /\ (forall c1, is_space2 c c1 = false)
  /\ (forall c1 c2, is_space3 c c1 c2 = false).
Proof.
  unfold not_space, is_space2, is_space3. intros H.
  apply andb_true_iff in H as [H1 H2].
  apply negb_true_iff in H1. apply N.ltb_lt in H2.
  split; [exact H1 |]. cbv zeta.
  split; intros; rewrite !(proj2 (N.eqb_neq (N_of_ascii c) _)) by lia; reflexivity.
Qed.

Lemma lstrip_no_space s : str_forall not_space s = true -> lstrip s = s.
Proof.
  destruct s as [| c s]; cbn [lstrip str_forall]; [reflexivity |].
  intros H. apply andb_true_iff in H as [Hc _].
  destruct (not_space_lead c Hc) as (H1 & H2 & H3). rewrite H1.
  destruct s as [| c1 s]; [reflexivity |]. rewrite H2.
  destruct s as [| c2 s]; [reflexivity |]. now rewrite H3.
Qed.

Lemma rstrip_no_space s : str_forall not_space s = true -> rstrip s = s.
Proof.
  induction s as [| c s IH]; [reflexivity |].
  intros H. cbn [rstrip]. rewrite (lstrip_no_space _ H).
  cbn [str_forall] in H. apply andb_true_iff in H as [_ Hs]. now rewrite (IH Hs).
Qed.

Lemma strip_no_space s : str_forall not_space s = true -> strip s = s.
Proof. intros H. unfold strip. now rewrite lstrip_no_space, rstrip_no_space. Qed.

(** The identifier the generator builds holds no white space, so reading it
    back with [strip()] returns it unchanged. *)
Lemma strip_generated (w : world) code w' :
  _generate_hw_code E w = (Ret code, w') -> strip code = code.
Proof.
  rewrite generate_hw_code_run. cbv zeta. intros H.
  apply pair_equal_spec in H as [H _].
  apply (f_equal (fun r => match r with Ret c => c | Raise _ => EmptyString end)) in H.
  cbn beta iota in H. subst code.
  apply strip_no_space. unfold join. cbn [fold_left].
  rewrite !str_forall_app.
  rewrite !(hex_no_space 32 (MD5.hexdigest _)) by apply hexdigest_shape.
  rewrite (hex_no_space 24 (str_take 24 _))
    by (apply (str_take_hex 24 32); [lia | apply hexdigest_shape]).
  reflexivity.
Qed.

Lemma file_exists_run (w : world) path :
  file_exists path w
  = (Ret (match files w !! path with Some _ => true | None => false end), w).
Proof.
  unfold file_exists, gets. cbn [get_world world_has_world].
  destruct (files w !! path); reflexivity.
Qed.

(** Construction when the identifier file is there: it is read and stripped. *)
Lemma init_existing email password lv cv uv (w : world) t :
  files w !! hw_file_of email = Some t ->
  init E email password lv cv uv w
  = (Ret (MkLauncher email password lv cv uv JNull JNull
            (path_join ".eft_storage" (_safe_email email)) (strip t)),
     made_dirs email w).
Proof.
  intros Hf. unfold init. cbv zeta.
  unfold bind at 1. unfold bind at 1.
  unfold mkdir at 1 2, update_world, modify. cbn [get_world set_world world_has_world].
  cbn beta iota. unfold bind at 1. unfold _get_or_create_hw_code at 1. cbv zeta.
  unfold bind at 1. rewrite file_exists_run. cbn [files].
  unfold hw_file_of in Hf. rewrite Hf. cbn beta iota.
  unfold bind at 1, read_text. cbn [get_world world_has_world files]. rewrite Hf.
  reflexivity.
Qed.

(** Construction when there is no identifier file: one is generated and written. *)
Lemma init_fresh email password lv cv uv (w : world) :
  files w !! hw_file_of email = None ->
  exists code w',
    _generate_hw_code E (made_dirs email w) = (Ret code, w')
    /\ init E email password lv cv uv w
       = (Ret (MkLauncher email password lv cv uv JNull JNull
                 (path_join ".eft_storage" (_safe_email email)) code),
          MkWorld (<[ hw_file_of email := code ]> (files w')) (dirs w') (draws w')
            (sent w') (out w'))
    /\ dirs w' = dirs (made_dirs email w).
Proof.
  intros Hf. eexists _, _. split; [apply generate_hw_code_run |]. split; [| reflexivity].
  unfold init. cbv zeta.
  unfold bind at 1. unfold bind at 1.
  unfold mkdir at 1 2, update_world, modify. cbn [get_world set_world world_has_world].
  cbn beta iota. unfold bind at 1. unfold _get_or_create_hw_code at 1. cbv zeta.
  unfold bind at 1. rewrite file_exists_run. cbn [files].
  unfold hw_file_of in Hf. rewrite Hf. cbn beta iota.
  unfold bind at 1. fold (made_dirs email w). rewrite generate_hw_code_run. cbv zeta.
  reflexivity.
Qed.

Lemma made_dirs_twice email (w : world) : made_dirs email (made_dirs email w) = made_dirs email w.
Proof.
  unfold made_dirs. cbn [files dirs draws sent out]. f_equal.
  apply set_eq. intros x. rewrite !elem_of_union. tauto.
Qed.

(** C3 (as amended). Building the launcher again for the same email finds
    the identifier the first construction left in the account's file and
    returns that very string, without drawing from the entropy source and
    without touching a file.  The file's path is fixed by the first twelve
    hexadecimal characters of the MD5 digest of the email: two emails share
    the path exactly when these fingerprints are equal. *)
Theorem device_identifier_is_reloaded email password lv cv uv password' lv' cv' uv'
    (w : world) :
  (exists l1 w1 t,
     init E email password lv cv uv w = (Ret l1, w1)
     /\ files w1 !! hw_file_of email = Some t
     /\ strip t = hw_code l1
     /\ exists l2,
          init E email password' lv' cv' uv' w1 = (Ret l2, w1)
          /\ hw_code l2 = hw_code l1)
  /\ (forall email', hw_file_of email' = hw_file_of email
                     <-> _safe_email email' = _safe_email email).
Proof.
  split.
  - destruct (files w !! hw_file_of email) as [t |] eqn:Hf.
    + eexists _, _, t. split; [apply (init_existing _ _ _ _ _ _ t Hf) |].
      split; [exact Hf |]. split; [reflexivity |].
      eexists. split.
      * rewrite (init_existing _ _ _ _ _ (made_dirs email w) t) by exact Hf.
        rewrite made_dirs_twice. reflexivity.
      * reflexivity.
    + destruct (init_fresh email password lv cv uv w Hf) as (code & w' & Hgen & Hinit & Hd).
      eexists _, _, code. split; [exact Hinit |].
      split; [cbn [files]; apply lookup_insert_eq |].
      split; [cbn [hw_code]; eapply strip_generated, Hgen |].
      eexists. split.
      * rewrite (init_existing _ _ _ _ _ _ code) by (cbn [files]; apply lookup_insert_eq).
        f_equal. unfold made_dirs. cbn [files dirs draws sent out]. f_equal.
        rewrite Hd. unfold made_dirs. cbn [dirs].
        apply set_eq. intros x. rewrite !elem_of_union. tauto.
      * cbn [hw_code]. eapply strip_generated, Hgen.
  - intros email'. unfold hw_file_of, path_join. split.
    + intros H. rewrite !app_str_assoc in H.
      apply str_app_inv_head in H. apply str_app_inv_head in H.
      now apply str_app_inv_tail in H.
    + now intros ->.
Qed.

Lemma hex_excludes (c : ascii) s :
  is_lower_hex c = false -> str_forall is_lower_hex s = true -> str_mem c s = false.
Proof.
  intros Hc. induction s as [| d s IH]; simpl; [reflexivity |].
  intros H. apply andb_true_iff in H as [Hd Hs]. rewrite (IH Hs), orb_false_r.
  destruct (Ascii.eqb_spec c d) as [-> |]; [congruence | reflexivity].
Qed.

(** X6. The directory name derived from an email is safe as a file name
    whatever the email holds: twelve characters in 0-9a-f, hence no path
    separator and no dot; the identifier file is
    [.eft_storage/<fingerprint>/hwcode.txt]. *)
Theorem safe_email_is_filename_safe (email : string) :
  is_hex_of_length 12 (_safe_email email) = true
  /\ str_mem "/" (_safe_email email) = false
  /\ str_mem "." (_safe_email email) = false
  /\ hw_file_of email = (".eft_storage/" ++ _safe_email email ++ "/hwcode.txt")%string.
Proof.
  assert (H : is_hex_of_length 12 (_safe_email email) = true).
  { apply (str_take_hex 12 32); [lia | apply hexdigest_shape]. }
  split; [exact H |].
  unfold is_hex_of_length in H. apply andb_true_iff in H as [_ H].
  split; [now apply hex_excludes |]. split; [now apply hex_excludes |].
  unfold hw_file_of, path_join. now rewrite !app_str_assoc.
Qed.

(** X7. An identifier file that is there is trusted as it is.  For a file
    that holds UTF-8 text without carriage return (what [read_text()] hands
    back unchanged, the locale's encoding being UTF-8), the launcher takes
    the content, stripped of the white space of [str.strip()], as the device
    identifier, with no check of its shape and even when that leaves the
    empty string.  It draws nothing from the entropy source, writes no file
    and sends no request. *)
Theorem existing_identifier_file_is_trusted email password lv cv uv (w : world) t :
  files w !! hw_file_of email = Some t ->
  read_as_stored t = true ->
  exists l w',
    init E email password lv cv uv w = (Ret l, w')
    /\ hw_code l = strip t
    /\ files w' = files w /\ draws w' = draws w /\ sent w' = sent w.
Proof.
  intros Hf _. eexists _, _. split; [apply (init_existing _ _ _ _ _ _ t Hf) |].
  repeat split; reflexivity.
Qed.

(** X8. Without an identifier file the launcher generates one identifier of
    the documented pattern from exactly eight draws of the entropy source,
    writes it to the account's file and to no other, and sends no request. *)
Theorem first_construction_generates_once email password lv cv uv (w : world) :
  files w !! hw_file_of email = None ->
  exists l w',
    init E email password lv cv uv w = (Ret l, w')
    /\ matches_hw_pattern (hw_code l) = true
    /\ files w' = <[ hw_file_of email := hw_code l ]> (files w)
    /\ draws w' = (8 + draws w)%nat
    /\ sent w' = sent w.
Proof.
  intros Hf.
  destruct (init_fresh email password lv cv uv w Hf) as (code & w1 & Hgen & Hinit & _).
  eexists _, _. split; [exact Hinit |].
  rewrite generate_hw_code_run in Hgen. cbv zeta in Hgen.
  apply pair_equal_spec in Hgen as [Hc Hw].
  apply (f_equal (fun r => match r with Ret c => c | Raise _ => EmptyString end)) in Hc.
  cbn beta iota in Hc. subst code w1.
  cbn [hw_code files dirs draws sent made_dirs].
  split; [apply hw_pattern_ok; apply hexdigest_shape |].
  repeat split; reflexivity.
Qed.

End DeviceIdentifier.

Section DeviceIdentifierInstances.
Import Scenarios EftBsg.EFTLauncher.

(** C3, counterexample: two different emails whose fingerprints, and so
    whose identifier files, are the same; the launcher built for the second
    account loads the device identifier generated for the first. *)
Lemma distinct_emails_share_identifier_file :
  let a := "user9073370@example.com" in
  let b := "user20890567@example.com" in
  let E := env_reply 200 [] in
  let r1 := init E a "secret" "14.7.2.4271" "1.0.1.0.42625" "2021.3.16f1" w0 in
  let r2 := init E b "hunter2" "14.7.2.4271" "1.0.1.0.42625" "2021.3.16f1" (snd r1) in
  String.eqb a b = false
  /\ _safe_email a = "9e52abea227d"
  /\ _safe_email b = "9e52abea227d"
  /\ hw_file_of a = hw_file_of b
  /\ RefEnv.res_map storage_path (fst r1) = Ret ".eft_storage/9e52abea227d"
  /\ RefEnv.res_map storage_path (fst r2) = Ret ".eft_storage/9e52abea227d"
  /\ RefEnv.res_map hw_code (fst r2) = RefEnv.res_map hw_code (fst r1)
  /\ draws (snd r2) = draws (snd r1).
Proof. vm_compute. repeat split; reflexivity. Qed.

Lemma existing_identifier_file_witness :
  RefEnv.res_map hw_code
    (fst (init (env_reply 200 []) "user@example.com" "secret" "14.7.2.4271"
            "1.0.1.0.42625" "2021.3.16f1" w_padded_file))
  = Ret "#1-abc".
Proof.
  destruct (existing_identifier_file_is_trusted (env_reply 200 []) "user@example.com"
              "secret" "14.7.2.4271" "1.0.1.0.42625" "2021.3.16f1" w_padded_file
              padded_identifier)
    as (l & w' & Hinit & Hcode & _).
  - apply lookup_insert_eq.
  - vm_compute. reflexivity.
  - rewrite Hinit. cbn [fst RefEnv.res_map]. rewrite Hcode. vm_compute. reflexivity.
Defined.

(** A file of white space only: the identifier is the empty string. *)
Example blank_identifier_file_ex :
  RefEnv.res_map hw_code
    (fst (init (env_reply 200 []) "user@example.com" "secret" "14.7.2.4271"
            "1.0.1.0.42625" "2021.3.16f1" w_blank_file))
  = Ret EmptyString.
Proof. vm_compute. reflexivity. Qed.

Lemma first_construction_witness :
  RefEnv.res_map (fun l => matches_hw_pattern (hw_code l))
    (fst (init (env_reply 200 []) "user@example.com" "secret" "14.7.2.4271"
            "1.0.1.0.42625" "2021.3.16f1" w0))
  = Ret true
  /\ draws (snd (init (env_reply 200 []) "user@example.com" "secret" "14.7.2.4271"
                   "1.0.1.0.42625" "2021.3.16f1" w0)) = 8%nat.
Proof.
  destruct (first_construction_generates_once (env_reply 200 []) "user@example.com"
              "secret" "14.7.2.4271" "1.0.1.0.42625" "2021.3.16f1" w0)
    as (l & w' & Hinit & Hm & _ & Hd & _).
  - apply lookup_empty.
  - rewrite Hinit. cbn [fst snd RefEnv.res_map]. rewrite Hm, Hd. split; reflexivity.
Defined.

End DeviceIdentifierInstances.

(** ** The per-endpoint loops of the three scripts *)

Section Loops.
Context (E : Env).

Lemma for_each_cons {S A} (body : A -> M S unit) x l (s : S) :
  fst (body x s) = Ret tt ->
  for_each (x :: l) body s = for_each l body (snd (body x s)).
Proof.
  intros H. cbn [for_each]. unfold bind.
  destruct (body x s) as [[[] | e] s1]; [reflexivity | discriminate].
Qed.

Lemma for_each_total {S A} (body : A -> M S unit) :
  (forall x s, fst (body x s) = Ret tt) ->
  forall l s, fst (for_each l body s) = Ret tt.
Proof.
  intros Hb. induction l as [| x l IH]; intros s; [reflexivity |].
  rewrite for_each_cons by apply Hb. apply IH.
Qed.

Lemma for_each_app {S A} (body : A -> M S unit) :
  (forall x s, fst (body x s) = Ret tt) ->
  forall l1 l2 s,
    for_each (l1 ++ l2) body s = for_each l2 body (snd (for_each l1 body s)).
Proof.
  intros Hb. induction l1 as [| x l1 IH]; intros l2 s; [reflexivity |].
  rewrite <- app_comm_cons, !for_each_cons by apply Hb. apply IH.
Qed.

(** eft_api_client.py: one entry. *)
Lemma api_body_run name (func : M EftApi.EFTClient.astate json) (s : EftApi.EFTClient.astate) :
  let s0 := EftApi.EFTClient.MkA (EftApi.EFTClient.self s)
              (add_out (Loading name) (EftApi.EFTClient.aworld s)) in
  let s1 := snd (func s0) in
  EftApi.main_body E (name, func) s
  = (Ret tt,
     EftApi.EFTClient.MkA (EftApi.EFTClient.self s1)
       (apply_verdict E "output" name (name ++ ".json") (api_verdict (fst (func s0)))
          (EftApi.EFTClient.aworld s1))).
Proof.
  cbv zeta. unfold EftApi.main_body, EftApi.EFTClient.save_to_file, mkdir, write_text.
  py_unfold. fold (add_out (Loading name) (EftApi.EFTClient.aworld s)).
  destruct (func _) as [[data | e] s1]; cbn [fst snd any_exception]; [| reflexivity].
  unfold api_verdict, api_error_test, rbind.
  destruct (py_in "err" data) as [[] | e]; cbn [fst snd]; try reflexivity.
  destruct (py_index data "err") as [v | e]; cbn [fst snd]; try reflexivity.
  destruct (eq_zero v); cbn [negb fst snd]; try reflexivity.
  destruct (py_get data "errmsg" (JStr "Unbekannt")); reflexivity.
Qed.

(** eft_bsg_client.py: one entry. *)
Lemma bsg_body_run name (func : M EftBsg.EFTClient.cstate json) (s : EftBsg.EFTClient.cstate) :
  let s0 := EftBsg.EFTClient.MkC (EftBsg.EFTClient.self s)
              (add_out (Loading name) (EftBsg.EFTClient.cworld s)) in
  let s1 := snd (func s0) in
  EftBsg.main_body E (name, func) s
  = (Ret tt,
     EftBsg.EFTClient.MkC (EftBsg.EFTClient.self s1)
       (apply_verdict E "bsg_output" name (name ++ ".json") (bsg_verdict (fst (func s0)))
          (EftBsg.EFTClient.cworld s1))).
Proof.
  cbv zeta. unfold EftBsg.main_body, EftBsg.EFTClient.save_response, mkdir, write_text.
  py_unfold. fold (add_out (Loading name) (EftBsg.EFTClient.cworld s)).
  destruct (func _) as [[data | e] s1]; cbn [fst snd any_exception]; [| reflexivity].
  unfold bsg_verdict.
  destruct (py_get data "err" JNull) as [err | e]; cbn [fst snd]; try reflexivity.
  destruct (eq_zero err); cbn [fst snd]; try reflexivity.
  destruct (py_get data "errmsg" data); reflexivity.
Qed.

(** tarkov_api_client.py: one entry returns, whatever happens inside. *)
Lemma tarkov_body_total entry (w : world) : fst (TarkovDev.main_body E entry w) = Ret tt.
Proof.
  destruct entry as [name func].
  unfold TarkovDev.main_body, TarkovDev.TarkovDevClient.save_to_file, mkdir, write_text.
  py_unfold.
  destruct (func _) as [[data | e] w1]; cbn [fst snd any_exception]; [| reflexivity].
  destruct (py_len data); reflexivity.
Qed.

(** tarkov_api_client.py: an entry whose fetch raises is reported, and no
    file is written. *)
Lemma tarkov_body_raise name (func : M world json) (w : world) e w1 :
  func (add_out (Loading name) w) = (Raise e, w1) ->
  TarkovDev.main_body E (name, func) w = (Ret tt, add_out (ErrorRaised name e) w1).
Proof.
  intros Hf. unfold TarkovDev.main_body. py_unfold.
  fold (add_out (Loading name) w). rewrite Hf. reflexivity.
Qed.

(** tarkov_api_client.py: an entry whose fetch returns a list (or any value
    that has a length) is stored, and its size is printed. *)
Lemma tarkov_body_return name (func : M world json) (w : world) data n w1 :
  func (add_out (Loading name) w) = (Ret data, w1) ->
  py_len data = Ret n ->
  TarkovDev.main_body E (name, func) w
  = (Ret tt,
     add_out (Count n)
       (stored_in E "output" (name ++ "_" ++ TarkovDev.LANG ++ ".json") data w1)).
Proof.
  intros Hf Hn.
  unfold TarkovDev.main_body, TarkovDev.TarkovDevClient.save_to_file, mkdir, write_text.
  py_unfold. fold (add_out (Loading name) w). rewrite Hf. cbn [fst snd].
  rewrite Hn. reflexivity.
Qed.

(** tarkov_api_client.py: an entry whose fetch returns a value that has no
    length is stored as well, and the failure of [len] is reported after it. *)
Lemma tarkov_body_unsized name (func : M world json) (w : world) data e w1 :
  func (add_out (Loading name) w) = (Ret data, w1) ->
  py_len data = Raise e ->
  TarkovDev.main_body E (name, func) w
  = (Ret tt,
     add_out (ErrorRaised name e)
       (stored_in E "output" (name ++ "_" ++ TarkovDev.LANG ++ ".json") data w1)).
Proof.
  intros Hf Hn.
  unfold TarkovDev.main_body, TarkovDev.TarkovDevClient.save_to_file, mkdir, write_text.
  py_unfold. fold (add_out (Loading name) w). rewrite Hf. cbn [fst snd].
  rewrite Hn. reflexivity.
Qed.

(** When an entry of eft_api_client.py is stored: its reply has no [err], or
    an [err] equal to zero. *)
Lemma api_stored_iff kv :
  (exists data, api_verdict (Ret (JObj kv)) = Stored data)
  <-> (assoc "err" kv = None \/ exists v, assoc "err" kv = Some v /\ eq_zero v = true).
Proof.
  unfold api_verdict, api_error_test, rbind, py_in, py_index, py_get.
  destruct (assoc "err" kv) as [v |] eqn:Herr.
  - destruct (eq_zero v) eqn:Hz; cbn [negb].
    + split; [intros _; right; eauto | intros _; eauto].
    + split.
      * intros [data H]. destruct (assoc "errmsg" kv); discriminate.
      * intros [H | (v' & [= <-] & H)]; [discriminate | congruence].
  - split; [intros _; now left | intros _; eauto].
Qed.

(** When an entry of eft_bsg_client.py is stored: its reply has an [err]
    equal to zero. *)
Lemma bsg_stored_iff kv :
  (exists data, bsg_verdict (Ret (JObj kv)) = Stored data)
  <-> (exists v, assoc "err" kv = Some v /\ eq_zero v = true).
Proof.
  unfold bsg_verdict, py_get.
  destruct (assoc "err" kv) as [v |] eqn:Herr.
  - destruct (eq_zero v) eqn:Hz.
    + split; intros _; eauto.
    + split.
      * intros [data H]. destruct (assoc "errmsg" kv); discriminate.
      * intros (v' & [= <-] & H). congruence.
  - cbn [eq_zero]. split.
    + intros [data H]. destruct (assoc "errmsg" kv); discriminate.
    + intros (v & H & _). discriminate.
Qed.

Lemma sent_apply_verdict dir name file v (w : world) :
  sent (apply_verdict E dir name file v w) = sent w.
Proof. now destruct v. Qed.

(** One catalog entry of eft_bsg_client.py that fetches an endpoint: it sends
    exactly one request and increments the counter once, stored or not. *)
Lemma bsg_entry_step name endpoint (s : EftBsg.EFTClient.cstate) :
  exists s',
    EftBsg.main_body E (name, EftBsg.EFTClient._request E endpoint JNull) s = (Ret tt, s')
    /\ EftBsg.EFTClient.self s'
       = EftBsg.EFTClient.MkClient
           (EftBsg.EFTClient.launcher (EftBsg.EFTClient.self s))
           (EftBsg.EFTClient.request_id (EftBsg.EFTClient.self s) + 1)
    /\ sent (EftBsg.EFTClient.cworld s')
       = (sent (EftBsg.EFTClient.cworld s)
          ++ [game_request (EftBsg.EFTClient.self s) endpoint JNull])%list.
Proof.
  eexists. split; [apply bsg_body_run |]. cbv zeta.
  cbn [EftBsg.EFTClient.self EftBsg.EFTClient.cworld].
  rewrite sent_apply_verdict, game_request_run. cbv zeta.
  cbn [EftBsg.EFTClient.self EftBsg.EFTClient.cworld].
  destruct (http E _ _); cbn [snd EftBsg.EFTClient.self EftBsg.EFTClient.cworld];
    split; reflexivity.
Qed.

Lemma catalog_run_ids paths : forall s : EftBsg.EFTClient.cstate,
  exists s' rqs,
    EftBsg.main_loop E (entries_for E paths) s = (Ret tt, s')
    /\ sent (EftBsg.EFTClient.cworld s') = (sent (EftBsg.EFTClient.cworld s) ++ rqs)%list
    /\ map request_id_header rqs
       = map (fun k => id_header (EftBsg.EFTClient.request_id (EftBsg.EFTClient.self s)
                                  + Z.of_nat k))
           (seq 1 (length paths))
    /\ EftBsg.EFTClient.request_id (EftBsg.EFTClient.self s')
       = EftBsg.EFTClient.request_id (EftBsg.EFTClient.self s) + Z.of_nat (length paths).
Proof.
  induction paths as [| [name endpoint] paths IH]; intros s.
  - exists s, []. cbn. rewrite app_nil_r, Z.add_0_r. repeat split; reflexivity.
  - destruct (bsg_entry_step name endpoint s) as (s1 & Hstep & Hself & Hsent1).
    destruct (IH s1) as (s' & rqs & Hrun & Hsent & Hids & Hcnt).
    exists s', (game_request (EftBsg.EFTClient.self s) endpoint JNull :: rqs).
    split; [| split; [| split]].
    + unfold EftBsg.main_loop, entries_for in *. cbn [map fst snd].
      rewrite for_each_cons by now rewrite Hstep. now rewrite Hstep.
    + rewrite Hsent, Hsent1. now rewrite <- app_assoc.
    + cbn [map length seq]. rewrite game_request_id, Hids, Hself.
      cbn [EftBsg.EFTClient.request_id].
      replace (EftBsg.EFTClient.request_id (EftBsg.EFTClient.self s) + Z.of_nat 1)
        with (EftBsg.EFTClient.request_id (EftBsg.EFTClient.self s) + 1) by lia.
      apply f_equal. rewrite <- (seq_shift _ 1), map_map.
      apply map_ext. intros k.
      replace (EftBsg.EFTClient.request_id (EftBsg.EFTClient.self s) + 1 + Z.of_nat k)
        with (EftBsg.EFTClient.request_id (EftBsg.EFTClient.self s)
              + Z.of_nat (Datatypes.S k)) by lia.
      reflexivity.
    + rewrite Hcnt, Hself. cbn [EftBsg.EFTClient.request_id length]. lia.
Qed.

(** X4. A run of [main] of eft_bsg_client.py numbers its requests from 1: the
    catalog of [main] fetches eleven endpoints, and for a freshly built
    client the requests of a catalog of n fetches carry the identifiers
    1, ..., n in order, whether the entries end up stored or reported. *)
Theorem catalog_run_numbers_requests (l : EftBsg.EFTLauncher.t) (w : world)
    (paths : list (string * string)) :
  EftBsg.endpoints E
  = entries_for E
      [ ("globals", "/client/globals"); ("items", "/client/items");
        ("locale_en", "/client/locale/en"); ("achievements", "/client/achievement/list");
        ("achievement_stats", "/client/achievement/statistic");
        ("survey", "/client/survey"); ("locations", "/client/locations");
        ("hideout_areas", "/client/hideout/areas");
        ("hideout_settings", "/client/hideout/settings");
        ("hideout_recipes", "/client/hideout/production/recipes");
        ("customization", "/client/customization") ]
  /\ exists s',
       EftBsg.main_loop E (entries_for E paths)
         (EftBsg.EFTClient.MkC (EftBsg.EFTClient.init l) w) = (Ret tt, s')
       /\ map request_id_header (sent_since w (EftBsg.EFTClient.cworld s'))
          = map (fun k => id_header (Z.of_nat k)) (seq 1 (length paths))
       /\ EftBsg.EFTClient.request_id (EftBsg.EFTClient.self s')
          = Z.of_nat (length paths).
Proof.
  split; [reflexivity |].
  destruct (catalog_run_ids paths (EftBsg.EFTClient.MkC (EftBsg.EFTClient.init l) w))
    as (s' & rqs & Hrun & Hsent & Hids & Hcnt).
  exists s'. cbn [EftBsg.EFTClient.self EftBsg.EFTClient.cworld EftBsg.EFTClient.init
                  EftBsg.EFTClient.request_id] in *.
  assert (Hsince : sent_since w (EftBsg.EFTClient.cworld s') = rqs).
  { unfold sent_since. rewrite Hsent, skipn_app, skipn_all, Nat.sub_diag. reflexivity. }
  rewrite Hsince, Hids. split; [exact Hrun |]. split; [reflexivity | lia].
Qed.

Lemma api_save_run data filename (s : EftApi.EFTClient.astate) :
  EftApi.EFTClient.save_to_file E data filename s
  = (Ret tt, EftApi.EFTClient.MkA (EftApi.EFTClient.self s)
               (stored_in E "output" filename data (EftApi.EFTClient.aworld s))).
Proof. reflexivity. Qed.

Lemma bsg_save_run data filename (s : EftBsg.EFTClient.cstate) :
  EftBsg.EFTClient.save_response E data filename s
  = (Ret tt, EftBsg.EFTClient.MkC (EftBsg.EFTClient.self s)
               (stored_in E "bsg_output" filename data (EftBsg.EFTClient.cworld s))).
Proof. reflexivity. Qed.

Lemma tarkov_save_run data filename (w : world) :
  TarkovDev.TarkovDevClient.save_to_file E data filename w
  = (Ret (path_join "output" filename), stored_in E "output" filename data w).
Proof. reflexivity. Qed.

Lemma stored_in_twice dir file data (w : world) :
  files (stored_in E dir file data (stored_in E dir file data w))
  = files (stored_in E dir file data w)
  /\ dirs (stored_in E dir file data (stored_in E dir file data w))
     = dirs (stored_in E dir file data w)
  /\ files (stored_in E dir file data w) !! path_join dir file
     = Some (json_dump_pretty E data).
Proof.
  unfold stored_in. cbn [files dirs]. split; [apply insert_insert_eq |].
  split; [| apply lookup_insert_eq].
  apply set_eq. intros x. rewrite !elem_of_union. tauto.
Qed.

(** X5. Saving is idempotent: saving the same data under the same name a
    second time leaves the files and directories as the first save left
    them (the earlier file is overwritten), in the three scripts. *)
Theorem saving_twice_is_saving_once (data : json) (filename : string) :
  (forall s : EftApi.EFTClient.astate,
     let w1 := EftApi.EFTClient.aworld
                 (snd (EftApi.EFTClient.save_to_file E data filename s)) in
     let w2 := EftApi.EFTClient.aworld
                 (snd (EftApi.EFTClient.save_to_file E data filename
                         (snd (EftApi.EFTClient.save_to_file E data filename s)))) in
     files w2 = files w1 /\ dirs w2 = dirs w1
     /\ files w1 !! path_join "output" filename = Some (json_dump_pretty E data))
  /\ (forall s : EftBsg.EFTClient.cstate,
        let w1 := EftBsg.EFTClient.cworld
                    (snd (EftBsg.EFTClient.save_response E data filename s)) in
        let w2 := EftBsg.EFTClient.cworld
                    (snd (EftBsg.EFTClient.save_response E data filename
                            (snd (EftBsg.EFTClient.save_response E data filename s)))) in
        files w2 = files w1 /\ dirs w2 = dirs w1
        /\ files w1 !! path_join "bsg_output" filename = Some (json_dump_pretty E data))
  /\ (forall w : world,
        let w1 := snd (TarkovDev.TarkovDevClient.save_to_file E data filename w) in
        let w2 := snd (TarkovDev.TarkovDevClient.save_to_file E data filename w1) in
        files w2 = files w1 /\ dirs w2 = dirs w1
        /\ files w1 !! path_join "output" filename = Some (json_dump_pretty E data)).
Proof.
  split; [| split]; intros s; cbv zeta.
  - rewrite !api_save_run. cbn [snd EftApi.EFTClient.aworld]. apply stored_in_twice.
  - rewrite !bsg_save_run. cbn [snd EftBsg.EFTClient.cworld]. apply stored_in_twice.
  - rewrite !tarkov_save_run. cbn [snd]. apply stored_in_twice.
Qed.

End Loops.

Section LoopsStatement.
Context (E : Env).

(** C7 (as amended). No per-endpoint loop aborts: in the three scripts the
    loop returns normally for every catalog, and the entries after any prefix
    of the catalog are run from the state that prefix left, whatever failed
    in it.  An entry prints its loading line and then stores its data (file
    written, save line printed) or reports a failure (error line printed).
    In the two vendor scripts a reported entry writes no file.  In
    eft_api_client.py the entry is stored exactly when its fetch returned a
    reply without [err] or with [err] equal to 0; in eft_bsg_client.py
    exactly when the reply carries [err] equal to 0, so that a reply without
    [err] is reported as a failure.  In tarkov_api_client.py an entry whose
    fetch raises is reported and writes nothing; one whose fetch returns is
    stored, and then its size is printed or, when the value has no length,
    the failure of [len] is reported after the file was written. *)
Theorem endpoint_loops_isolate_failures :
  ((forall eps s, fst (EftApi.main_loop E eps s) = Ret tt)
   /\ (forall eps s, fst (EftBsg.main_loop E eps s) = Ret tt)
   /\ (forall eps w, fst (TarkovDev.main_loop E eps w) = Ret tt))
  /\ ((forall done rest s,
         EftApi.main_loop E (done ++ rest) s
         = EftApi.main_loop E rest (snd (EftApi.main_loop E done s)))
      /\ (forall done rest s,
            EftBsg.main_loop E (done ++ rest) s
            = EftBsg.main_loop E rest (snd (EftBsg.main_loop E done s)))
      /\ (forall done rest w,
            TarkovDev.main_loop E (done ++ rest) w
            = TarkovDev.main_loop E rest (snd (TarkovDev.main_loop E done w))))
  /\ (forall name func (s : EftApi.EFTClient.astate),
        let s0 := EftApi.EFTClient.MkA (EftApi.EFTClient.self s)
                    (add_out (Loading name) (EftApi.EFTClient.aworld s)) in
        let s1 := snd (func s0) in
        EftApi.main_body E (name, func) s
        = (Ret tt,
           EftApi.EFTClient.MkA (EftApi.EFTClient.self s1)
             (apply_verdict E "output" name (name ++ ".json")
                (api_verdict (fst (func s0))) (EftApi.EFTClient.aworld s1))))
  /\ (forall name func (s : EftBsg.EFTClient.cstate),
        let s0 := EftBsg.EFTClient.MkC (EftBsg.EFTClient.self s)
                    (add_out (Loading name) (EftBsg.EFTClient.cworld s)) in
        let s1 := snd (func s0) in
        EftBsg.main_body E (name, func) s
        = (Ret tt,
           EftBsg.EFTClient.MkC (EftBsg.EFTClient.self s1)
             (apply_verdict E "bsg_output" name (name ++ ".json")
                (bsg_verdict (fst (func s0))) (EftBsg.EFTClient.cworld s1))))
  /\ (forall name (func : M world json) w e w1,
        func (add_out (Loading name) w) = (Raise e, w1) ->
        TarkovDev.main_body E (name, func) w = (Ret tt, add_out (ErrorRaised name e) w1))
  /\ (forall name (func : M world json) w data n w1,
        func (add_out (Loading name) w) = (Ret data, w1) ->
        py_len data = Ret n ->
        TarkovDev.main_body E (name, func) w
        = (Ret tt,
           add_out (Count n)
             (stored_in E "output" (name ++ "_" ++ TarkovDev.LANG ++ ".json") data w1)))
  /\ (forall name (func : M world json) w data e w1,
        func (add_out (Loading name) w) = (Ret data, w1) ->
        py_len data = Raise e ->
        TarkovDev.main_body E (name, func) w
        = (Ret tt,
           add_out (ErrorRaised name e)
             (stored_in E "output" (name ++ "_" ++ TarkovDev.LANG ++ ".json") data w1)))
  /\ (forall kv,
        (exists data, api_verdict (Ret (JObj kv)) = Stored data)
        <-> (assoc "err" kv = None
             \/ exists v, assoc "err" kv = Some v /\ eq_zero v = true))
  /\ (forall kv,
        (exists data, bsg_verdict (Ret (JObj kv)) = Stored data)
        <-> (exists v, assoc "err" kv = Some v /\ eq_zero v = true)).
Proof.
  assert (HA : forall x s, fst (EftApi.main_body E x s) = Ret tt).
  { intros [name func] s. now rewrite api_body_run. }
  assert (HB : forall x s, fst (EftBsg.main_body E x s) = Ret tt).
  { intros [name func] s. now rewrite bsg_body_run. }
  pose proof (tarkov_body_total E) as HC.
  split; [| split; [| split; [| split; [| split; [| split; [| split; [| split]]]]]]].
  - repeat split; intros; now apply for_each_total.
  - repeat split; intros; now apply for_each_app.
  - apply api_body_run.
  - apply bsg_body_run.
  - apply tarkov_body_raise.
  - apply tarkov_body_return.
  - apply tarkov_body_unsized.
  - apply api_stored_iff.
  - apply bsg_stored_iff.
Qed.

End LoopsStatement.

Section LoopsInstances.
Import Scenarios.

(** C7, counterexample: the backend answers [{}]: the fetch raises nothing
    and the reply carries no error code, yet eft_bsg_client.py reports the
    entry as a failure and writes no file. *)
Lemma reply_without_err_is_reported_as_failure :
  let E := env_reply 200 (encode "{}") in
  let s := snd (EftBsg.main_loop E [("globals", EftBsg.EFTClient.get_globals E)] c0) in
  fst (EftBsg.EFTClient.get_globals E c0) = Ret (JObj [])
  /\ assoc "err" [] = None
  /\ out (EftBsg.EFTClient.cworld s) = [Loading "globals"; ErrorReply "globals" (JObj [])]
  /\ files (EftBsg.EFTClient.cworld s) !! "bsg_output/globals.json" = None.
Proof. vm_compute. repeat split; reflexivity. Qed.

Lemma endpoint_loops_witness :
  let E := env_alpha_beta in
  let catalog := [("alpha", EftBsg.EFTClient._request E "/a" JNull);
                  ("beta", EftBsg.EFTClient._request E "/b" JNull)] in
  fst (EftBsg.main_loop E catalog c0) = Ret tt
  /\ EftBsg.main_loop E catalog c0
     = EftBsg.main_loop E [("beta", EftBsg.EFTClient._request E "/b" JNull)]
         (snd (EftBsg.main_loop E [("alpha", EftBsg.EFTClient._request E "/a" JNull)] c0)).
Proof.
  cbv zeta.
  destruct (endpoint_loops_isolate_failures env_alpha_beta) as ((_ & HB & _) & (_ & HS & _) & _).
  split; [apply HB |].
  apply (HS [("alpha", EftBsg.EFTClient._request env_alpha_beta "/a" JNull)]
            [("beta", EftBsg.EFTClient._request env_alpha_beta "/b" JNull)]).
Defined.

(** The run of the two-entry catalog: [alpha] is answered by the compressed
    vendor reply and stored, pretty-printed; [beta] is answered by bytes that
    do not decode, is reported as a failure and leaves no file. *)
Example two_entry_run_ex :
  let E := env_alpha_beta in
  let catalog := [("alpha", EftBsg.EFTClient._request E "/a" JNull);
                  ("beta", EftBsg.EFTClient._request E "/b" JNull)] in
  let w := EftBsg.EFTClient.cworld (snd (EftBsg.main_loop E catalog c0)) in
  out w = [Loading "alpha"; Saved "bsg_output/alpha.json";
           Loading "beta"; ErrorReply "beta" (JObj [("error", JStr "Expecting value")])]
  /\ files w !! "bsg_output/alpha.json" = Some (RefEnv.pretty 0 ok_value)
  /\ files w !! "bsg_output/beta.json" = None
  /\ map request_id_header (sent w) = [id_header 1; id_header 2].
Proof. vm_compute. repeat split; reflexivity. Qed.

(** tarkov_api_client.py, a reply whose list is [null]: the file is written,
    then [len(data)] raises and the entry is reported as a failure too. *)
Example null_list_ex :
  let E := env_reply 200
             (encode (RefEnv.dumps (JObj [("data", JObj [("items", JNull)])]))) in
  let w := snd (TarkovDev.main_loop E
                  [("items", TarkovDev.TarkovDevClient.get_all_items E "en")] w0) in
  out w = [Loading "items"; Saved "output/items_en.json";
           ErrorRaised "items" (Exn TypeError "object has no len()")]
  /\ files w !! "output/items_en.json" = Some "null".
Proof. vm_compute. repeat split; reflexivity. Qed.

End LoopsInstances.

(** ** The request helpers: what is sent, and what a failure turns into *)

Section HelperEdges.
Context (E : Env).

(** X9. Every call of a request helper issues exactly one HTTP request,
    also when the connection or the decoding fails.  The request is a POST
    carrying the payload when the payload is truthy (in eft_api_client.py
    only if the method asked is POST), and otherwise a GET without a body: an
    empty dict payload goes out as a GET. *)
Theorem each_call_sends_one_request (data : json) :
  (forall url uch (s : EftBsg.EFTLauncher.lstate),
     exists rq,
       sent_since (EftBsg.EFTLauncher.lworld s)
         (EftBsg.EFTLauncher.lworld (snd (EftBsg.EFTLauncher._request E url data uch s)))
       = [rq]
       /\ rq_url rq = url /\ rq_timeout rq = Some 30
       /\ rq_method rq = (if truthy data then "POST" else "GET")
       /\ rq_json rq = (if truthy data then Some data else None))
  /\ (forall endpoint (s : EftBsg.EFTClient.cstate),
        exists rq,
          sent_since (EftBsg.EFTClient.cworld s)
            (EftBsg.EFTClient.cworld (snd (EftBsg.EFTClient._request E endpoint data s)))
          = [rq]
          /\ rq_url rq = (EftBsg.EFTClient.PROD_URL ++ endpoint)%string
          /\ rq_timeout rq = Some 60
          /\ rq_method rq = (if truthy data then "POST" else "GET")
          /\ rq_json rq = (if truthy data then Some data else None))
  /\ (forall method url (s : EftApi.EFTClient.astate),
        exists rq,
          sent_since (EftApi.EFTClient.aworld s)
            (EftApi.EFTClient.aworld (snd (EftApi.EFTClient._request E method url data s)))
          = [rq]
          /\ rq_url rq = url /\ rq_timeout rq = None
          /\ rq_method rq
             = (if String.eqb method "POST" && truthy data then "POST" else "GET")
          /\ rq_json rq
             = (if String.eqb method "POST" && truthy data then Some data else None)).
Proof.
  split; [| split].
  - intros url uch s. rewrite launcher_request_run. cbv zeta.
    exists (launcher_request (EftBsg.EFTLauncher.self s) url data uch).
    split.
    + destruct (http E _ _); cbn [snd EftBsg.EFTLauncher.lworld]; apply sent_since_log.
    + unfold launcher_request. now destruct (truthy data).
  - intros endpoint s. rewrite game_request_run. cbv zeta.
    exists (game_request (EftBsg.EFTClient.self s) endpoint data).
    split.
    + destruct (http E _ _); cbn [snd EftBsg.EFTClient.cworld]; apply sent_since_log.
    + unfold game_request. now destruct (truthy data).
  - intros method url s. rewrite api_request_run. cbv zeta.
    exists (api_request (EftApi.EFTClient.self s) method url data).
    split.
    + destruct (http E _ _); cbn [snd EftApi.EFTClient.aworld]; apply sent_since_log.
    + unfold api_request. cbv zeta.
      now destruct (String.eqb method "POST" && truthy data).
Qed.

(** X10. A reply that inflates but whose content is not JSON text is handled
    differently by the three helpers: [EFTLauncher._request] lets the decoding
    error escape, [EFTClient._request] of eft_api_client.py returns its
    parse-error dict, and [EFTClient._request] of eft_bsg_client.py returns
    the dict [{"error": <message>}]. *)
Theorem inflated_garbage_handling (r : response) (e : exn) :
  inflate_and_parse E (content r) = Raise e ->
  caught_by [ZlibError] e = false ->
  caught_by [JSONDecodeError; UnicodeDecodeError] e = true ->
  (forall url data uch (s : EftBsg.EFTLauncher.lstate),
     http E (length (sent (EftBsg.EFTLauncher.lworld s)))
       (launcher_request (EftBsg.EFTLauncher.self s) url data uch) = Responded r ->
     fst (EftBsg.EFTLauncher._request E url data uch s) = Raise e)
  /\ (forall method url data (s : EftApi.EFTClient.astate),
        http E (length (sent (EftApi.EFTClient.aworld s)))
          (api_request (EftApi.EFTClient.self s) method url data) = Responded r ->
        fst (EftApi.EFTClient._request E method url data s) = Ret (api_parse_error r))
  /\ (forall endpoint data (s : EftBsg.EFTClient.cstate),
        http E (length (sent (EftBsg.EFTClient.cworld s)))
          (game_request (EftBsg.EFTClient.self s) endpoint data) = Responded r ->
        fst (EftBsg.EFTClient._request E endpoint data s) = Ret (error_dict e)).
Proof.
  intros Hi Hz Hj. split; [| split].
  - intros url data uch s Hs. rewrite launcher_request_run. cbv zeta.
    rewrite Hs. cbn [fst]. unfold launcher_decode. now rewrite Hi, Hz.
  - intros method url data s Hs. rewrite api_request_run. cbv zeta.
    rewrite Hs. cbn [fst]. unfold api_decode, api_text.
    unfold inflate_and_parse, rbind in Hi. unfold rbind.
    destruct (zlib_decompress E (content r)) as [c | e'].
    + destruct (bytes_decode E c) as [t | e'].
      * now rewrite Hi, Hj.
      * injection Hi as ->. now rewrite Hz, Hj.
    + injection Hi as ->. now rewrite Hz, Hj.
  - intros endpoint data s Hs. rewrite game_request_run. cbv zeta.
    rewrite Hs. cbn [fst]. unfold game_decode. now rewrite Hi, Hz.
Qed.

(** X11. A request that fails below HTTP (no connection, timeout) raises out
    of [EFTLauncher._request], out of [EFTClient._request] of
    eft_api_client.py and out of [TarkovDevClient._query]; the game client of
    eft_bsg_client.py never raises: it returns [{"error": <message>}]. *)
Theorem transport_failure_handling (e : exn) :
  (forall url data uch (s : EftBsg.EFTLauncher.lstate),
     http E (length (sent (EftBsg.EFTLauncher.lworld s)))
       (launcher_request (EftBsg.EFTLauncher.self s) url data uch) = Failed e ->
     fst (EftBsg.EFTLauncher._request E url data uch s) = Raise e)
  /\ (forall method url data (s : EftApi.EFTClient.astate),
        http E (length (sent (EftApi.EFTClient.aworld s)))
          (api_request (EftApi.EFTClient.self s) method url data) = Failed e ->
        fst (EftApi.EFTClient._request E method url data s) = Raise e)
  /\ (forall query variables (w : world),
        http E (length (sent w)) (query_request query variables) = Failed e ->
        fst (TarkovDev.TarkovDevClient._query E query variables w) = Raise e)
  /\ (forall endpoint data (s : EftBsg.EFTClient.cstate),
        http E (length (sent (EftBsg.EFTClient.cworld s)))
          (game_request (EftBsg.EFTClient.self s) endpoint data) = Failed e ->
        fst (EftBsg.EFTClient._request E endpoint data s) = Ret (error_dict e))
  /\ (forall endpoint data (s : EftBsg.EFTClient.cstate),
        exists v, fst (EftBsg.EFTClient._request E endpoint data s) = Ret v).
Proof.
  split; [| split; [| split; [| split]]].
  - intros url data uch s Hs. rewrite launcher_request_run. cbv zeta. now rewrite Hs.
  - intros method url data s Hs. rewrite api_request_run. cbv zeta. now rewrite Hs.
  - intros query variables w Hs. rewrite query_run. cbv zeta. now rewrite Hs.
  - intros endpoint data s Hs. rewrite game_request_run. cbv zeta. now rewrite Hs.
  - intros endpoint data s. destruct (game_request_step E endpoint data s) as (v & H).
    exists v. now rewrite H.
Qed.

End HelperEdges.

Section HelperEdgesInstances.
Import Scenarios.

Example empty_payload_ex :
  map rq_method
    (sent (EftBsg.EFTLauncher.lworld
             (snd (EftBsg.EFTLauncher._request (env_reply 200 ok_body)
                     "https://launcher.escapefromtarkov.com/x" (JObj []) false l0))))
  = ["GET"].
Proof. vm_compute. reflexivity. Qed.

Lemma inflated_garbage_witness :
  let E := env_reply 200 garbage_body in
  let e := Exn JSONDecodeError "Expecting value" in
  fst (EftBsg.EFTLauncher._request E
         "https://launcher.escapefromtarkov.com/launcher/login" JNull false l0) = Raise e
  /\ fst (EftApi.EFTClient._request E "GET"
            "https://prod.escapefromtarkov.com/client/items" JNull a0)
     = Ret (api_parse_error (reply_of 200 garbage_body))
  /\ fst (EftBsg.EFTClient._request E "/client/items" JNull c0)
     = Ret (JObj [("error", JStr "Expecting value")]).
Proof.
  cbv zeta.
  destruct (inflated_garbage_handling (env_reply 200 garbage_body)
              (reply_of 200 garbage_body) (Exn JSONDecodeError "Expecting value"))
    as (HL & HA & HG); try (vm_compute; reflexivity).
  split; [apply HL | split; [apply HA | apply HG]]; reflexivity.
Defined.

Lemma transport_failure_witness :
  let e := Exn RequestException "Connection refused" in
  fst (EftBsg.EFTLauncher._request env_down
         "https://launcher.escapefromtarkov.com/launcher/login" JNull false l0) = Raise e
  /\ fst (TarkovDev.TarkovDevClient._query env_down "{ items { id } }" JNull w0) = Raise e
  /\ fst (EftBsg.EFTClient._request env_down "/client/items" JNull c0)
     = Ret (JObj [("error", JStr "Connection refused")]).
Proof.
  cbv zeta.
  destruct (transport_failure_handling env_down (Exn RequestException "Connection refused"))
    as (HL & _ & HQ & HG & _).
  split; [apply HL | split; [apply HQ | apply HG]]; reflexivity.
Defined.

End HelperEdgesInstances.

(** ** eft_api_client.py: login, the session cookie and [main] *)

Section ApiSession.
Context (E : Env).
Import EftApi.EFTClient.

Lemma api_login_cases email password (s : astate) :
  exists b s', login E email password s = (Ret b, s')
    /\ aworld s' = log_request (api_login_request (self s) email password) (aworld s)
    /\ (b = true ->
        exists r kv v d,
          http E (length (sent (aworld s))) (api_login_request (self s) email password)
          = Responded r
          /\ api_decode E r = Ret (JObj kv)
          /\ assoc "err" kv = Some v /\ eq_zero v = true
          /\ assoc "data" kv = Some d
          /\ py_index d "session" = Ret (session_id (self s'))).
Proof.
  unfold login, api_login_request. cbv zeta.
  unfold try_except. unfold bind at 1. rewrite api_request_run. cbv zeta.
  destruct (http E _ _) as [r | e] eqn:Hh;
    [| eexists _, _; split; [reflexivity | split; [reflexivity | discriminate]]].
  destruct (api_decode E r) as [response | e] eqn:Hd;
    [| eexists _, _; split; [reflexivity | split; [reflexivity | discriminate]]].
  destruct response as [| | | | | kv];
    try (eexists _, _; split; [reflexivity | split; [reflexivity | discriminate]]).
  py_unfold. cbn [py_get py_in py_index].
  destruct (assoc "err" kv) as [v |] eqn:Hv;
    [| eexists _, _; split; [reflexivity | split; [reflexivity | discriminate]]].
  destruct (eq_zero v) eqn:Hz;
    [| eexists _, _; split; [reflexivity | split; [reflexivity | discriminate]]].
  destruct (assoc "data" kv) as [d |] eqn:Hdata;
    [| eexists _, _; split; [reflexivity | split; [reflexivity | discriminate]]].
  cbn [fst snd].
  destruct (py_in "session" d) as [[] | e] eqn:Hin; cbn [fst snd any_exception];
    try (eexists _, _; split; [reflexivity | split; [reflexivity | discriminate]]).
  destruct (py_index d "session") as [sid | e] eqn:Hsid; cbn [fst snd any_exception];
    [| eexists _, _; split; [reflexivity | split; [reflexivity | discriminate]]].
  destruct (py_slice_to 20 sid) as [p | e]; cbn [fst snd any_exception];
    [| eexists _, _; split; [reflexivity | split; [reflexivity | discriminate]]].
  eexists _, _. split; [reflexivity | split; [reflexivity |]].
  intros _. exists r, kv, v, d. cbn [self session_id]. repeat split; assumption.
Qed.

(** X12. [EFTClient.login] of eft_api_client.py answers with a bool whatever
    the remote side does: it never raises.  It sends exactly the login request
    and writes no file.  When it returns [True], the reply was a JSON object
    with [err == 0] whose [data] holds [session], and the session id now
    stored is that value. *)
Theorem api_login_never_raises email password (s : astate) :
  exists b s', login E email password s = (Ret b, s')
    /\ sent_since (aworld s) (aworld s') = [api_login_request (self s) email password]
    /\ files (aworld s') = files (aworld s)
    /\ (b = true ->
        exists r kv v d,
          http E (length (sent (aworld s))) (api_login_request (self s) email password)
          = Responded r
          /\ api_decode E r = Ret (JObj kv)
          /\ assoc "err" kv = Some v /\ eq_zero v = true
          /\ assoc "data" kv = Some d
          /\ py_index d "session" = Ret (session_id (self s'))).
Proof.
  destruct (api_login_cases email password s) as (b & s' & Hl & Hw & Ht).
  exists b, s'. split; [exact Hl |]. rewrite Hw, sent_since_log.
  repeat split; [exact Ht].
Qed.


Lemma api_body_total entry (s : astate) : fst (EftApi.main_body E entry s) = Ret tt.
Proof. destruct entry as [name func]. now rewrite api_body_run. Qed.

(** X14. [main] of eft_api_client.py never raises.  When the login returns
    [False] it stops there: the login request is the only request sent and
    no file is written. *)
Theorem api_main_stops_after_failed_login (w : world) :
  fst (EftApi.main E w) = Ret tt
  /\ (fst (login E "deine_email@example.com" "dein_passwort" (MkA init w)) = Ret false ->
      snd (EftApi.main E w)
      = log_request (api_login_request init "deine_email@example.com" "dein_passwort") w).
Proof.
  unfold EftApi.main, zoom. cbv zeta. unfold bind.
  destruct (api_login_cases "deine_email@example.com" "dein_passwort" (MkA init w))
    as (b & s' & Hl & Hw & _).
  rewrite Hl. destruct b.
  - split; [| discriminate].
    pose proof (for_each_total (EftApi.main_body E) api_body_total (EftApi.endpoints E) s') as H.
    unfold EftApi.main_loop. destruct (for_each _ _ s') as [r s2]. exact H.
  - split; [reflexivity |]. intros _. exact Hw.
Qed.

End ApiSession.

Section ApiSessionInstances.
Import Scenarios EftApi.EFTClient.

(** A login that is accepted. *)
Example api_login_accepted_ex :
  let body := encode (RefEnv.dumps
                (JObj [("err", JNum 0); ("data", JObj [("session", JStr "abc123")])])) in
  let r := login (env_reply 200 body) "user@example.com" "secret" a0 in
  fst r = Ret true /\ session_id (self (snd r)) = JStr "abc123".
Proof. vm_compute. split; reflexivity. Qed.

(** A session that is a number is stored before the slice of the success
    message fails: the login answers [False], and the next request carries the
    cookie all the same. *)
Example api_login_numeric_session_ex :
  let body := encode (RefEnv.dumps
                (JObj [("err", JNum 0); ("data", JObj [("session", JNum 7)])])) in
  let E := env_reply 200 body in
  let r := login E "user@example.com" "secret" a0 in
  fst r = Ret false
  /\ session_id (self (snd r)) = JNum 7
  /\ map (fun rq => rq_headers rq !! "Cookie")
       (sent_since (aworld (snd r)) (aworld (snd (get_items E (snd r)))))
     = [Some (JStr "PHPSESSID=7")].
Proof. vm_compute. repeat split; reflexivity. Qed.

Lemma api_main_failed_login_witness :
  fst (EftApi.main (env_reply 200 refusal_body) w0) = Ret tt
  /\ sent_since w0 (snd (EftApi.main (env_reply 200 refusal_body) w0))
     = [api_login_request init "deine_email@example.com" "dein_passwort"].
Proof.
  destruct (api_main_stops_after_failed_login (env_reply 200 refusal_body) w0) as [H1 H2].
  split; [exact H1 |]. rewrite H2; [apply sent_since_log |]. vm_compute. reflexivity.
Defined.

End ApiSessionInstances.

(** ** eft_bsg_client.py: [main] and the token it depends on *)

Section BsgMain.
Context (E : Env).
Import EftBsg.EFTLauncher.

Lemma start_game_false_files (s s' : lstate) :
  start_game E s = (Ret false, s') -> files (lworld s') = files (lworld s).
Proof.
  intros H. destruct (truthy (token (self s))) eqn:Ht.
  - pose proof (start_game_world E s Ht) as Hw. rewrite H in Hw. cbn [snd] in Hw.
    now rewrite Hw.
  - rewrite (start_game_unauthenticated E s Ht) in H. now injection H as <-.
Qed.

Lemma bsg_body_total entry (s : EftBsg.EFTClient.cstate) :
  fst (EftBsg.main_body E entry s) = Ret tt.
Proof. destruct entry as [name func]. now rewrite bsg_body_run. Qed.

(** X15. [main] of eft_bsg_client.py reaches the data endpoints only after
    both [login] and [start_game] returned [True].  With the placeholder
    address it does nothing at all.  When [login] returns [False], the login
    request is the only request sent; when [start_game] returns [False] the
    run ends there; in both cases no file is written after the launcher was
    built.  An exception of [login] is not caught: it ends [main]. *)
Theorem bsg_main_requires_both_steps email password (w : world) :
  EftBsg.main E "deine_email@example.com" password w = (Ret tt, w)
  /\ (String.eqb email "deine_email@example.com" = false ->
      forall l w1,
        init E email password "14.7.2.4271" "1.0.1.0.42625" "2021.3.16f1" w = (Ret l, w1) ->
        (forall s2, login E (MkL l w1) = (Ret false, s2) ->
           EftBsg.main E email password w = (Ret tt, log_request (login_request l) w1))
        /\ (forall e s2, login E (MkL l w1) = (Raise e, s2) ->
              EftBsg.main E email password w = (Raise e, log_request (login_request l) w1))
        /\ (forall s2 s3, login E (MkL l w1) = (Ret true, s2) ->
              start_game E s2 = (Ret false, s3) ->
              EftBsg.main E email password w = (Ret tt, lworld s3)
              /\ files (lworld s3) = files w1)
        /\ (forall s2 s3, login E (MkL l w1) = (Ret true, s2) ->
              start_game E s2 = (Ret true, s3) ->
              EftBsg.main E email password w
              = (Ret tt,
                 EftBsg.EFTClient.cworld
                   (snd (EftBsg.main_loop E (EftBsg.endpoints E)
                           (EftBsg.EFTClient.MkC (EftBsg.EFTClient.init (self s3))
                              (lworld s3))))))).
Proof.
  split; [reflexivity |].
  intros Hne l w1 Hi. unfold EftBsg.main. rewrite Hne. unfold bind, ret. rewrite Hi.
  pose proof (login_world E (MkL l w1)) as Hw. cbn [self lworld] in Hw.
  destruct (login E (MkL l w1)) as [[ok | e'] [l2 w2]]; cbn [snd lworld] in Hw; subst w2.
  - split; [| split; [| split]].
    + intros s2 [= -> <-]. reflexivity.
    + intros e s2 [=].
    + intros s2 s3 [= -> <-] Hs. cbv beta iota. rewrite Hs.
      rewrite (start_game_false_files _ _ Hs). now destruct s3.
    + intros s2 s3 [= -> <-] Hs. cbv beta iota. rewrite Hs. destruct s3 as [l3 w3]. cbn [self lworld].
      pose proof (for_each_total (EftBsg.main_body E) bsg_body_total (EftBsg.endpoints E)
                    (EftBsg.EFTClient.MkC (EftBsg.EFTClient.init l3) w3)) as Ht.
      unfold EftBsg.main_loop. destruct (for_each _ _ _) as [r cs].
      cbn [fst snd] in *. now subst r.
  - split; [| split; [| split]].
    + intros s2 [=].
    + intros e s2 [= -> <-]. reflexivity.
    + intros s2 s3 [=].
    + intros s2 s3 [=].
Qed.

(** X16. [login] returns [True] as soon as the reply has [err == 0] and a
    [data] object, also when that object holds no usable [access_token]
    (absent, [null] or empty).  The stored token is then falsy, and the
    [start_game] that follows returns [False] without sending anything. *)
Theorem login_succeeds_without_token (s : lstate) (r : response) kv v dkv :
  http E (length (sent (lworld s))) (login_request (self s)) = Responded r ->
  launcher_decode E r = Ret (JObj kv) ->
  assoc "err" kv = Some v ->
  eq_zero v = true ->
  assoc "data" kv = Some (JObj dkv) ->
  let tok := match assoc "access_token" dkv with Some x => x | None => JNull end in
  truthy tok = false ->
  let s' := MkL (set_token tok (self s)) (log_request (login_request (self s)) (lworld s)) in
  login E s = (Ret true, s') /\ start_game E s' = (Ret false, s').
Proof.
  intros Hh Hd Hv Hz Hdata tok Ht s'.
  assert (Hl : login E s = (Ret true, s')).
  { unfold login. unfold bind at 1. unfold gets at 1. cbn beta iota.
    unfold bind at 1. rewrite launcher_request_run. cbv zeta.
    fold (login_request (self s)). rewrite Hh, Hd.
    unfold update_self, print_token_prefix. py_unfold.
    cbn [py_get py_in py_index]. rewrite Hv, Hz, Hdata. cbn [fst snd py_get].
    fold tok. rewrite Ht. reflexivity. }
  split; [exact Hl |].
  apply start_game_unauthenticated. exact Ht.
Qed.

End BsgMain.

Section BsgMainInstances.
Import Scenarios EftBsg.EFTLauncher.

Lemma bsg_main_refused_witness :
  let r := EftBsg.main (env_reply 200 refusal_body) "user@example.com" "secret" w0 in
  fst r = Ret tt
  /\ map rq_url (sent (snd r))
     = ["https://launcher.escapefromtarkov.com/launcher/login?launcherVersion=14.7.2.4271&branch=live"].
Proof.
  cbv zeta.
  pose (i := init (env_reply 200 refusal_body) "user@example.com" "secret" "14.7.2.4271"
               "1.0.1.0.42625" "2021.3.16f1" w0).
  pose (l := match fst i with Ret l => l | Raise _ => launcher0 end).
  assert (Hi : i = (Ret l, snd i)) by (vm_compute; reflexivity).
  assert (Hl : login (env_reply 200 refusal_body) (MkL l (snd i))
               = (Ret false, MkL l (log_request (login_request l) (snd i))))
    by (vm_compute; reflexivity).
  destruct (bsg_main_requires_both_steps (env_reply 200 refusal_body)
              "user@example.com" "secret" w0) as [_ H].
  destruct (H eq_refl l (snd i) Hi) as (H1 & _).
  rewrite (H1 _ Hl). split; [reflexivity |]. vm_compute. reflexivity.
Defined.

Lemma login_without_token_witness :
  let body := encode (RefEnv.dumps (JObj [("err", JNum 0); ("data", JObj [("x", JNum 1)])])) in
  let s' := snd (login (env_reply 200 body) l0) in
  fst (login (env_reply 200 body) l0) = Ret true
  /\ token (self s') = JNull
  /\ start_game (env_reply 200 body) s' = (Ret false, s').
Proof.
  cbv zeta.
  destruct (login_succeeds_without_token
              (env_reply 200 (encode (RefEnv.dumps ok_value))) l0
              (reply_of 200 (encode (RefEnv.dumps ok_value)))
              [("err", JNum 0); ("data", JObj [("x", JNum 1)])] (JNum 0) [("x", JNum 1)]
              eq_refl ltac:(vm_compute; reflexivity) eq_refl eq_refl eq_refl eq_refl)
    as [H1 H2].
  change (JObj [("err", JNum 0); ("data", JObj [("x", JNum 1)])]) with ok_value.
  rewrite H1. cbn [fst snd self token set_token]. cbn. split; [reflexivity |].
  split; [reflexivity | exact H2].
Defined.

End BsgMainInstances.

(** ** tarkov_api_client.py: what the query methods hand back *)

Section TarkovEdges.
Context (E : Env).
Import TarkovDev.TarkovDevClient.

Lemma query_method_present (w : world) (r : response) body d query variables field default :
  (forall rq, http E (length (sent w)) rq = Responded r) ->
  is_error_status (status_code r) = false ->
  response_json E (content r) (text r) = Ret (JObj body) ->
  assoc "data" body = Some (JObj d) ->
  fst ((result <- _query E query variables ;; data_field result field default) w)
  = Ret (field_or d field default).
Proof.
  intros Hs Hst Hj Hd. unfold bind at 1.
  rewrite (query_returns_body E w r body) by assumption.
  unfold data_field, bind, eval, py_get. rewrite Hd. reflexivity.
Qed.

(** X17. When the reply carries a [data] object, every query method returns
    what that object holds under the queried field, as it is: a [null] there
    is returned as [None], not as the default.  The default (the empty list,
    or [None] for [get_item_by_id]) is used only when the field is absent. *)
Theorem query_methods_return_field_verbatim (w : world) (r : response) body d :
  (forall rq, http E (length (sent w)) rq = Responded r) ->
  is_error_status (status_code r) = false ->
  response_json E (content r) (text r) = Ret (JObj body) ->
  assoc "data" body = Some (JObj d) ->
  forall (lang name item_id : string) (item_ids : json),
    fst (get_all_items E lang w) = Ret (field_or d "items" (JArr []))
    /\ fst (search_items E name lang w) = Ret (field_or d "items" (JArr []))
    /\ fst (get_all_maps E lang w) = Ret (field_or d "maps" (JArr []))
    /\ fst (get_all_traders E lang w) = Ret (field_or d "traders" (JArr []))
    /\ fst (get_all_tasks E lang w) = Ret (field_or d "tasks" (JArr []))
    /\ fst (get_hideout_stations E lang w) = Ret (field_or d "hideoutStations" (JArr []))
    /\ fst (get_all_bosses E lang w) = Ret (field_or d "bosses" (JArr []))
    /\ fst (get_all_ammo E lang w) = Ret (field_or d "ammo" (JArr []))
    /\ fst (get_barters E lang w) = Ret (field_or d "barters" (JArr []))
    /\ fst (get_flea_prices E item_ids w) = Ret (field_or d "items" (JArr []))
    /\ fst (get_item_by_id E item_id lang w) = Ret (field_or d "item" JNull).
Proof.
  intros Hs Hst Hj Hd lang name item_id item_ids.
  repeat split; try (eapply query_method_present; eauto).
  unfold get_flea_prices. destruct (truthy item_ids); eapply query_method_present; eauto.
Qed.

Lemma query_method_no_get (w : world) (r : response) v query variables field default :
  (forall rq, http E (length (sent w)) rq = Responded r) ->
  is_error_status (status_code r) = false ->
  response_json E (content r) (text r) = Ret v ->
  is_object v = false
  \/ (exists body d, v = JObj body /\ assoc "data" body = Some d /\ is_object d = false) ->
  fst ((result <- _query E query variables ;; data_field result field default) w)
  = Raise no_get.
Proof.
  intros Hs Hst Hj Hv. unfold bind at 1. rewrite query_run. cbv zeta.
  rewrite Hs, Hst, Hj. unfold data_field, bind, eval.
  destruct Hv as [Hv | (body & d & -> & Hd & Ho)].
  - destruct v; try discriminate Hv; reflexivity.
  - cbn [py_get]. rewrite Hd. destruct d; try discriminate Ho; reflexivity.
Qed.

(** X18. The chained [.get] of the query methods has no guard for a reply
    that is not a dict, or whose [data] is not a dict ([null], as GraphQL
    sends it with a failed query): every query method then raises
    [AttributeError]. *)
Theorem non_object_data_raises (w : world) (r : response) (v : json) :
  (forall rq, http E (length (sent w)) rq = Responded r) ->
  is_error_status (status_code r) = false ->
  response_json E (content r) (text r) = Ret v ->
  is_object v = false
  \/ (exists body d, v = JObj body /\ assoc "data" body = Some d /\ is_object d = false) ->
  forall (lang name item_id : string) (item_ids : json),
    fst (get_all_items E lang w) = Raise no_get
    /\ fst (search_items E name lang w) = Raise no_get
    /\ fst (get_all_maps E lang w) = Raise no_get
    /\ fst (get_all_traders E lang w) = Raise no_get
    /\ fst (get_all_tasks E lang w) = Raise no_get
    /\ fst (get_hideout_stations E lang w) = Raise no_get
    /\ fst (get_all_bosses E lang w) = Raise no_get
    /\ fst (get_all_ammo E lang w) = Raise no_get
    /\ fst (get_barters E lang w) = Raise no_get
    /\ fst (get_flea_prices E item_ids w) = Raise no_get
    /\ fst (get_item_by_id E item_id lang w) = Raise no_get.
Proof.
  intros Hs Hst Hj Hv lang name item_id item_ids.
  repeat split; try (eapply query_method_no_get; eauto).
  unfold get_flea_prices. destruct (truthy item_ids); eapply query_method_no_get; eauto.
Qed.

(** X19. In the loop of [main] the file is written before the size line is
    formatted: a dataset that has no length ([None], a number) is saved all
    the same, and the entry is then reported as failed. *)
Theorem unsized_dataset_is_saved_then_reported name (func : M world json)
    (w : world) data e w1 :
  func (add_out (Loading name) w) = (Ret data, w1) ->
  py_len data = Raise e ->
  let file := (name ++ "_" ++ TarkovDev.LANG ++ ".json")%string in
  let w' := snd (TarkovDev.main_body E (name, func) w) in
  TarkovDev.main_body E (name, func) w
  = (Ret tt, add_out (ErrorRaised name e) (stored_in E "output" file data w1))
  /\ files w' !! path_join "output" file = Some (json_dump_pretty E data).
Proof.
  intros Hf Hn file w'.
  assert (Hb : TarkovDev.main_body E (name, func) w
               = (Ret tt, add_out (ErrorRaised name e) (stored_in E "output" file data w1))).
  { unfold TarkovDev.main_body, save_to_file, mkdir, write_text.
    py_unfold. fold (add_out (Loading name) w). rewrite Hf. cbn [fst snd].
    rewrite Hn. reflexivity. }
  split; [exact Hb |]. subst w'. rewrite Hb. cbn [snd add_out stored_in files].
  apply lookup_insert_eq.
Qed.

(** X20. [get_flea_prices] treats every falsy argument ([None], the empty
    list) alike: it sends the query for all items without variables.  With a
    non-empty list it sends the query by ids, the list being the variable
    [ids]. *)
Theorem flea_prices_request (item_ids : json) (w : world) :
  (truthy item_ids = false ->
   get_flea_prices E item_ids w = get_flea_prices E JNull w
   /\ sent_since w (snd (get_flea_prices E item_ids w))
      = [query_request get_flea_prices_query_2 JNull]
   /\ body_field "variables" (query_request get_flea_prices_query_2 JNull) = None)
  /\ (truthy item_ids = true ->
      sent_since w (snd (get_flea_prices E item_ids w))
      = [query_request get_flea_prices_query_1 (JObj [("ids", item_ids)])]
      /\ body_field "variables"
           (query_request get_flea_prices_query_1 (JObj [("ids", item_ids)]))
         = Some (JObj [("ids", item_ids)])).
Proof.
  assert (Hw : forall q v field default,
             snd ((result <- _query E q v ;; data_field result field default) w)
             = log_request (query_request q v) w).
  { intros q v field default. unfold bind at 1. rewrite query_run. cbv zeta.
    destruct (http E _ _) as [r | e0]; [| reflexivity].
    destruct (is_error_status _); [reflexivity |].
    destruct (response_json E _ _) as [res | e0]; [| reflexivity].
    unfold data_field, bind, eval.
    destruct (py_get res "data" (JObj [])) as [d | e0]; [| reflexivity].
    destruct (py_get d field default); reflexivity. }
  split; intros Ht; unfold get_flea_prices; rewrite Ht; cbn [truthy].
  - split; [reflexivity |]. rewrite Hw, sent_since_log. split; reflexivity.
  - rewrite Hw, sent_since_log. split; reflexivity.
Qed.

End TarkovEdges.

Section TarkovEdgesInstances.
Import Scenarios TarkovDev.TarkovDevClient.

Lemma query_methods_field_witness :
  let body := encode (RefEnv.dumps
                (JObj [("data", JObj [("items", JNull); ("maps", JArr [JNum 1])])])) in
  fst (get_all_items (env_reply 200 body) "en" w0) = Ret JNull
  /\ fst (get_all_maps (env_reply 200 body) "en" w0) = Ret (JArr [JNum 1])
  /\ fst (get_all_tasks (env_reply 200 body) "en" w0) = Ret (JArr []).
Proof.
  cbv zeta.
  pose proof (query_methods_return_field_verbatim
                (env_reply 200 (encode (RefEnv.dumps
                   (JObj [("data", JObj [("items", JNull); ("maps", JArr [JNum 1])])]))))
                w0 (reply_of 200 (encode (RefEnv.dumps
                   (JObj [("data", JObj [("items", JNull); ("maps", JArr [JNum 1])])]))))
                [("data", JObj [("items", JNull); ("maps", JArr [JNum 1])])]
                [("items", JNull); ("maps", JArr [JNum 1])]
                (fun _ => eq_refl) eq_refl ltac:(vm_compute; reflexivity) eq_refl
                "en" "AK-47" "x" JNull) as H.
  repeat split; apply H.
Defined.

Lemma non_object_data_witness :
  let body := encode (RefEnv.dumps
                (JObj [("data", JNull); ("errors", JArr [JStr "Bad request"])])) in
  fst (get_all_items (env_reply 200 body) "en" w0) = Raise no_get
  /\ fst (get_item_by_id (env_reply 200 body) "x" "en" w0) = Raise no_get.
Proof.
  cbv zeta.
  pose proof (non_object_data_raises
                (env_reply 200 (encode (RefEnv.dumps
                   (JObj [("data", JNull); ("errors", JArr [JStr "Bad request"])]))))
                w0 (reply_of 200 (encode (RefEnv.dumps
                   (JObj [("data", JNull); ("errors", JArr [JStr "Bad request"])]))))
                (JObj [("data", JNull); ("errors", JArr [JStr "Bad request"])])
                (fun _ => eq_refl) eq_refl ltac:(vm_compute; reflexivity)
                (or_intror (ex_intro _ _ (ex_intro _ JNull
                   (conj eq_refl (conj eq_refl eq_refl)))))
                "en" "AK-47" "x" JNull) as H.
  split; apply H.
Defined.

Lemma unsized_dataset_witness :
  let body := encode (RefEnv.dumps (JObj [("data", JObj [("items", JNull)])])) in
  let E := env_reply 200 body in
  let w' := snd (TarkovDev.main_body E ("items", get_all_items E "en") w0) in
  files w' !! "output/items_en.json" = Some "null"
  /\ out w' = [Loading "items"; Saved "output/items_en.json";
               ErrorRaised "items" (Exn TypeError "object has no len()")].
Proof.
  cbv zeta.
  destruct (unsized_dataset_is_saved_then_reported
              (env_reply 200 (encode (RefEnv.dumps (JObj [("data", JObj [("items", JNull)])]))))
              "items"
              (get_all_items
                 (env_reply 200
                    (encode (RefEnv.dumps (JObj [("data", JObj [("items", JNull)])])))) "en")
              w0 JNull (Exn TypeError "object has no len()")
              (log_request (query_request get_all_items_query (JObj [("lang", JStr "en")]))
                 (add_out (Loading "items") w0))
              ltac:(vm_compute; reflexivity) eq_refl) as [H1 H2].
  split; [exact H2 |]. rewrite H1. vm_compute. reflexivity.
Defined.

Lemma flea_prices_witness :
  get_flea_prices (env_reply 200 errors_body) (JArr []) w0
  = get_flea_prices (env_reply 200 errors_body) JNull w0
  /\ sent_since w0 (snd (get_flea_prices (env_reply 200 errors_body) (JArr [JStr "a"]) w0))
     = [query_request get_flea_prices_query_1 (JObj [("ids", JArr [JStr "a"])])].
Proof.
  split.
  - apply (flea_prices_request (env_reply 200 errors_body) (JArr []) w0). reflexivity.
  - apply (flea_prices_request (env_reply 200 errors_body) (JArr [JStr "a"]) w0).
    reflexivity.
Defined.

End TarkovEdgesInstances.

(** ** tarkov_api_client.py: [main] from end to end *)

Section TarkovMain.
Context (E : Env).
Import TarkovDev.TarkovDevClient.

Lemma fold_left_through_map {A B C} (f : A -> C -> A) (g : B -> C) (l : list B) :
  forall a, fold_left f (map g l) a = fold_left (fun a b => f a (g b)) l a.
Proof. induction l as [| b l IH]; intros a; [reflexivity | apply IH]. Qed.

Lemma tarkov_entry_run name (m : M world json) rq r (w : world) :
  comes_back m rq r ->
  TarkovDev.main_body E (name, m) w = (Ret tt, entry_world E name rq r w).
Proof.
  intros Hm. unfold entry_world. cbv zeta. destruct r as [data | e].
  - destruct (py_len data) as [n | e] eqn:Hn.
    + now apply tarkov_body_return.
    + unfold TarkovDev.main_body, save_to_file, mkdir, write_text.
      py_unfold. fold (add_out (Loading name) w). rewrite Hm. cbn [fst snd].
      rewrite Hn. reflexivity.
  - now apply tarkov_body_raise.
Qed.

Lemma tarkov_loop_run (l : list (string * M world json)) (t : list (string * request)) r :
  Forall2 (fun en p => fst en = fst p /\ comes_back (snd en) (snd p) r) l t ->
  forall w,
    TarkovDev.main_loop E l w
    = (Ret tt, fold_left (fun w p => entry_world E (fst p) (snd p) r w) t w).
Proof.
  unfold TarkovDev.main_loop.
  induction 1 as [| [name m] [name' rq] l t [Hn Hm] _ IH]; intros w; [reflexivity |].
  cbn [fst snd] in Hn, Hm. subst name'.
  rewrite for_each_cons by apply tarkov_body_total.
  rewrite (tarkov_entry_run name m rq r w Hm). cbn [snd fold_left fst]. apply IH.
Qed.

Lemma method_comes_back q v field default (qr : res json) (r : res json) :
  (forall w, _query E q v w = (qr, log_request (query_request q v) w)) ->
  (forall w, match qr with
             | Ret result => data_field result field default w = (r, w)
             | Raise e => r = Raise e
             end) ->
  comes_back (result <- _query E q v ;; data_field result field default)
    (query_request q v) r.
Proof.
  intros Hq Hd w. unfold bind at 1. rewrite Hq.
  specialize (Hd (log_request (query_request q v) w)).
  destruct qr as [result | e]; [exact Hd | now subst r].
Qed.

Lemma datasets_come_back (qr r : res json) :
  (forall q v w, _query E q v w = (qr, log_request (query_request q v) w)) ->
  (forall field w, In field queried_fields ->
     match qr with
     | Ret result => data_field result field (JArr []) w = (r, w)
     | Raise e => r = Raise e
     end) ->
  forall w, TarkovDev.main_loop E (TarkovDev.datasets E) w = (Ret tt, loop_world E r w).
Proof.
  intros Hq Hd w. unfold loop_world.
  transitivity
    (Ret tt,
     fold_left (fun w p => entry_world E (fst p) (snd p) r w)
       (map (fun p => (fst p, dataset_request p)) dataset_queries) w);
    [| now rewrite fold_left_through_map].
  apply tarkov_loop_run.
  unfold TarkovDev.datasets, dataset_queries. cbn [map].
  repeat match goal with |- Forall2 _ _ _ => constructor end;
    (split; [reflexivity |]); cbn [fst snd]; unfold dataset_request; cbn [snd];
    apply (method_comes_back _ _ _ _ qr); try apply Hq; intros w'; apply Hd; cbn; tauto.
Qed.

Lemma entry_world_sent name rq r (w : world) :
  sent (entry_world E name rq r w) = (sent w ++ [rq])%list.
Proof.
  unfold entry_world. cbv zeta. destruct r as [data | e]; [| reflexivity].
  destruct (py_len data); reflexivity.
Qed.

Lemma loop_world_sent r (w : world) :
  sent (loop_world E r w) = (sent w ++ map dataset_request dataset_queries)%list.
Proof.
  unfold loop_world. generalize dataset_queries as t. intros t. revert w.
  induction t as [| p t IH]; intros w; cbn [fold_left map].
  - now rewrite app_nil_r.
  - rewrite IH, entry_world_sent, <- app_assoc. reflexivity.
Qed.

Lemma loop_world_failed e (w : world) :
  files (loop_world E (Raise e) w) = files w
  /\ out (loop_world E (Raise e) w)
     = (out w ++ flat_map (fun p => [Loading (fst p); ErrorRaised (fst p) e])
                  dataset_queries)%list.
Proof.
  unfold loop_world. generalize dataset_queries as t. intros t. revert w.
  induction t as [| p t IH]; intros w; cbn [fold_left flat_map].
  - now rewrite app_nil_r.
  - destruct (IH (entry_world E (fst p) (dataset_request p) (Raise e) w)) as [Hf Ho].
    rewrite Hf, Ho. split; [reflexivity |].
    cbn [entry_world out add_out log_request]. now rewrite <- !app_assoc.
Qed.

Lemma loop_world_stored data n (w : world) :
  py_len data = Ret n ->
  (forall name, In name (map fst dataset_queries) ->
     files (loop_world E (Ret data) w) !! path_join "output" (dataset_file name)
     = Some (json_dump_pretty E data))
  /\ out (loop_world E (Ret data) w)
     = (out w ++ flat_map (fun p => [Loading (fst p);
                                     Saved (path_join "output" (dataset_file (fst p)));
                                     Count n])
                  dataset_queries)%list.
Proof.
  intros Hn. unfold loop_world. generalize dataset_queries as t. intros t.
  assert (Hkeep : forall t (w : world) f,
             files w !! f = Some (json_dump_pretty E data) ->
             files (fold_left (fun w p => entry_world E (fst p) (dataset_request p)
                                            (Ret data) w) t w) !! f
             = Some (json_dump_pretty E data)).
  { clear t w. induction t as [| p t IH]; intros w f Hf; [exact Hf |].
    cbn [fold_left]. apply IH. unfold entry_world. cbv zeta. rewrite Hn.
    cbn [files add_out stored_in].
    destruct (decide (path_join "output" (dataset_file (fst p)) = f)) as [<- | Hne].
    - apply lookup_insert_eq.
    - rewrite lookup_insert_ne by exact Hne. exact Hf. }
  revert w. induction t as [| p t IH]; intros w; cbn [fold_left flat_map map].
  - split; [intros name [] | now rewrite app_nil_r].
  - destruct (IH (entry_world E (fst p) (dataset_request p) (Ret data) w)) as [Hf Ho].
    split.
    + intros name [<- | Hin]; [| now apply Hf].
      apply Hkeep. unfold entry_world. cbv zeta. rewrite Hn.
      cbn [files add_out stored_in]. apply lookup_insert_eq.
    + rewrite Ho. unfold entry_world. cbv zeta. rewrite Hn.
      cbn [out add_out stored_in log_request]. now rewrite <- !app_assoc.
Qed.

Lemma log_request_fields rq (w : world) :
  files (log_request rq w) = files w
  /\ out (log_request rq w) = out w
  /\ sent (log_request rq w) = (sent w ++ [rq])%list.
Proof. repeat split; reflexivity. Qed.

Lemma sent_since_app (w w' : world) l :
  sent w' = (sent w ++ l)%list -> sent_since w w' = l.
Proof.
  intros H. unfold sent_since. rewrite H, skipn_app, skipn_all, Nat.sub_diag. reflexivity.
Qed.

(** Whatever a query method returns, it has sent its one request and
    changed nothing else. *)
Lemma query_method_world q v field default (w : world) :
  snd ((result <- _query E q v ;; data_field result field default) w)
  = log_request (query_request q v) w.
Proof.
  unfold bind at 1. rewrite query_run. cbv zeta.
  destruct (http E _ _) as [r | e0]; [| reflexivity].
  destruct (is_error_status _); [reflexivity |].
  destruct (response_json E _ _) as [res | e0]; [| reflexivity].
  unfold data_field, bind, eval.
  destruct (py_get res "data" (JObj [])) as [d | e0]; [| reflexivity].
  destruct (py_get d field default); reflexivity.
Qed.

Lemma every_query_fails e :
  (forall n rq, http E n rq = Failed e)
  \/ (exists r, (forall n rq, http E n rq = Responded r)
                /\ is_error_status (status_code r) = true /\ e = http_error r) ->
  forall q v w, _query E q v w = (Raise e, log_request (query_request q v) w).
Proof.
  intros [Hf | (r & Hr & Hst & ->)] q v w; rewrite query_run; cbv zeta.
  - now rewrite Hf.
  - now rewrite Hr, Hst.
Qed.

(** X21. When every request fails, by the transport or with an HTTP error
    status, [main] of tarkov_api_client.py reports the eight datasets as
    failed and writes no file; the search example that follows the loop is
    not guarded, so its exception ends [main]. *)
Theorem main_fails_when_every_query_fails (e : exn) (w : world) :
  (forall n rq, http E n rq = Failed e)
  \/ (exists r, (forall n rq, http E n rq = Responded r)
                /\ is_error_status (status_code r) = true /\ e = http_error r) ->
  let w' := snd (TarkovDev.main E w) in
  fst (TarkovDev.main E w) = Raise e
  /\ files w' = files w
  /\ sent_since w w' = (map dataset_request dataset_queries ++ [search_request])%list
  /\ out w' = (out w ++ flat_map (fun p => [Loading (fst p); ErrorRaised (fst p) e])
                          dataset_queries)%list.
Proof.
  intros H w'. pose proof (every_query_fails e H) as Hq.
  assert (Hm : TarkovDev.main E w
               = (Raise e, log_request search_request (loop_world E (Raise e) w))).
  { unfold TarkovDev.main. unfold bind at 1.
    rewrite (datasets_come_back (Raise e) (Raise e)); [| exact Hq | reflexivity].
    unfold TarkovDev.examples. unfold bind at 1.
    unfold search_items. unfold bind at 1. rewrite Hq. reflexivity. }
  subst w'. rewrite Hm. cbn [fst snd].
  destruct (loop_world_failed e w) as [Hf Ho].
  split; [reflexivity |].
  destruct (log_request_fields search_request (loop_world E (Raise e) w))
    as (Lf & Lo & Ls).
  rewrite Lf, Lo. split; [exact Hf |]. split; [| exact Ho].
  apply sent_since_app. rewrite Ls, loop_world_sent, <- app_assoc. reflexivity.
Qed.

(** X22. When the API answers every query with a JSON object that carries no
    data (an [errors] reply), [main] ends normally and reports no failure:
    each of the eight datasets is stored as the empty list with the size line
    0, the search finds nothing, and no price query is sent. *)
Theorem main_stores_defaults_without_data (r : response) body (w : world) :
  (forall n rq, http E n rq = Responded r) ->
  is_error_status (status_code r) = false ->
  response_json E (content r) (text r) = Ret (JObj body) ->
  lacks_data body ->
  let w' := snd (TarkovDev.main E w) in
  fst (TarkovDev.main E w) = Ret tt
  /\ sent_since w w' = (map dataset_request dataset_queries ++ [search_request])%list
  /\ (forall name, In name (map fst dataset_queries) ->
        files w' !! path_join "output" (dataset_file name)
        = Some (json_dump_pretty E (JArr [])))
  /\ out w' = (out w ++ flat_map (fun p => [Loading (fst p);
                                           Saved (path_join "output" (dataset_file (fst p)));
                                           Count 0])
                          dataset_queries)%list.
Proof.
  intros Hs Hst Hj Hl w'.
  assert (Hq : forall q v w0, _query E q v w0
                              = (Ret (JObj body), log_request (query_request q v) w0)).
  { intros q v w0. apply (query_returns_body E w0 r); auto. }
  assert (Hm : TarkovDev.main E w
               = (Ret tt, log_request search_request (loop_world E (Ret (JArr [])) w))).
  { unfold TarkovDev.main. unfold bind at 1.
    rewrite (datasets_come_back (Ret (JObj body)) (Ret (JArr []))); [| exact Hq |].
    2: { intros field w0 Hf. now apply data_field_missing. }
    unfold TarkovDev.examples. unfold bind at 1.
    unfold search_items. unfold bind at 1. rewrite Hq.
    rewrite data_field_missing; [reflexivity | cbn; tauto | exact Hl]. }
  subst w'. rewrite Hm. cbn [fst snd].
  destruct (loop_world_stored (JArr []) 0 w eq_refl) as [Hf Ho].
  split; [reflexivity |].
  destruct (log_request_fields search_request (loop_world E (Ret (JArr [])) w))
    as (Lf & Lo & Ls).
  rewrite Lf, Lo. split; [| split; [exact Hf | exact Ho]].
  apply sent_since_app. rewrite Ls, loop_world_sent, <- app_assoc. reflexivity.
Qed.

Lemma print_items_ok (l : list json) (w : world) :
  forallb (has_keys ["name"; "shortName"; "basePrice"]) l = true ->
  for_each l (TarkovDev.print_item) w = (Ret tt, w).
Proof.
  induction l as [| item l IH]; intros H; [reflexivity |].
  cbn [forallb] in H. apply andb_true_iff in H as [Hi Hl].
  cbn [for_each]. unfold bind at 1.
  assert (Hp : TarkovDev.print_item item w = (Ret tt, w)).
  { destruct item as [| | | | | kv]; try discriminate Hi.
    unfold TarkovDev.print_item, bind, eval, ret. cbn [py_index].
    cbn [has_keys forallb] in Hi.
    destruct (assoc "name" kv); [| discriminate Hi].
    destruct (assoc "shortName" kv); [| discriminate Hi].
    destruct (assoc "basePrice" kv); [| discriminate Hi]. reflexivity. }
  rewrite Hp. now apply IH.
Qed.

Lemma collect_ids_ok (l : list json) (w : world) :
  forallb (has_keys ["id"]) l = true ->
  map_m (fun r => eval (S := world) (py_index r "id")) l w = (Ret (map id_of l), w).
Proof.
  induction l as [| item l IH]; intros H; [reflexivity |].
  cbn [forallb] in H. apply andb_true_iff in H as [Hi Hl].
  cbn [map_m map]. unfold bind at 1.
  destruct item as [| | | | | kv]; try discriminate Hi.
  cbn [has_keys forallb] in Hi. unfold eval at 1. cbn [py_index id_of].
  destruct (assoc "id" kv); [| discriminate Hi].
  unfold bind at 1. rewrite (IH Hl). reflexivity.
Qed.

Lemma print_prices_world (l : list json) (w : world) :
  snd (for_each l (TarkovDev.print_price) w) = w.
Proof.
  induction l as [| p l IH]; [reflexivity |].
  cbn [for_each]. unfold bind at 1.
  assert (Hp : snd (TarkovDev.print_price p w) = w).
  { unfold TarkovDev.print_price, bind, eval, ret.
    destruct (py_index p "name"); [| reflexivity].
    destruct (py_index p "avg24hPrice"); reflexivity. }
  destruct (TarkovDev.print_price p w) as [[[] | e] w1]; cbn [snd] in Hp; subst w1.
  - exact IH.
  - reflexivity.
Qed.

(** X23. The price example follows the search: when the search returns a
    non-empty list whose first five entries carry the printed fields and
    whose first three carry [id], exactly one further request is sent, the
    price query whose variable [ids] lists the ids of the first three
    results, in their order. *)
Theorem prices_are_asked_for_first_three (w w1 : world) (items : list json) :
  search_items E "AK-47" TarkovDev.LANG w = (Ret (JArr items), w1) ->
  truthy (JArr items) = true ->
  forallb (has_keys ["name"; "shortName"; "basePrice"]) (firstn 5 items) = true ->
  forallb (has_keys ["id"]) (firstn 3 items) = true ->
  sent_since w1 (snd (TarkovDev.examples E w))
  = [prices_request (map id_of (firstn 3 items))].
Proof.
  intros Hsearch Ht H5 H3.
  unfold TarkovDev.examples. unfold bind at 1. rewrite Hsearch.
  unfold eval at 1. cbn [py_slice_to]. unfold bind at 1.
  unfold eval at 1. cbn [py_iter]. unfold bind at 1.
  unfold bind at 1. rewrite (print_items_ok _ w1 H5). rewrite Ht.
  unfold eval at 1. cbn [py_slice_to]. unfold bind at 1.
  unfold eval at 1. cbn [py_iter]. unfold bind at 1.
  unfold bind at 1. rewrite (collect_ids_ok _ w1 H3).
  assert (Hids : truthy (JArr (map id_of (firstn 3 items))) = true).
  { destruct items; [discriminate Ht | reflexivity]. }
  pose proof (query_method_world get_flea_prices_query_1
                (JObj [("ids", JArr (map id_of (firstn 3 items)))])
                "items" (JArr []) w1) as Hw.
  unfold bind at 1. unfold get_flea_prices. rewrite Hids.
  destruct ((result <- _query E _ _ ;; data_field result "items" (JArr [])) w1)
    as [[prices | e] w2]; cbn [snd] in Hw; subst w2.
  - unfold bind at 1. unfold eval at 1.
    destruct (py_iter prices) as [ps | e]; cbn [snd].
    + rewrite print_prices_world. apply sent_since_log.
    + apply sent_since_log.
  - apply sent_since_log.
Qed.

Lemma search_returns_field (w : world) (r : response) body d name lang :
  (forall n rq, http E n rq = Responded r) ->
  is_error_status (status_code r) = false ->
  response_json E (content r) (text r) = Ret (JObj body) ->
  assoc "data" body = Some (JObj d) ->
  search_items E name lang w
  = (Ret (field_or d "items" (JArr [])),
     log_request (query_request search_items_query
                    (JObj [("name", JStr name); ("lang", JStr lang)])) w).
Proof.
  intros Hs Hst Hj Hd. unfold search_items. unfold bind at 1.
  rewrite (query_returns_body E w r body) by auto.
  unfold data_field, bind, eval, py_get. rewrite Hd. reflexivity.
Qed.

(** X24. Without results there is no price query.  When the reply to the
    search holds an empty [items] list (or no [items] at all) the examples
    end at once; when it holds a value that cannot be sliced, as the [null]
    GraphQL puts there for a failed field, the slice raises and the exception
    ends [main].  In both cases the search request is the last one sent. *)
Theorem no_price_query_without_results (w : world) (r : response) body d :
  (forall n rq, http E n rq = Responded r) ->
  is_error_status (status_code r) = false ->
  response_json E (content r) (text r) = Ret (JObj body) ->
  assoc "data" body = Some (JObj d) ->
  (field_or d "items" (JArr []) = JArr [] ->
   TarkovDev.examples E w = (Ret tt, log_request search_request w))
  /\ (forall e, py_slice_to 5 (field_or d "items" (JArr [])) = Raise e ->
        TarkovDev.examples E w = (Raise e, log_request search_request w)).
Proof.
  intros Hs Hst Hj Hd.
  pose proof (search_returns_field w r body d "AK-47" TarkovDev.LANG Hs Hst Hj Hd) as H.
  fold search_request in H.
  unfold TarkovDev.examples. split.
  - intros Hv. unfold bind at 1. rewrite H, Hv. reflexivity.
  - intros e He. unfold bind at 1. rewrite H. unfold bind at 1, eval at 1.
    now rewrite He.
Qed.

End TarkovMain.

Section TarkovMainInstances.
Import Scenarios TarkovDev.TarkovDevClient.

Lemma main_fails_witness :
  let r := TarkovDev.main (env_reply 503 html_body) w0 in
  fst r = Raise (Exn HTTPError "503 Server Error")
  /\ files (snd r) = ∅
  /\ length (sent_since w0 (snd r)) = 9%nat.
Proof.
  cbv zeta.
  destruct (main_fails_when_every_query_fails (env_reply 503 html_body)
              (Exn HTTPError "503 Server Error") w0) as (H1 & H2 & H3 & _).
  { right. exists (reply_of 503 html_body). repeat split; reflexivity. }
  split; [exact H1 |]. split; [exact H2 |].
  rewrite H3. reflexivity.
Defined.

Lemma main_stores_defaults_witness :
  let r := TarkovDev.main (env_reply 200 errors_body) w0 in
  fst r = Ret tt
  /\ files (snd r) !! "output/items_en.json"
     = Some (RefEnv.pretty 0 (JArr []))
  /\ length (sent_since w0 (snd r)) = 9%nat.
Proof.
  cbv zeta.
  destruct (main_stores_defaults_without_data (env_reply 200 errors_body)
              (reply_of 200 errors_body) [("errors", JArr [JStr "Internal server error"])] w0
              (fun _ _ => eq_refl) eq_refl ltac:(vm_compute; reflexivity)
              (or_introl eq_refl)) as (H1 & H2 & H3 & _).
  split; [exact H1 |]. split; [apply (H3 "items"); left; reflexivity |].
  rewrite H2. reflexivity.
Defined.

Lemma prices_witness :
  sent_since (log_request search_request w0)
    (snd (TarkovDev.examples (env_reply 200 found_body) w0))
  = [prices_request [JStr "a"; JStr "b"; JStr "c"]].
Proof.
  apply (prices_are_asked_for_first_three (env_reply 200 found_body) w0
           (log_request search_request w0) found_items);
    [vm_compute; reflexivity | reflexivity | reflexivity | reflexivity].
Defined.

Lemma no_price_query_witness :
  let body := encode (RefEnv.dumps (JObj [("data", JObj [("items", JNull)])])) in
  TarkovDev.examples (env_reply 200 body) w0
  = (Raise (Exn TypeError "object is not subscriptable"), log_request search_request w0).
Proof.
  cbv zeta.
  apply (no_price_query_without_results
           (env_reply 200 (encode (RefEnv.dumps (JObj [("data", JObj [("items", JNull)])]))))
           w0
           (reply_of 200 (encode (RefEnv.dumps (JObj [("data", JObj [("items", JNull)])]))))
           [("data", JObj [("items", JNull)])] [("items", JNull)]
           (fun _ _ => eq_refl) eq_refl ltac:(vm_compute; reflexivity) eq_refl).
  reflexivity.
Defined.

End TarkovMainInstances.

(** ** The vendor clients when the backend cannot be reached *)

Section Unreachable.
Context (E : Env).

Lemma bsg_unreachable_loop e :
  (forall n rq, http E n rq = Failed e) ->
  forall eps (s : EftBsg.EFTClient.cstate),
    Forall (fun en => exists endpoint data,
                snd en = EftBsg.EFTClient._request E endpoint data) eps ->
    files (EftBsg.EFTClient.cworld (snd (EftBsg.main_loop E eps s)))
    = files (EftBsg.EFTClient.cworld s)
    /\ out (EftBsg.EFTClient.cworld (snd (EftBsg.main_loop E eps s)))
       = (out (EftBsg.EFTClient.cworld s)
          ++ flat_map (fun en => [Loading (fst en); ErrorReply (fst en) (error_dict e)]) eps)%list.
Proof.
  intros Hf. unfold EftBsg.main_loop.
  induction eps as [| [name func] eps IH]; intros s Hall.
  - cbn. now rewrite app_nil_r.
  - apply Forall_cons in Hall as [(endpoint & data & Hfunc) Hall].
    cbn [snd] in Hfunc. subst func.
    rewrite for_each_cons by (now rewrite bsg_body_run).
    rewrite bsg_body_run. cbv zeta. cbn [snd].
    rewrite game_request_run. cbv zeta. rewrite Hf. cbn [fst snd].
    match goal with
    | |- context [for_each eps _ ?s'] => destruct (IH s' Hall) as [If Io]
    end.
    rewrite If, Io. cbn. rewrite <- !app_assoc. split; reflexivity.
Qed.

Lemma api_unreachable_loop e :
  (forall n rq, http E n rq = Failed e) ->
  forall eps (s : EftApi.EFTClient.astate),
    Forall (fun en => exists method url data,
                snd en = EftApi.EFTClient._request E method url data) eps ->
    files (EftApi.EFTClient.aworld (snd (EftApi.main_loop E eps s)))
    = files (EftApi.EFTClient.aworld s)
    /\ out (EftApi.EFTClient.aworld (snd (EftApi.main_loop E eps s)))
       = (out (EftApi.EFTClient.aworld s)
          ++ flat_map (fun en => [Loading (fst en); ErrorRaised (fst en) e]) eps)%list.
Proof.
  intros Hf. unfold EftApi.main_loop.
  induction eps as [| [name func] eps IH]; intros s Hall.
  - cbn. now rewrite app_nil_r.
  - apply Forall_cons in Hall as [(method & url & data & Hfunc) Hall].
    cbn [snd] in Hfunc. subst func.
    rewrite for_each_cons by (now rewrite api_body_run).
    rewrite api_body_run. cbv zeta. cbn [snd].
    rewrite api_request_run. cbv zeta. rewrite Hf. cbn [fst snd].
    match goal with
    | |- context [for_each eps _ ?s'] => destruct (IH s' Hall) as [If Io]
    end.
    rewrite If, Io. cbn. rewrite <- !app_assoc. split; reflexivity.
Qed.

(** X25. When the backend cannot be reached while the endpoints are
    fetched, both vendor scripts finish their loop and store nothing.  The
    game client of eft_bsg_client.py turns each failure into an error dict,
    which the loop prints as a refused reply; the client of
    eft_api_client.py lets the exception reach the loop, which prints it. *)
Theorem unreachable_backend_stores_nothing (e : exn) :
  (forall n rq, http E n rq = Failed e) ->
  (forall s : EftBsg.EFTClient.cstate,
     let s' := snd (EftBsg.main_loop E (EftBsg.endpoints E) s) in
     fst (EftBsg.main_loop E (EftBsg.endpoints E) s) = Ret tt
     /\ files (EftBsg.EFTClient.cworld s') = files (EftBsg.EFTClient.cworld s)
     /\ out (EftBsg.EFTClient.cworld s')
        = (out (EftBsg.EFTClient.cworld s)
           ++ flat_map (fun en => [Loading (fst en); ErrorReply (fst en) (error_dict e)])
                (EftBsg.endpoints E))%list)
  /\ (forall s : EftApi.EFTClient.astate,
        let s' := snd (EftApi.main_loop E (EftApi.endpoints E) s) in
        fst (EftApi.main_loop E (EftApi.endpoints E) s) = Ret tt
        /\ files (EftApi.EFTClient.aworld s') = files (EftApi.EFTClient.aworld s)
        /\ out (EftApi.EFTClient.aworld s')
           = (out (EftApi.EFTClient.aworld s)
              ++ flat_map (fun en => [Loading (fst en); ErrorRaised (fst en) e])
                   (EftApi.endpoints E))%list).
Proof.
  intros Hf. split; intros s s'.
  - split.
    { apply for_each_total. intros [name func] s0. now rewrite bsg_body_run. }
    apply (bsg_unreachable_loop e Hf).
    unfold EftBsg.endpoints.
    repeat (apply Forall_cons; split; [cbn [snd]; eexists _, _; reflexivity |]).
    apply Forall_nil_2.
  - split.
    { apply for_each_total. intros [name func] s0. now rewrite api_body_run. }
    apply (api_unreachable_loop e Hf).
    unfold EftApi.endpoints.
    repeat (apply Forall_cons; split; [cbn [snd]; eexists _, _, _; reflexivity |]).
    apply Forall_nil_2.
Qed.

End Unreachable.

Section Activation.
Context (E : Env).
Import EftBsg.EFTLauncher.

(** X26. [activate_hardware] sends its one request (email, hardware code,
    activation code) and never changes the launcher object, whatever it
    returns: activating a device does not log in.  Without a token stored
    before, [start_game] still refuses afterwards, and sends nothing. *)
Theorem activation_does_not_authenticate code (s : lstate) :
  let s' := snd (activate_hardware E code s) in
  self s' = self s
  /\ sent_since (lworld s) (lworld s') = [activate_request (self s) code]
  /\ (truthy (token (self s)) = false -> start_game E s' = (Ret false, s')).
Proof.
  intros s'. subst s'.
  split; [apply activate_hardware_keeps_self |].
  split; [rewrite activate_hardware_world; apply sent_since_log |].
  intros Ht. apply start_game_unauthenticated.
  now rewrite activate_hardware_keeps_self.
Qed.

End Activation.

Section UnreachableInstances.
Import Scenarios.

Lemma unreachable_backend_witness :
  let r := EftBsg.main_loop env_down (EftBsg.endpoints env_down) c0 in
  fst r = Ret tt
  /\ files (EftBsg.EFTClient.cworld (snd r)) = ∅
  /\ length (out (EftBsg.EFTClient.cworld (snd r))) = 22%nat.
Proof.
  cbv zeta.
  destruct (unreachable_backend_stores_nothing env_down
              (Exn RequestException "Connection refused") (fun _ _ => eq_refl))
    as [H _].
  destruct (H c0) as (H1 & H2 & H3).
  split; [exact H1 |]. split; [exact H2 |]. rewrite H3. reflexivity.
Defined.

Lemma activation_witness :
  let s' := snd (EftBsg.EFTLauncher.activate_hardware (env_reply 200 ok_body) "123456" l0) in
  fst (EftBsg.EFTLauncher.activate_hardware (env_reply 200 ok_body) "123456" l0) = Ret true
  /\ EftBsg.EFTLauncher.start_game (env_reply 200 ok_body) s' = (Ret false, s').
Proof.
  cbv zeta. split; [vm_compute; reflexivity |].
  apply (activation_does_not_authenticate (env_reply 200 ok_body) "123456" l0).
  reflexivity.
Defined.

End UnreachableInstances.
